(** * Insider-trading scoring engine and backtest harness

    A shallow embedding of the scoring code of
    [insider_trading_detector.py], [backtest_analyzer.py] and
    [kalshi_insider_scan.py], and theorems about it.

    Numbers.  Python floats are read as exact rationals ([Q]); results
    are compared with [==].  The literals [0.1], [0.25], ... stand for the
    rationals they denote.  Rounding and the end of the float range are
    not modelled: a product that overflows to [inf], and the
    [OverflowError] of [share ** 2] on a share beyond that range, do not
    occur on rationals.

    Inputs.  The records below hold, under each key the code reads, a
    value of the type the code expects, and any key may be missing.  A
    size is a number or a string.  A JSON [null] under [size] or
    [resolvedTime], on which [float] raises [TypeError], is not an input
    of the model, and no theorem speaks about such an input.

    Exceptions.  A function that can let an exception escape on these
    inputs returns a [result]; a function whose body cannot raise on them
    returns a plain value.

    Dictionaries.  A Python [dict] keeps insertion order, and the code
    sorts and takes maxima over [items()], so a dict is an association
    list in insertion order. *)

From Stdlib Require Import QArith Qminmax Qabs Qround ZArith.
From Stdlib Require Import List String Bool Lia Lqa Permutation Sorted.
Import ListNotations.
Open Scope Q_scope.

(** ** Python helpers *)

(** The exceptions the code can raise on the modelled inputs. *)
Inductive exn : Type :=
| ZeroDivisionError
| KeyError (key : string)
| IndexError.

Inductive result (A : Type) : Type :=
| Ok (a : A)
| Raise (e : exn).
Arguments Ok {A} a.
Arguments Raise {A} e.

Definition bind {A B : Type} (r : result A) (k : A -> result B) : result B :=
  match r with
  | Ok a => k a
  | Raise e => Raise e
  end.

Notation "x <- c ;; k" := (bind c (fun x => k))
  (at level 61, c at next level, right associativity).

Fixpoint mapM {A B : Type} (f : A -> result B) (l : list A) : result (list B) :=
  match l with
  | [] => Ok []
  | x :: l' => y <- f x ;; ys <- mapM f l' ;; Ok (y :: ys)
  end.

(** [a > b] on floats. *)
Definition Qgt_bool (a b : Q) : bool := negb (Qle_bool a b).

(** [a < b] on floats. *)
Definition Qlt_bool (a b : Q) : bool := negb (Qle_bool b a).

(** [a / b], raising on a zero divisor. *)
Definition py_div (a b : Q) : result Q :=
  if Qeq_bool b 0 then Raise ZeroDivisionError else Ok (a / b).

(** [sum(xs)]: starts from 0 and adds left to right. *)
Definition py_sum (xs : list Q) : Q := fold_left Qplus xs 0.

(** [max(xs)] on a non-empty list; the first maximal element is kept. *)
Definition py_max (x : Q) (xs : list Q) : Q :=
  fold_left (fun m y => if Qgt_bool y m then y else m) xs x.

(** [max(items, key=...)]: the first item whose key is maximal. *)
Definition py_max_by {A : Type} (key : A -> Q) (x : A) (xs : list A) : A :=
  fold_left (fun m y => if Qgt_bool (key y) (key m) then y else m) xs x.

(** [round(x)] to the nearest integer, halves to even. *)
Definition round_half_even (x : Q) : Z :=
  let f := Qfloor x in
  match Qcompare (x - inject_Z f) (1 # 2) with
  | Lt => f
  | Gt => (f + 1)%Z
  | Eq => if Z.even f then f else (f + 1)%Z
  end.

(** [round(x, ndigits)]. *)
Definition py_round (x : Q) (ndigits : nat) : Q :=
  let scale := inject_Z (10 ^ Z.of_nat ndigits) in
  inject_Z (round_half_even (x * scale)) / scale.

(** [sorted(l, key=key)]: a stable insertion sort, ascending. *)
Fixpoint insert_by {A : Type} (key : A -> Q) (x : A) (l : list A) : list A :=
  match l with
  | [] => [x]
  | y :: l' =>
      if Qle_bool (key x) (key y) then x :: l else y :: insert_by key x l'
  end.

Definition sorted {A : Type} (key : A -> Q) (l : list A) : list A :=
  fold_right (insert_by key) [] l.

(** The order [sorted] produces. *)
Definition key_le {A : Type} (key : A -> Q) (a b : A) : Prop := key a <= key b.

(** [sorted(l, key=key, reverse=True)]: descending, equal keys keep their
    original order. *)
Definition sorted_reverse {A : Type} (key : A -> Q) (l : list A) : list A :=
  sorted (fun x => - key x) l.

(** [d[k] += v] on a [defaultdict(float)]. *)
Fixpoint dict_add (k : string) (v : Q) (d : list (string * Q))
  : list (string * Q) :=
  match d with
  | [] => [(k, 0 + v)]
  | (k', v') :: d' =>
      if String.eqb k k' then (k', v' + v) :: d'
      else (k', v') :: dict_add k v d'
  end.

(** [d[k].append(x)] on a [defaultdict(list)]. *)
Fixpoint dict_append {A : Type} (k : string) (x : A) (d : list (string * list A))
  : list (string * list A) :=
  match d with
  | [] => [(k, [x])]
  | (k', xs) :: d' =>
      if String.eqb k k' then (k', xs ++ [x]) :: d'
      else (k', xs) :: dict_append k x d'
  end.

Fixpoint dict_get {A : Type} (k : string) (d : list (string * A)) : option A :=
  match d with
  | [] => None
  | (k', v) :: d' => if String.eqb k k' then Some v else dict_get k d'
  end.

(** [d[k]]. *)
Definition dict_index {A : Type} (d : list (string * A)) (k : string) : result A :=
  match dict_get k d with
  | Some v => Ok v
  | None => Raise (KeyError k)
  end.

(** [d.get(k, default)]. *)
Definition dict_get_default {A : Type} (d : list (string * A)) (k : string)
    (default : A) : A :=
  match dict_get k d with
  | Some v => v
  | None => default
  end.

Definition values {A : Type} (d : list (string * A)) : list A := map snd d.

Definition is_empty {A : Type} (l : list A) : bool :=
  match l with
  | [] => true
  | _ => false
  end.

(** ** Trades *)

(** A size handed to [float(...)]: a number (or a numeric string), or a
    string that [float] rejects with [ValueError].  A [null], a list or a
    dict, on which [float] raises [TypeError], has no constructor here. *)
Inductive raw : Type :=
| Num (q : Q)
| Bad.

(** A trade record as received from the API: every key may be missing.
    Timestamps and prices are numeric when present. *)
Record trade : Type := mkTrade {
  timestamp : option Q;
  createdAt : option Q;
  outcome : option string;
  price : option Q;
  executionPrice : option Q;
  size : option raw;
  maker : option string;
  taker : option string
}.

Definition get2 {A : Type} (a b : option A) (default : A) : A :=
  match a with
  | Some x => x
  | None =>
      match b with
      | Some y => y
      | None => default
      end
  end.

(** [float(t.get('timestamp', t.get('createdAt', 0)))]. *)
Definition trade_timestamp (t : trade) : Q :=
  get2 (timestamp t) (createdAt t) 0.

(** [float(t.get('price', t.get('executionPrice', 0)))]. *)
Definition trade_price (t : trade) : Q :=
  get2 (price t) (executionPrice t) 0.

(** [t.get('maker', t.get('taker', 'unknown'))]. *)
Definition trade_address (t : trade) : string :=
  get2 (maker t) (taker t) "unknown"%string.

(** [t.get('outcome', 'unknown')]. *)
Definition trade_outcome (t : trade) : string :=
  match outcome t with
  | Some o => o
  | None => "unknown"%string
  end.

(** [float(t.get('size', 0))] on a size that is missing, a number or a
    string; [None] stands for [ValueError]. *)
Definition trade_size (t : trade) : option Q :=
  match size t with
  | None => Some 0
  | Some (Num q) => Some q
  | Some Bad => None
  end.

(** [statistics.mean] on a non-empty list. *)
Definition mean (xs : list Q) : Q :=
  py_sum xs / inject_Z (Z.of_nat (List.length xs)).

(** The sample variance under [statistics.stdev]. *)
Definition variance (xs : list Q) : Q :=
  let m := mean xs in
  py_sum (map (fun x => (x - m) * (x - m)) xs)
  / inject_Z (Z.of_nat (List.length xs) - 1).

(** [len(l)] as a float. *)
Definition len {A : Type} (l : list A) : Q := inject_Z (Z.of_nat (List.length l)).

(** ** Loops shared by the two detector files

    Both files group trades with the same [for trade in trades: try: ...
    except (KeyError, ValueError): continue] loops. *)

(** Group trade volume by address ([address_volumes]); a trade whose size
    raises [ValueError] takes the [continue] branch. *)
Definition address_volumes (trades : list trade) : list (string * Q) :=
  fold_left
    (fun d t =>
       match trade_size t with
       | Some sz => dict_add (trade_address t) sz d
       | None => d
       end)
    trades [].

(** Group trade volume by outcome label ([outcome_volumes]). *)
Definition outcome_volumes (trades : list trade) : list (string * Q) :=
  fold_left
    (fun d t =>
       match trade_size t with
       | Some sz => dict_add (trade_outcome t) sz d
       | None => d
       end)
    trades [].

(** ** insider_trading_detector.py *)

Module Detector.

(** [analyze_position_concentration]: the score.  [share ** 2] is the
    square of a rational.  The details dict is built from the same
    quantities after the divisions below and raises nothing more. *)
Definition analyze_position_concentration (trades : list trade) : result Q :=
  if is_empty trades then Ok 0 else
  let volumes := address_volumes trades in
  if is_empty volumes then Ok 0 else
  let total_volume := py_sum (values volumes) in
  market_shares <- mapM (fun vol => py_div vol total_volume) (values volumes) ;;
  let herfindahl := py_sum (map (fun share => share * share) market_shares) in
  let concentration_score := herfindahl * 10 in
  Ok concentration_score.

(** [analyze_volume_velocity]: score and details.  The whole computation
    sits in [try ... except Exception: return 0, {}], and the only call
    that can raise is [float(t.get('size', 0))] on a recent trade. *)
Definition analyze_volume_velocity (trades : list trade)
  : Q * list (string * Q) :=
  if is_empty trades then (0, []) else
  let trades_sorted := sorted trade_timestamp trades in
  match trades_sorted with
  | [] | [_] => (0, [])
  | first :: rest =>
      let first_time := trade_timestamp first in
      let last_time := trade_timestamp (last rest first) in
      let time_diff_hours :=
        if negb (Qeq_bool last_time first_time)
        then (last_time - first_time) / 3600 else 1 in
      let trades_per_hour := len trades_sorted / Qmax time_diff_hours (1 # 10) in
      let recent_trades :=
        filter (fun t => Qlt_bool (last_time - trade_timestamp t) 86400)
               trades_sorted in
      if forallb (fun t => match trade_size t with
                           | Some _ => true
                           | None => false
                           end)
                 recent_trades
      then
        let recent_volume :=
          py_sum (map (fun t => match trade_size t with
                                | Some s => s
                                | None => 0
                                end)
                      recent_trades) in
        let velocity_score := Qmin (trades_per_hour / 10) 10 in
        (velocity_score,
         [("trades_per_hour"%string, py_round trades_per_hour 2);
          ("recent_24h_trades"%string, len recent_trades);
          ("recent_24h_volume"%string, py_round recent_volume 2);
          ("velocity_score"%string, py_round velocity_score 2)])
      else (0, [])
  end.

(** [analyze_outcome_skew]: the score. *)
Definition analyze_outcome_skew (trades : list trade) : Q :=
  if is_empty trades then 0 else
  let volumes := outcome_volumes trades in
  if is_empty volumes then 0 else
  let total := py_sum (values volumes) in
  if Qeq_bool total 0 then 0 else
  let sorted_outcomes := sorted_reverse snd volumes in
  let largest_share :=
    match sorted_outcomes with
    | (_, vol) :: _ => vol / total
    | [] => 0
    end in
  let skew_score := Qabs (largest_share - (1 # 2)) * 20 in
  let skew_score := Qmin skew_score 10 in
  skew_score.

(** [analyze_price_movement]: the score.  [statistics.stdev] takes a
    square root; the root function is a parameter. *)
Section PriceMovement.

Variable py_sqrt : Q -> Q.

Definition stdev (xs : list Q) : Q := py_sqrt (variance xs).

(** [abs(prices[i] - prices[i-1]) / prices[i-1]] for [i] from 1, where
    [prices[i-1] != 0]. *)
Fixpoint price_changes (prices : list Q) : list Q :=
  match prices with
  | prev :: (cur :: _) as rest =>
      if negb (Qeq_bool prev 0)
      then Qabs (cur - prev) / prev :: price_changes rest
      else price_changes rest
  | _ => []
  end.

Definition analyze_price_movement (trades : list trade) : Q :=
  if is_empty trades then 0 else
  let trades_sorted := sorted trade_timestamp trades in
  if (List.length trades_sorted <? 3)%nat then 0 else
  (* [size = float(...)] is evaluated for every trade inside the [try] *)
  if negb (forallb (fun t => match trade_size t with Some _ => true | None => false end)
                   trades_sorted)
  then 0 else
  let prices :=
    filter (fun p => Qgt_bool p 0) (map trade_price trades_sorted) in
  if (List.length prices <? 2)%nat then 0 else
  let changes := price_changes prices in
  if is_empty changes then 0 else
  let avg_change := mean changes in
  let volatility :=
    if (1 <? List.length changes)%nat then stdev changes else 0 in
  let movement_score := Qmin ((avg_change + volatility) * 50) 10 in
  movement_score.

End PriceMovement.

(** One entry of an address's trade list in [analyze_whale_accumulation]. *)
Record fill : Type := mkFill {
  fill_size : Q;
  fill_timestamp : Q;
  fill_price : Q
}.

Record whale : Type := mkWhale {
  address : string;
  total_position : Q;
  num_trades : nat;
  avg_trade_size : Q;
  accumulation_time_hours : Q;
  accumulation_speed : Q
}.

Definition address_trades (trades : list trade) : list (string * list fill) :=
  fold_left
    (fun d t =>
       match trade_size t with
       | Some sz =>
           dict_append (trade_address t)
                       (mkFill sz (trade_timestamp t) (trade_price t)) d
       | None => d
       end)
    trades [].

(** The [whale_data] list: one record per address with two trades or more,
    in the order of the dict. *)
Fixpoint whale_data (groups : list (string * list fill)) : list whale :=
  match groups with
  | [] => []
  | (addr, trade_list) :: groups' =>
      let total_size := py_sum (map fill_size trade_list) in
      let n := List.length trade_list in
      if (2 <=? n)%nat then
        match sorted fill_timestamp trade_list with
        | [] => whale_data groups'
        | first :: rest =>
            let time_span := fill_timestamp (last rest first) - fill_timestamp first in
            mkWhale (substring 0 10 addr ++ "...")
                    total_size n
                    (total_size / len trade_list)
                    (if Qgt_bool time_span 0 then time_span / 3600 else 0)
                    (total_size / Qmax (time_span / 3600) 1)
            :: whale_data groups'
        end
      else whale_data groups'
  end.

(** [analyze_whale_accumulation]: the score. *)
Definition analyze_whale_accumulation (trades : list trade) : Q :=
  if is_empty trades then 0 else
  let whales := whale_data (address_trades trades) in
  if is_empty whales then 0 else
  match sorted_reverse total_position whales with
  | top_whale :: _ => Qmin (accumulation_speed top_whale / 100) 10
  | [] => 0
  end.

(** [calculate_insider_probability]: every score is read with
    [scores[key]], in the order of the sum. *)
Definition calculate_insider_probability (scores : list (string * Q))
  : result Q :=
  concentration <- dict_index scores "concentration" ;;
  velocity <- dict_index scores "velocity" ;;
  skew <- dict_index scores "skew" ;;
  movement <- dict_index scores "movement" ;;
  whale_score <- dict_index scores "whale" ;;
  let weighted_score :=
    concentration * (25 # 100) + velocity * (15 # 100) + skew * (20 # 100)
    + movement * (15 # 100) + whale_score * (25 # 100) in
  Ok (Qmin (weighted_score / 10) 1).

(** The [top_whales] entry of the details of [analyze_whale_accumulation]:
    the five largest positions, and nothing when the details are [{}]. *)
Definition top_whales (trades : list trade) : list whale :=
  if is_empty trades then [] else
  let whales := whale_data (address_trades trades) in
  if is_empty whales then [] else
  firstn 5 (sorted_reverse total_position whales).

(** The keys of a market dict that [analyze_market] reads. *)
Record market : Type := mkMarket {
  key_id : option string;
  key_market_id : option string;
  key_condition_id : option string;
  key_title : option string;
  key_question : option string;
  key_description : option string
}.

(** An element of the market list: the API may hand back bare strings. *)
Inductive market_json : Type :=
| MarketString (s : string)
| MarketDict (m : market).

Record TradeAnalysis : Type := mkTradeAnalysis {
  market_id : string;
  market_title : string;
  sentiment_score : Q;
  risk_score : Q;
  insider_probability : Q;
  indicators : list (string * Q);
  recent_trades : list trade;
  whale_addresses : list whale
}.

Definition get3 {A : Type} (a b c : option A) (default : A) : A :=
  match a with
  | Some x => x
  | None => get2 b c default
  end.

Section Analysis.

(** The square root under [statistics.stdev] and the two fetchers. *)
Variable py_sqrt : Q -> Q.
Variable fetch_market_trades : string -> list trade.
Variable fetch_active_markets : nat -> list market_json.

Definition analyze_market (market : market_json)
  : result (option TradeAnalysis) :=
  match market with
  | MarketString _ => Ok None
  | MarketDict m =>
      let market_id :=
        get3 (key_id m) (key_market_id m) (key_condition_id m) ""%string in
      let market_title :=
        get3 (key_title m) (key_question m) (key_description m)
             "Unknown Market"%string in
      if String.eqb market_id "" then Ok None else
      let trades := fetch_market_trades market_id in
      if is_empty trades then Ok None else
      concentration_score <- analyze_position_concentration trades ;;
      let velocity_score := fst (analyze_volume_velocity trades) in
      let skew_score := analyze_outcome_skew trades in
      let movement_score := analyze_price_movement py_sqrt trades in
      let whale_score := analyze_whale_accumulation trades in
      let scores :=
        [("concentration"%string, concentration_score);
         ("velocity"%string, velocity_score);
         ("skew"%string, skew_score);
         ("movement"%string, movement_score);
         ("whale"%string, whale_score)] in
      insider_prob <- calculate_insider_probability scores ;;
      let risk_score := (concentration_score + velocity_score + skew_score) / 3 in
      let indicators :=
        [("Concentration Score"%string, py_round concentration_score 2);
         ("Velocity Score"%string, py_round velocity_score 2);
         ("Outcome Skew Score"%string, py_round skew_score 2);
         ("Price Movement Score"%string, py_round movement_score 2);
         ("Whale Activity Score"%string, py_round whale_score 2)] in
      let recent_trades := firstn 10 (sorted_reverse trade_timestamp trades) in
      Ok (Some (mkTradeAnalysis market_id market_title skew_score risk_score
                                insider_prob indicators recent_trades
                                (top_whales trades)))
  end.

(** The loop of [run_detection]: the analyses that are not [None], in the
    order of the markets. *)
Fixpoint collect_analyses (markets : list market_json)
    (results : list TradeAnalysis) : result (list TradeAnalysis) :=
  match markets with
  | [] => Ok results
  | market :: markets' =>
      analysis <- analyze_market market ;;
      match analysis with
      | Some a => collect_analyses markets' (results ++ [a])
      | None => collect_analyses markets' results
      end
  end.

Definition run_detection (num_markets : nat) : result (list TradeAnalysis) :=
  let markets := fetch_active_markets num_markets in
  if is_empty markets then Ok [] else
  results <- collect_analyses markets [] ;;
  Ok (sorted_reverse insider_probability results).

End Analysis.

End Detector.

(** ** backtest_analyzer.py *)

Module Backtester.

Record BacktestResult : Type := mkBacktestResult {
  market_id : string;
  market_title : string;
  signal_timestamp : Q;
  analysis_timestamp : Q;
  insider_probability : Q;
  indicator_scores : list (string * Q);
  pre_signal_price : Q;
  post_signal_price : Q;
  price_movement : Q;
  price_movement_pct : Q;
  predicted_correctly : bool;
  outcome_prediction : string;
  actual_outcome : option string;
  market_resolved : bool;
  time_to_resolution_hours : option Q;
  trades_analyzed : nat
}.

Definition get_trades_before_timestamp (trades : list trade) (ts : Q)
  : list trade :=
  filter (fun t => Qlt_bool (trade_timestamp t) ts) trades.

Definition get_trades_after_timestamp (trades : list trade) (ts : Q)
    (window_hours : Q) : list trade :=
  let end_time := ts + window_hours * 3600 in
  filter (fun t => Qle_bool ts (trade_timestamp t)
                   && Qlt_bool (trade_timestamp t) end_time)
         trades.

(** [analyze_position_concentration]: the score.  [share ** 2] is the
    square of a rational. *)
Definition analyze_position_concentration (trades : list trade) : result Q :=
  if is_empty trades then Ok 0 else
  let volumes := address_volumes trades in
  if is_empty volumes then Ok 0 else
  let total_volume := py_sum (values volumes) in
  market_shares <- mapM (fun vol => py_div vol total_volume) (values volumes) ;;
  let herfindahl := py_sum (map (fun share => share * share) market_shares) in
  let concentration_score := herfindahl * 10 in
  Ok (Qmin concentration_score 10).

(** [analyze_volume_velocity]: score and details; nothing inside the [try]
    can raise. *)
Definition analyze_volume_velocity (trades : list trade)
  : Q * list (string * Q) :=
  if is_empty trades then (0, []) else
  let trades_sorted := sorted trade_timestamp trades in
  match trades_sorted with
  | [] | [_] => (0, [])
  | first :: rest =>
      let first_time := trade_timestamp first in
      let last_time := trade_timestamp (last rest first) in
      let time_diff_hours :=
        if negb (Qeq_bool last_time first_time)
        then (last_time - first_time) / 3600 else 1 in
      let trades_per_hour := len trades_sorted / Qmax time_diff_hours (1 # 10) in
      let velocity_score := Qmin (trades_per_hour / 10) 10 in
      (velocity_score, [("trades_per_hour"%string, py_round trades_per_hour 2)])
  end.

Record skew_details : Type := mkSkewDetails {
  outcome_distribution : list (string * Q);
  largest_outcome_share : Q
}.

(** [analyze_outcome_skew]: score and details ([None] is the empty dict).
    The distribution divides by [total] whatever its value. *)
Definition analyze_outcome_skew (trades : list trade)
  : result (Q * option skew_details) :=
  if is_empty trades then Ok (0, None) else
  let volumes := outcome_volumes trades in
  match values volumes with
  | [] => Ok (0, None)
  | vol0 :: vols =>
      let total := py_sum (values volumes) in
      let largest_share :=
        if Qgt_bool total 0
        then py_max (vol0 / total) (map (fun vol => vol / total) vols)
        else 0 in
      let skew_score := Qmin (Qabs (largest_share - (1 # 2)) * 20) 10 in
      let sorted_outcomes := sorted_reverse snd volumes in
      distribution <-
        mapM (fun item : string * Q =>
                share <- py_div (snd item) total ;;
                Ok (fst item, py_round share 3))
             sorted_outcomes ;;
      Ok (skew_score,
          Some (mkSkewDetails distribution (py_round largest_share 3)))
  end.

(** [address_trades]: the sizes of each address's trades. *)
Definition address_trades (trades : list trade) : list (string * list Q) :=
  fold_left
    (fun d t =>
       match trade_size t with
       | Some sz => dict_append (trade_address t) sz d
       | None => d
       end)
    trades [].

(** The [total_position] of every address with two trades or more. *)
Fixpoint whale_data (groups : list (string * list Q)) : list Q :=
  match groups with
  | [] => []
  | (_, trade_list) :: groups' =>
      let total_size := py_sum trade_list in
      if (2 <=? List.length trade_list)%nat
      then total_size :: whale_data groups'
      else whale_data groups'
  end.

(** [analyze_whale_accumulation]: the score. *)
Definition analyze_whale_accumulation (trades : list trade) : Q :=
  if is_empty trades then 0 else
  match whale_data (address_trades trades) with
  | [] => 0
  | w :: ws =>
      let top_position := py_max w ws in
      Qmin (top_position / 1000) 10
  end.

(** [calculate_insider_probability]: four terms, each read with
    [scores.get(key, 0)]; the movement weight is declared and not used. *)
Definition calculate_insider_probability (scores : list (string * Q)) : Q :=
  let weighted_score :=
    dict_get_default scores "concentration" 0 * (25 # 100)
    + dict_get_default scores "velocity" 0 * (15 # 100)
    + dict_get_default scores "skew" 0 * (20 # 100)
    + dict_get_default scores "whale" 0 * (25 # 100) in
  Qmin (weighted_score / 10) 1.

Definition get_market_price_at_timestamp (trades : list trade) (ts : Q)
  : option Q :=
  let nearby_trades :=
    sorted (fun t => Qabs (trade_timestamp t - ts))
           (filter (fun t => Qlt_bool (Qabs (trade_timestamp t - ts)) 300)
                   trades) in
  match nearby_trades with
  | t :: _ => Some (trade_price t)
  | [] => None
  end.

(** The body of the loop of [find_signal_point] up to [signal]. *)
Definition window_signal (window_trades : list trade) : result Q :=
  concentration_score <- analyze_position_concentration window_trades ;;
  let velocity_score := fst (analyze_volume_velocity window_trades) in
  skew <- analyze_outcome_skew window_trades ;;
  let skew_score := fst skew in
  let whale_score := analyze_whale_accumulation window_trades in
  let scores :=
    [("concentration"%string, concentration_score);
     ("velocity"%string, velocity_score);
     ("skew"%string, skew_score);
     ("whale"%string, whale_score);
     ("movement"%string, 0)] in
  Ok (calculate_insider_probability scores).

(** The loop [for i in range(10, len(trades_sorted))], carrying
    [max_signal] and [signal_timestamp]. *)
Fixpoint scan (trades_sorted : list trade) (indices : list nat)
    (max_signal : Q) (signal_ts : option Q) : result (option Q * Q) :=
  match indices with
  | [] => Ok (signal_ts, max_signal)
  | i :: indices' =>
      signal <- window_signal (firstn i trades_sorted) ;;
      if Qgt_bool signal max_signal then
        match nth_error trades_sorted i with
        | Some t => scan trades_sorted indices' signal (Some (trade_timestamp t))
        | None => Raise IndexError
        end
      else scan trades_sorted indices' max_signal signal_ts
  end.

(** [find_signal_point]: [None] is the pair [(None, None)] returned below
    ten trades; otherwise [Some (signal_timestamp, max_signal)], where the
    timestamp may still be [None]. *)
Definition find_signal_point (trades : list trade)
  : result (option (option Q * Q)) :=
  if (List.length trades <? 10)%nat then Ok None else
  let trades_sorted := sorted trade_timestamp trades in
  r <- scan trades_sorted
            (seq 10 (List.length trades_sorted - 10)) 0 None ;;
  Ok (Some r).

Record market : Type := mkMarket {
  id : option string;
  title : option string;
  question : option string
}.

(** The resolution metadata of [fetch_market_history].  For
    [resolutionSource] and [resolvedBy], which the code only tests and
    compares, a missing key and a [null] value both read as [None].  For
    [resolvedTime], which the code hands to [float], [None] is a missing
    key and [Some] a number. *)
Record market_history : Type := mkHistory {
  resolutionSource : option string;
  resolvedBy : option string;
  resolvedTime : option Q
}.

Definition is_some {A : Type} (o : option A) : bool :=
  match o with
  | Some _ => true
  | None => false
  end.

(** Truth value of [actual_outcome]: [None] and the empty string are
    false. *)
Definition truthy (o : option string) : bool :=
  match o with
  | Some s => negb (String.eqb s "")
  | None => false
  end.

Section Backtest.

(** The collaborators of [backtest_market]: the two fetchers and the
    clock. *)
Variable fetch_historical_trades : string -> list trade.
Variable fetch_market_history : string -> market_history.
Variable now : Q.

Definition backtest_market (m : market) : result (option BacktestResult) :=
  let market_id := match id m with Some i => i | None => ""%string end in
  let market_title := get2 (title m) (question m) ""%string in
  if String.eqb market_id "" then Ok None else
  let all_trades := fetch_historical_trades market_id in
  if is_empty all_trades || (List.length all_trades <? 5)%nat then Ok None else
  signal <- find_signal_point all_trades ;;
  match signal with
  | None | Some (None, _) => Ok None
  | Some (Some signal_timestamp, insider_prob) =>
      let trades_at_signal :=
        get_trades_before_timestamp all_trades signal_timestamp in
      let trades_after_signal :=
        get_trades_after_timestamp all_trades signal_timestamp 24 in
      concentration_score <- analyze_position_concentration trades_at_signal ;;
      let velocity_score := fst (analyze_volume_velocity trades_at_signal) in
      skew <- analyze_outcome_skew trades_at_signal ;;
      let skew_score := fst skew in
      let whale_score := analyze_whale_accumulation trades_at_signal in
      let indicator_scores :=
        [("Concentration"%string, py_round concentration_score 2);
         ("Velocity"%string, py_round velocity_score 2);
         ("Skew"%string, py_round skew_score 2);
         ("Whale"%string, py_round whale_score 2)] in
      let pre_signal_price :=
        get_market_price_at_timestamp trades_at_signal signal_timestamp in
      let post_signal_price :=
        get_market_price_at_timestamp all_trades (signal_timestamp + 3600) in
      match pre_signal_price, post_signal_price with
      | Some pre, Some post =>
          let price_movement := post - pre in
          let price_movement_pct :=
            if Qgt_bool pre 0 then price_movement / pre * 100 else 0 in
          let outcome_skew_data := snd skew in
          let outcome_prediction :=
            match outcome_skew_data with
            | Some d =>
                match outcome_distribution d with
                | item :: items => fst (py_max_by snd item items)
                | [] => "unknown"%string
                end
            | None => "unknown"%string
            end in
          let history := fetch_market_history market_id in
          let market_resolved := is_some (resolutionSource history) in
          let actual_outcome := resolvedBy history in
          let resolved := market_resolved && truthy actual_outcome in
          let time_to_resolution :=
            if resolved then
              let resolution_timestamp :=
                match resolvedTime history with
                | Some rt => rt
                | None => signal_timestamp + 86400
                end in
              Some ((resolution_timestamp - signal_timestamp) / 3600)
            else None in
          let predicted_correctly :=
            if resolved then
              match actual_outcome with
              | Some actual => String.eqb outcome_prediction actual
              | None => false
              end
            else false in
          Ok (Some (mkBacktestResult
                      market_id market_title signal_timestamp now insider_prob
                      indicator_scores
                      (py_round pre 4) (py_round post 4)
                      (py_round price_movement 4)
                      (py_round price_movement_pct 2)
                      predicted_correctly outcome_prediction actual_outcome
                      market_resolved time_to_resolution
                      (List.length trades_at_signal)))
      | _, _ => Ok None
      end
  end.

End Backtest.

(** [get_outcome_skew_for_outcome]: the volume share of one outcome. *)
Definition get_outcome_skew_for_outcome (trades : list trade)
    (target_outcome : string) : Q :=
  let volumes := outcome_volumes trades in
  let total := py_sum (values volumes) in
  if Qeq_bool total 0 then 1 # 2 else
  dict_get_default volumes target_outcome 0 / total.

Section Batch.

Variable fetch_resolved_markets : nat -> list market.
Variable fetch_historical_trades : string -> list trade.
Variable fetch_market_history : string -> market_history.
Variable now : Q.

(** The loop of [run_backtest]: the results that are not [None], in the
    order of the markets (the pause after every tenth market is left
    out). *)
Fixpoint collect_results (markets : list market)
    (results : list BacktestResult) : result (list BacktestResult) :=
  match markets with
  | [] => Ok results
  | m :: markets' =>
      r <- backtest_market fetch_historical_trades fetch_market_history now m ;;
      match r with
      | Some x => collect_results markets' (results ++ [x])
      | None => collect_results markets' results
      end
  end.

Definition run_backtest (num_markets : nat) : result (list BacktestResult) :=
  let markets := fetch_resolved_markets num_markets in
  if is_empty markets then Ok [] else
  collect_results markets [].

End Batch.

(** The figures [print_backtest_results] computes before it prints them;
    [None] when there is nothing to display. *)
Record metrics : Type := mkMetrics {
  correct_count : nat;
  accuracy : Q;
  avg_price_movement : Q;
  avg_insider_prob : Q;
  high_signal : list BacktestResult;
  very_high_signal : list BacktestResult;
  resolved_count : nat
}.

Definition print_backtest_results (results : list BacktestResult)
  : option metrics :=
  if is_empty results then None else
  let correct := List.length (filter predicted_correctly results) in
  let accuracy := inject_Z (Z.of_nat correct) / len results * 100 in
  Some (mkMetrics
          correct accuracy
          (mean (map price_movement_pct results))
          (mean (map insider_probability results))
          (filter (fun r => Qgt_bool (insider_probability r) (6 # 10)) results)
          (filter (fun r => Qgt_bool (insider_probability r) (8 # 10)) results)
          (List.length (filter market_resolved results))).

Record effectiveness : Type := mkEffectiveness {
  avg_when_correct : Q;
  avg_when_incorrect : Q;
  effectiveness_delta : Q;
  frequency_in_correct : nat;
  frequency_in_incorrect : nat
}.

(** [d[k] = v] on a dict. *)
Fixpoint dict_set {A : Type} (k : string) (v : A) (d : list (string * A))
  : list (string * A) :=
  match d with
  | [] => [(k, v)]
  | (k', v') :: d' =>
      if String.eqb k k' then (k', v) :: d' else (k', v') :: dict_set k v d'
  end.

(** One round of the loop of [analyze_indicator_effectiveness]. *)
Definition indicator_effectiveness (results : list BacktestResult)
    (indicator : string) : result effectiveness :=
  _ <- mapM (fun r => dict_index (indicator_scores r) indicator) results ;;
  correct_scores <-
    mapM (fun r => dict_index (indicator_scores r) indicator)
         (filter predicted_correctly results) ;;
  incorrect_scores <-
    mapM (fun r => dict_index (indicator_scores r) indicator)
         (filter (fun r => negb (predicted_correctly r)) results) ;;
  let avg_correct :=
    if is_empty correct_scores then 0 else mean correct_scores in
  let avg_incorrect :=
    if is_empty incorrect_scores then 0 else mean incorrect_scores in
  let eff :=
    if negb (is_empty correct_scores) && negb (is_empty incorrect_scores)
    then avg_correct - avg_incorrect else 0 in
  Ok (mkEffectiveness (py_round avg_correct 2) (py_round avg_incorrect 2)
                      (py_round eff 2)
                      (List.length correct_scores)
                      (List.length incorrect_scores)).

Fixpoint effectiveness_loop (results : list BacktestResult)
    (indicator_names : list string) (acc : list (string * effectiveness))
  : result (list (string * effectiveness)) :=
  match indicator_names with
  | [] => Ok acc
  | indicator :: names' =>
      e <- indicator_effectiveness results indicator ;;
      effectiveness_loop results names' (dict_set indicator e acc)
  end.

(** [analyze_indicator_effectiveness]: the dict it returns (the ranking is
    only printed). *)
Definition analyze_indicator_effectiveness (results : list BacktestResult)
  : result (list (string * effectiveness)) :=
  let indicator_names :=
    match results with
    | r :: _ => map fst (indicator_scores r)
    | [] => []
    end in
  effectiveness_loop results indicator_names [].

End Backtester.

(** ** kalshi_insider_scan.py *)

Module Kalshi.

Record KalshiAnalysis : Type := mkKalshiAnalysis {
  yes_price : Q;
  no_price : Q;
  skew : Q;
  suspicious_score : Q;
  volume : Q;
  closed : bool
}.

(** The keys of a market dict that [analyze_market] turns into numbers. *)
Record market : Type := mkMarket {
  m_yes_price : option Q;
  m_yesPrice : option Q;
  m_no_price : option Q;
  m_noPrice : option Q;
  m_volume : option Q;
  m_volume_24h : option Q;
  m_closed : option bool
}.

Definition calculate_skew (yes_price no_price : Q) : Q :=
  let total := yes_price + no_price in
  if Qeq_bool total 0 then 0 else
  let yes_prob := yes_price / total in
  Qabs (yes_prob - (1 # 2)) * 2.

(** [analyze_market]: the numeric fields of the analysis (the id, title and
    status strings are copied through and left out). *)
Definition analyze_market (m : market) : KalshiAnalysis :=
  let yes_price := get2 (m_yes_price m) (m_yesPrice m) (1 # 2) in
  let no_price := get2 (m_no_price m) (m_noPrice m) (1 # 2) in
  let skew := calculate_skew yes_price no_price in
  let total :=
    if Qgt_bool (yes_price + no_price) 0 then yes_price + no_price else 1 in
  let yes_prob := yes_price / total * 100 in
  let no_prob := no_price / total * 100 in
  let suspicious_score := skew * 10 in
  let volume := get2 (m_volume m) (m_volume_24h m) 0 in
  let closed := match m_closed m with Some c => c | None => false end in
  mkKalshiAnalysis yes_prob no_prob skew suspicious_score volume closed.

(** [fetch_active_markets], after the request: the markets of the
    response that are not closed. *)
Definition fetch_active_markets (markets : list market) : list market :=
  filter (fun m => negb (match m_closed m with Some c => c | None => false end))
         markets.

(** [run_scan] on the markets of the response. *)
Definition run_scan (response : list market) (min_score : Q)
  : list KalshiAnalysis :=
  let markets := fetch_active_markets response in
  if is_empty markets then [] else
  let results :=
    filter (fun a => Qle_bool min_score (suspicious_score a))
           (map analyze_market markets) in
  sorted_reverse suspicious_score results.

End Kalshi.

(** ** The aggregation formula of the specification *)

(** The five-weight formula: [min(sum(weight_i * score_i) / 10, 1.0)]. *)
Definition weighted_probability (concentration velocity skew movement whale : Q)
  : Q :=
  Qmin ((concentration * (25 # 100) + velocity * (15 # 100)
         + skew * (20 # 100) + movement * (15 # 100)
         + whale * (25 # 100)) / 10) 1.

(** The aggregator as the specification words it: the five-weight formula
    with 0 for every score the mapping lacks. *)
Definition aggregate_spec (scores : list (string * Q)) : Q :=
  weighted_probability
    (dict_get_default scores "concentration" 0)
    (dict_get_default scores "velocity" 0)
    (dict_get_default scores "skew" 0)
    (dict_get_default scores "movement" 0)
    (dict_get_default scores "whale" 0).

(** ** The signal-point scan of the specification *)

(** The scan as the specification words it: prefix lengths from 10 to
    [len(trades)], each prefix paired with the timestamp of its own last
    trade; the update is on strict [>]. *)
Fixpoint scan_spec (trades_sorted : list trade) (lengths : list nat)
    (max_signal : Q) (signal_ts : option Q) : result (option Q * Q) :=
  match lengths with
  | [] => Ok (signal_ts, max_signal)
  | i :: lengths' =>
      signal <- Backtester.window_signal (firstn i trades_sorted) ;;
      if Qgt_bool signal max_signal then
        scan_spec trades_sorted lengths' signal
                  (option_map trade_timestamp (nth_error trades_sorted (i - 1)))
      else scan_spec trades_sorted lengths' max_signal signal_ts
  end.

Definition find_signal_point_spec (trades : list trade)
  : result (option (option Q * Q)) :=
  if (List.length trades <? 10)%nat then Ok None else
  let trades_sorted := sorted trade_timestamp trades in
  r <- scan_spec trades_sorted
                 (seq 10 (List.length trades_sorted - 9)) 0 None ;;
  Ok (Some r).

(** ** The velocity formulas *)

(** Velocity as the specification words it: the elapsed time between the
    first and the last trade, floored at 0.1 hours. *)
Definition velocity_spec (trades : list trade) : Q :=
  match sorted trade_timestamp trades with
  | [] => 0
  | first :: rest =>
      let time_span_hours :=
        (trade_timestamp (last rest first) - trade_timestamp first) / 3600 in
      let trades_per_hour := len trades / Qmax time_span_hours (1 # 10) in
      Qmin (trades_per_hour / 10) 10
  end.

(** Velocity with the time span read as one hour when the first and the
    last timestamp are equal. *)
Definition velocity_formula (count first_time last_time : Q) : Q :=
  let time_span_hours :=
    if Qeq_bool last_time first_time then 1
    else (last_time - first_time) / 3600 in
  let trades_per_hour := count / Qmax time_span_hours (1 # 10) in
  Qmin (trades_per_hour / 10) 10.

(** ** Sample data *)

Definition sample_trade (ts : Q) (label addr : string) (p sz : Q) : trade :=
  mkTrade (Some ts) None (Some label) (Some p) None (Some (Num sz))
          (Some addr) None.

(** Eleven trades ten seconds apart and a twelfth an hour later, all by one
    address on one outcome. *)
Definition sample_trades : list trade :=
  map (fun n => sample_trade (inject_Z (Z.of_nat n) * 10) "YES" "0xa" (1 # 2) 1000)
      (seq 0 11)
  ++ [sample_trade 3700 "YES" "0xa" (3 # 5) 1000].

(** The probability at the signal point of [sample_trades]. *)
Definition sample_probability : Q :=
  Eval vm_compute in
    match Backtester.find_signal_point sample_trades with
    | Ok (Some (_, p)) => p
    | _ => 0
    end.

Definition sample_market : Backtester.market :=
  Backtester.mkMarket (Some "m1"%string) (Some "Sample"%string) None.

Definition unresolved_history : Backtester.market_history :=
  Backtester.mkHistory None None None.

Definition resolved_history : Backtester.market_history :=
  Backtester.mkHistory (Some "oracle"%string) (Some "YES"%string) (Some 7300).

(** ** What the signal-point finder computes *)

(** What [find_signal_point] computes on [trades], given the signal
    [sig i] of every window [trades_sorted[:i]] it scores: the windows have
    10 to [len(trades) - 1] trades, and the timestamp returned is that of
    [trades_sorted[i]], the trade that follows the window. *)
Definition signal_point_scan (trades : list trade) (sig : nat -> Q) : Prop :=
  let trades_sorted := sorted trade_timestamp trades in
  let n := List.length trades in
  Permutation trades trades_sorted
  /\ StronglySorted (key_le trade_timestamp) trades_sorted
  /\ (forall i, (10 <= i < n)%nat ->
        exists c sk,
          Backtester.analyze_position_concentration (firstn i trades_sorted) = Ok c
          /\ Backtester.analyze_outcome_skew (firstn i trades_sorted) = Ok sk
          /\ sig i == weighted_probability
                        c
                        (fst (Backtester.analyze_volume_velocity
                                (firstn i trades_sorted)))
                        (fst sk) 0
                        (Backtester.analyze_whale_accumulation
                           (firstn i trades_sorted)))
  /\ (((forall i, (10 <= i < n)%nat -> sig i <= 0)
       /\ Backtester.find_signal_point trades = Ok (Some (None, 0)))
      \/ (exists i t,
            (10 <= i < n)%nat
            /\ nth_error trades_sorted i = Some t
            /\ Backtester.find_signal_point trades
               = Ok (Some (Some (trade_timestamp t), sig i))
            /\ 0 < sig i
            /\ (forall j, (10 <= j < n)%nat -> sig j <= sig i)
            /\ (forall j, (10 <= j < i)%nat -> sig j < sig i))).

(** The window signals of [sample_trades]. *)
Definition sample_sig (i : nat) : Q :=
  match Backtester.window_signal
          (firstn i (sorted trade_timestamp sample_trades)) with
  | Ok p => p
  | Raise _ => 0
  end.

(** ** Volume splits *)

(** [M] is the largest volume of a grouping. *)
Definition max_volume_of (volumes : list (string * Q)) (M : Q) : Prop :=
  (exists o v, In (o, v) volumes /\ v == M)
  /\ forall o v, In (o, v) volumes -> v <= M.

(** The volume is split 50/50 between exactly two outcomes. *)
Definition split_50_50 (volumes : list (string * Q)) : Prop :=
  exists o1 o2 v1 v2, volumes = [(o1, v1); (o2, v2)] /\ v1 == v2.

(** The volume is split 100/0: one outcome holds the whole volume. *)
Definition split_100_0 (volumes : list (string * Q)) : Prop :=
  exists o v, In (o, v) volumes /\ v == py_sum (values volumes).

(** Three outcomes with volumes 2, 1 and 1. *)
Definition three_way_trades : list trade :=
  [sample_trade 0 "A" "0xa" (1 # 2) 2;
   sample_trade 10 "B" "0xb" (1 # 2) 1;
   sample_trade 20 "C" "0xc" (1 # 2) 1].

(** ** What the skew indicators compute *)

(** What the two skew indicators return on [trades] whose largest outcome
    volume is [M]. *)
Definition skew_extremes (trades : list trade) (M : Q) : Prop :=
  let volumes := outcome_volumes trades in
  let total := py_sum (values volumes) in
  exists sk,
    Backtester.analyze_outcome_skew trades = Ok sk
    /\ fst sk == Detector.analyze_outcome_skew trades
    /\ (Detector.analyze_outcome_skew trades == 0 <-> M * 2 == total)
    /\ (split_50_50 volumes -> Detector.analyze_outcome_skew trades == 0)
    /\ (split_100_0 volumes -> Detector.analyze_outcome_skew trades == 10).

(** One trade on each of two outcomes, equal volume. *)
Definition two_sided_trades : list trade :=
  [sample_trade 0 "YES" "0xa" (1 # 2) 10;
   sample_trade 10 "NO" "0xb" (1 # 2) 10].

(** ** A lopsided market *)

(** A market quoted 0.99 / 0.01 and a trade set with the same shares. *)
Definition lopsided_market : Kalshi.market :=
  Kalshi.mkMarket (Some (99 # 100)) None (Some (1 - (99 # 100))) None
                  None None None.

Definition lopsided_trades : list trade :=
  [sample_trade 0 "YES" "0xa" (99 # 100) 99;
   sample_trade 10 "NO" "0xb" (1 # 100) 1].

(** The same market quoted in cents, 99 / 1, the yes price under the key
    [yesPrice]; and a market with no quote on either side. *)
Definition cents_market : Kalshi.market :=
  Kalshi.mkMarket None (Some 99) (Some 1) None None None None.

Definition unquoted_market : Kalshi.market :=
  Kalshi.mkMarket (Some 0) None (Some 0) None None None None.

(** ** Malformed trades *)

(** [t] with its address keys set to [maker = addr]. *)
Definition with_maker (addr : string) (t : trade) : trade :=
  mkTrade (timestamp t) (createdAt t) (outcome t) (price t)
          (executionPrice t) (size t) (Some addr) (taker t).

(** [t] with its size key set. *)
Definition with_size (sz : raw) (t : trade) : trade :=
  mkTrade (timestamp t) (createdAt t) (outcome t) (price t)
          (executionPrice t) (Some sz) (maker t) (taker t).

(** A trade with neither [maker] nor [taker]. *)
Definition no_address_trade : trade :=
  mkTrade (Some 20) None (Some "YES"%string) (Some (1 # 2)) None
          (Some (Num 500)) None None.

(** A trade of address [0xa] with no [size]. *)
Definition no_size_trade : trade :=
  mkTrade (Some 20) None (Some "YES"%string) (Some (1 # 2)) None
          None (Some "0xa"%string) None.

(** A trade of address [0xa] whose size does not parse. *)
Definition bad_size_trade : trade :=
  mkTrade (Some 20) None (Some "YES"%string) (Some (1 # 2)) None
          (Some Bad) (Some "0xa"%string) None.

(** The scores of the indicators that group trades by address. *)
Definition address_scores (trades : list trade)
  : result Q * Q * result Q * Q :=
  (Detector.analyze_position_concentration trades,
   Detector.analyze_whale_accumulation trades,
   Backtester.analyze_position_concentration trades,
   Backtester.analyze_whale_accumulation trades).

(** Every size that parses is non-negative. *)
Definition nonneg_sizes (trades : list trade) : Prop :=
  forall t q, In t trades -> trade_size t = Some q -> 0 <= q.

(** ** More sample data *)

(** A non-negative stand-in for the square root: the integer root of the
    floor. *)
Definition sqrt_floor (x : Q) : Q := inject_Z (Z.sqrt (Qfloor x)).

(** Eleven trades of size 0. *)
Definition idle_trades : list trade :=
  map (fun n => sample_trade (inject_Z (Z.of_nat n) * 10) "YES" "0xa" (1 # 2) 0)
      (seq 0 11).

(** ** A market whose early trades carry no volume *)

(** Nine trades of size 0 at time 0, then two trades of size 1000 at time
    1000. *)
Definition silent_start_trades : list trade :=
  repeat (sample_trade 0 "YES" "0xa" (1 # 2) 0) 9
  ++ repeat (sample_trade 1000 "YES" "0xa" (1 # 2) 1000) 2.

(** The keys of [indicator_scores] in a result of [backtest_market]. *)
Definition standard_scores (r : Backtester.BacktestResult) : Prop :=
  map fst (Backtester.indicator_scores r)
  = ["Concentration"; "Velocity"; "Skew"; "Whale"]%string.

(** The trades that the grouping loops keep: those whose size parses. *)
Definition grouped_trades (trades : list trade) : list trade :=
  filter (fun t => match trade_size t with Some _ => true | None => false end)
         trades.

(** * Theorems *)

(** ** Comparisons and arithmetic on rationals *)

Lemma Qgt_bool_true (a b : Q) : Qgt_bool a b = true <-> b < a.
Proof.
  unfold Qgt_bool.
  rewrite negb_true_iff, <- not_true_iff_false, Qle_bool_iff.
  split; intro H; [ now apply Qnot_le_lt | now apply Qlt_not_le ].
Qed.

Lemma Qgt_bool_false (a b : Q) : Qgt_bool a b = false <-> a <= b.
Proof.
  unfold Qgt_bool.
  rewrite negb_false_iff, Qle_bool_iff.
  reflexivity.
Qed.

Lemma Qlt_bool_true (a b : Q) : Qlt_bool a b = true <-> a < b.
Proof. apply (Qgt_bool_true b a). Qed.

Lemma Qeq_bool_false (a b : Q) : Qeq_bool a b = false <-> ~ a == b.
Proof.
  rewrite <- not_true_iff_false, Qeq_bool_iff.
  reflexivity.
Qed.

Lemma Qdiv_const (x : Q) (n d : positive) : x / (Zpos n # d) == x * (Zpos d # n).
Proof. reflexivity. Qed.

Lemma Qmin_le_r (a b : Q) : Qmin a b <= b.
Proof. apply Q.le_min_r. Qed.

Lemma Qmin_ge (a b c : Q) : c <= a -> c <= b -> c <= Qmin a b.
Proof. intros Ha Hb. now apply Q.min_glb. Qed.

Lemma dict_get_default_bounds (scores : list (string * Q)) (k : string) (lo hi : Q) :
  lo <= 0 -> 0 <= hi ->
  (forall k' v, dict_get k' scores = Some v -> lo <= v /\ v <= hi) ->
  lo <= dict_get_default scores k 0 /\ dict_get_default scores k 0 <= hi.
Proof.
  intros Hlo Hhi H.
  unfold dict_get_default.
  destruct (dict_get k scores) as [v|] eqn:E.
  - exact (H k v E).
  - split; assumption.
Qed.

(** ** Score aggregator *)

Lemma weighted_probability_movement_zero (c v s w : Q) :
  Qmin ((c * (25 # 100) + v * (15 # 100) + s * (20 # 100) + w * (25 # 100)) / 10) 1
  == weighted_probability c v s 0 w.
Proof.
  unfold weighted_probability.
  apply Q.min_compat; [ | reflexivity ].
  rewrite !Qdiv_const.
  lra.
Qed.

Lemma backtester_probability_bounds (c v s w : Q) :
  0 <= c <= 10 -> 0 <= v <= 10 -> 0 <= s <= 10 -> 0 <= w <= 10 ->
  0 <= Qmin ((c * (25 # 100) + v * (15 # 100) + s * (20 # 100) + w * (25 # 100)) / 10) 1
  <= 85 # 100.
Proof.
  intros Hc Hv Hs Hw.
  split.
  - apply Qmin_ge; [ rewrite Qdiv_const | ]; lra.
  - eapply Qle_trans; [ apply Q.le_min_l | ].
    rewrite Qdiv_const. lra.
Qed.

(** C2, the claim as stated, fails on both aggregators: the detector reads
    [scores['movement']] and raises [KeyError] when that score is
    unavailable, and the backtester ignores a movement score of 10, where
    the five-weight formula gives 0.15. *)
Lemma aggregator_counterexample :
  Detector.calculate_insider_probability
    [("concentration"%string, 10); ("velocity"%string, 10);
     ("skew"%string, 10); ("whale"%string, 10)]
  = Raise (KeyError "movement")
  /\ ~ Backtester.calculate_insider_probability [("movement"%string, 10)]
       == aggregate_spec [("movement"%string, 10)].
Proof.
  split; [ reflexivity | ].
  intros H. vm_compute in H. discriminate H.
Qed.

(** C2 (amended): with all five scores present the detector's aggregator
    returns the five-weight formula [min(sum(weight_i * score_i) / 10, 1)],
    and with a score missing it raises [KeyError]; the backtester's
    aggregator never raises, reads each of concentration, velocity, skew
    and whale with 0 for a missing score, leaves the movement term out, and
    so equals the five-weight formula with 0 for the movement term.  That
    value is the full five-weight value exactly when the movement score is
    absent or 0, or both values are clipped to 1. *)
Theorem aggregator_weights (scores : list (string * Q)) :
  (forall c v s m w,
      dict_get "concentration" scores = Some c ->
      dict_get "velocity" scores = Some v ->
      dict_get "skew" scores = Some s ->
      dict_get "movement" scores = Some m ->
      dict_get "whale" scores = Some w ->
      Detector.calculate_insider_probability scores
      = Ok (weighted_probability c v s m w))
  /\ (forall k,
        In k ["concentration"; "velocity"; "skew"; "movement"; "whale"]%string ->
        dict_get k scores = None ->
        exists k', Detector.calculate_insider_probability scores
                   = Raise (KeyError k'))
  /\ Backtester.calculate_insider_probability scores
     == weighted_probability
          (dict_get_default scores "concentration" 0)
          (dict_get_default scores "velocity" 0)
          (dict_get_default scores "skew" 0)
          0
          (dict_get_default scores "whale" 0)
  /\ (Backtester.calculate_insider_probability scores == aggregate_spec scores
      <-> dict_get_default scores "movement" 0 == 0
          \/ (Backtester.calculate_insider_probability scores == 1
              /\ aggregate_spec scores == 1)).
Proof.
  split; [ | split; [ | split ] ].
  - intros c v s m w Hc Hv Hs Hm Hw.
    unfold Detector.calculate_insider_probability, dict_index.
    rewrite Hc, Hv, Hs, Hm, Hw. reflexivity.
  - intros k Hin Hk.
    unfold Detector.calculate_insider_probability, dict_index.
    destruct (dict_get "concentration" scores) eqn:Ec; [ | eexists; reflexivity ].
    destruct (dict_get "velocity" scores) eqn:Ev; [ | eexists; reflexivity ].
    destruct (dict_get "skew" scores) eqn:Es; [ | eexists; reflexivity ].
    destruct (dict_get "movement" scores) eqn:Em; [ | eexists; reflexivity ].
    destruct (dict_get "whale" scores) eqn:Ew; [ | eexists; reflexivity ].
    simpl in Hin.
    repeat (destruct Hin as [<- | Hin]; [ congruence | ]).
    contradiction.
  - unfold Backtester.calculate_insider_probability.
    apply weighted_probability_movement_zero.
  - unfold Backtester.calculate_insider_probability, aggregate_spec.
    rewrite weighted_probability_movement_zero.
    unfold weighted_probability.
    set (c := dict_get_default scores "concentration" 0).
    set (v := dict_get_default scores "velocity" 0).
    set (s := dict_get_default scores "skew" 0).
    set (m := dict_get_default scores "movement" 0).
    set (w := dict_get_default scores "whale" 0).
    rewrite !Qdiv_const.
    set (a := (c * (25 # 100) + v * (15 # 100) + s * (20 # 100)
               + 0 * (15 # 100) + w * (25 # 100)) * (1 # 10)).
    set (b := (c * (25 # 100) + v * (15 # 100) + s * (20 # 100)
               + m * (15 # 100) + w * (25 # 100)) * (1 # 10)).
    assert (Hab : b == a + m * (15 # 1000)) by (unfold a, b; ring).
    destruct (Q.min_spec a 1) as [[Ha Ea] | [Ha Ea]];
      destruct (Q.min_spec b 1) as [[Hb Eb] | [Hb Eb]];
      rewrite Ea, Eb; split.
    + intros H. left. lra.
    + intros [H | [H1 H2]]; lra.
    + intros H. lra.
    + intros [H | [H1 H2]]; lra.
    + intros H. lra.
    + intros [H | [H1 H2]]; lra.
    + intros _. right. split; reflexivity.
    + intros _. reflexivity.
Qed.

Lemma aggregator_weights_witness :
  Detector.calculate_insider_probability
    [("concentration"%string, 10); ("velocity"%string, 4); ("skew"%string, 5);
     ("movement"%string, 2); ("whale"%string, 0)]
  = Ok (weighted_probability 10 4 5 2 0)
  /\ (exists k', Detector.calculate_insider_probability [("skew"%string, 5)]
                 = Raise (KeyError k'))
  /\ Backtester.calculate_insider_probability [("skew"%string, 5)]
     == aggregate_spec [("skew"%string, 5)].
Proof.
  split; [ | split ].
  - apply (aggregator_weights
             [("concentration"%string, 10); ("velocity"%string, 4);
              ("skew"%string, 5); ("movement"%string, 2); ("whale"%string, 0)]);
      reflexivity.
  - apply (proj1 (proj2 (aggregator_weights [("skew"%string, 5)]))
             "whale"%string).
    + simpl. tauto.
    + reflexivity.
  - apply (proj2 (proj2 (proj2 (aggregator_weights [("skew"%string, 5)])))).
    left. reflexivity.
Defined.

(** ** Bounds in the backtest engine *)

Lemma bind_Ok {A B : Type} (r : result A) (k : A -> result B) (b : B) :
  bind r k = Ok b -> exists a, r = Ok a /\ k a = Ok b.
Proof.
  destruct r as [a|e]; simpl; intros H; [ eauto | discriminate H ].
Qed.

Lemma concentration_le_10 (trades : list trade) (c : Q) :
  Backtester.analyze_position_concentration trades = Ok c -> c <= 10.
Proof.
  unfold Backtester.analyze_position_concentration.
  destruct (is_empty trades); [ intros [= <-]; lra | ].
  destruct (is_empty (address_volumes trades)); [ intros [= <-]; lra | ].
  intros H. apply bind_Ok in H as (shares & _ & [= <-]).
  apply Qmin_le_r.
Qed.

Lemma velocity_le_10 (trades : list trade) :
  fst (Backtester.analyze_volume_velocity trades) <= 10.
Proof.
  unfold Backtester.analyze_volume_velocity.
  destruct (is_empty trades); [ simpl; lra | ].
  destruct (sorted trade_timestamp trades) as [|first [|second rest]];
    simpl fst; try lra.
  apply Qmin_le_r.
Qed.

Lemma skew_le_10 (trades : list trade) (r : Q * option Backtester.skew_details) :
  Backtester.analyze_outcome_skew trades = Ok r -> fst r <= 10.
Proof.
  unfold Backtester.analyze_outcome_skew.
  destruct (is_empty trades); [ intros [= <-]; simpl; lra | ].
  destruct (values (outcome_volumes trades)) as [|vol0 vols];
    [ intros [= <-]; simpl; lra | ].
  intros H. apply bind_Ok in H as (dist & _ & [= <-]).
  simpl. apply Qmin_le_r.
Qed.

Lemma whale_le_10 (trades : list trade) :
  Backtester.analyze_whale_accumulation trades <= 10.
Proof.
  unfold Backtester.analyze_whale_accumulation.
  destruct (is_empty trades); [ lra | ].
  destruct (Backtester.whale_data (Backtester.address_trades trades));
    [ lra | apply Qmin_le_r ].
Qed.

Lemma window_signal_le (window : list trade) (p : Q) :
  Backtester.window_signal window = Ok p -> p <= 85 # 100.
Proof.
  unfold Backtester.window_signal.
  intros H.
  apply bind_Ok in H as (c & Hc & H).
  apply bind_Ok in H as (sk & Hsk & [= <-]).
  apply concentration_le_10 in Hc.
  apply skew_le_10 in Hsk.
  pose proof (velocity_le_10 window) as Hv.
  pose proof (whale_le_10 window) as Hw.
  unfold Backtester.calculate_insider_probability, dict_get_default.
  simpl dict_get.
  eapply Qle_trans; [ apply Q.le_min_l | ].
  rewrite Qdiv_const. lra.
Qed.

Lemma scan_bounds (trades_sorted : list trade) (indices : list nat) :
  forall (max_signal : Q) (signal_ts : option Q) (r : option Q * Q),
    0 <= max_signal <= 85 # 100 ->
    Backtester.scan trades_sorted indices max_signal signal_ts = Ok r ->
    0 <= snd r <= 85 # 100.
Proof.
  induction indices as [|i indices IH]; intros max_signal signal_ts r Hmax H.
  - simpl in H. injection H as <-. exact Hmax.
  - simpl in H.
    apply bind_Ok in H as (signal & Hs & H).
    destruct (Qgt_bool signal max_signal) eqn:E.
    + destruct (nth_error trades_sorted i); [ | discriminate H ].
      apply Qgt_bool_true in E.
      apply window_signal_le in Hs.
      eapply IH; [ | exact H ]. lra.
    + eapply IH; eassumption.
Qed.

Lemma find_signal_point_bounds (trades : list trade) (ts : option Q) (p : Q) :
  Backtester.find_signal_point trades = Ok (Some (ts, p)) ->
  0 <= p <= 85 # 100.
Proof.
  unfold Backtester.find_signal_point.
  destruct (List.length trades <? 10)%nat; [ discriminate | ].
  intros H. apply bind_Ok in H as (r & Hr & [= ->]).
  apply scan_bounds in Hr; [ exact Hr | lra ].
Qed.

(** What a returned [BacktestResult] says about the run that built it. *)
Lemma backtest_market_inv
    (fetch_trades : string -> list trade)
    (fetch_history : string -> Backtester.market_history)
    (now : Q) (m : Backtester.market) (r : Backtester.BacktestResult) :
  Backtester.backtest_market fetch_trades fetch_history now m = Ok (Some r) ->
  exists (mid : string) (ts p pre post : Q),
    Backtester.id m = Some mid
    /\ Backtester.find_signal_point (fetch_trades mid) = Ok (Some (Some ts, p))
    /\ Backtester.get_market_price_at_timestamp
         (Backtester.get_trades_before_timestamp (fetch_trades mid) ts) ts
       = Some pre
    /\ Backtester.get_market_price_at_timestamp (fetch_trades mid) (ts + 3600)
       = Some post
    /\ Backtester.signal_timestamp r = ts
    /\ Backtester.insider_probability r = p
    /\ Backtester.market_resolved r
       = Backtester.is_some (Backtester.resolutionSource (fetch_history mid))
    /\ Backtester.actual_outcome r = Backtester.resolvedBy (fetch_history mid)
    /\ Backtester.predicted_correctly r
       = (Backtester.market_resolved r
          && match Backtester.actual_outcome r with
             | Some actual =>
                 negb (String.eqb actual "")
                 && String.eqb (Backtester.outcome_prediction r) actual
             | None => false
             end).
Proof.
  unfold Backtester.backtest_market.
  destruct (Backtester.id m) as [mid|]; [ | simpl; discriminate ].
  destruct (String.eqb mid ""); [ discriminate | ].
  destruct (is_empty (fetch_trades mid) || (List.length (fetch_trades mid) <? 5)%nat);
    [ discriminate | ].
  intros H.
  apply bind_Ok in H as (signal & Hsig & H).
  destruct signal as [[[ts|] p]|]; try discriminate H.
  apply bind_Ok in H as (c & Hc & H).
  apply bind_Ok in H as (sk & Hsk & H).
  destruct (Backtester.get_market_price_at_timestamp
              (Backtester.get_trades_before_timestamp (fetch_trades mid) ts) ts)
    as [pre|] eqn:Epre; [ | discriminate H ].
  destruct (Backtester.get_market_price_at_timestamp (fetch_trades mid) (ts + 3600))
    as [post|] eqn:Epost; [ | discriminate H ].
  injection H as <-.
  exists mid, ts, p, pre, post.
  cbn [Backtester.signal_timestamp Backtester.insider_probability
       Backtester.market_resolved Backtester.actual_outcome
       Backtester.predicted_correctly Backtester.outcome_prediction].
  repeat (split; [ reflexivity || assumption | ]).
  destruct (Backtester.is_some (Backtester.resolutionSource (fetch_history mid)));
    destruct (Backtester.resolvedBy (fetch_history mid)) as [actual|];
    simpl; reflexivity.
Qed.

(** C10: the backtest engine's aggregator never applies the movement
    weight, so on scores in [0, 10] it returns at most 0.85; every
    probability returned by [find_signal_point] and every
    [insider_probability] of a [BacktestResult] lies in [0, 0.85]. *)
Theorem backtest_probability_at_most_085 :
  (forall scores : list (string * Q),
      Forall (fun kv => 0 <= snd kv <= 10) scores ->
      0 <= Backtester.calculate_insider_probability scores <= 85 # 100)
  /\ (forall (trades : list trade) (ts : option Q) (p : Q),
        Backtester.find_signal_point trades = Ok (Some (ts, p)) ->
        0 <= p <= 85 # 100)
  /\ (forall fetch_trades fetch_history now m r,
        Backtester.backtest_market fetch_trades fetch_history now m = Ok (Some r) ->
        0 <= Backtester.insider_probability r <= 85 # 100).
Proof.
  split; [ | split ].
  - intros scores Hall.
    assert (Hget : forall k' v, dict_get k' scores = Some v -> 0 <= v /\ v <= 10).
    { induction Hall as [|[k0 v0] rest Hkv _ IH]; intros k' v; simpl.
      - discriminate.
      - destruct (String.eqb k' k0); [ intros [= <-]; exact Hkv | apply IH ]. }
    unfold Backtester.calculate_insider_probability.
    apply backtester_probability_bounds;
      apply dict_get_default_bounds; (lra || exact Hget).
  - exact find_signal_point_bounds.
  - intros fetch_trades fetch_history now m r H.
    apply backtest_market_inv in H
      as (mid & ts & p & pre & post & _ & Hsig & _ & _ & _ & Hp & _).
    rewrite Hp.
    exact (find_signal_point_bounds _ _ _ Hsig).
Qed.

Lemma backtest_probability_at_most_085_witness :
  0 <= Backtester.calculate_insider_probability
         [("concentration"%string, 10); ("movement"%string, 10)] <= 85 # 100
  /\ (exists ts p,
        Backtester.find_signal_point sample_trades = Ok (Some (ts, p))
        /\ 0 <= p <= 85 # 100)
  /\ (exists r,
        Backtester.backtest_market (fun _ => sample_trades)
          (fun _ => unresolved_history) 0 sample_market = Ok (Some r)
        /\ 0 <= Backtester.insider_probability r <= 85 # 100).
Proof.
  split; [ | split ].
  - apply (proj1 backtest_probability_at_most_085).
    repeat constructor; simpl; discriminate.
  - eexists. eexists.
    split; [ vm_compute; reflexivity | ].
    apply (proj1 (proj2 backtest_probability_at_most_085)
             sample_trades (Some 100)).
    vm_compute. reflexivity.
  - eexists.
    split; [ vm_compute; reflexivity | ].
    apply (proj2 (proj2 backtest_probability_at_most_085)
             (fun _ => sample_trades) (fun _ => unresolved_history) 0
             sample_market).
    vm_compute. reflexivity.
Defined.

(** ** Resolution and the prediction flag *)

(** C4, the claim as stated, fails: for an unresolved market the result is
    built with [predicted_correctly = False], a definite value. *)
Lemma predicted_correctly_counterexample :
  exists r,
    Backtester.backtest_market (fun _ => sample_trades)
      (fun _ => unresolved_history) 0 sample_market = Ok (Some r)
    /\ Backtester.market_resolved r = false
    /\ Backtester.predicted_correctly r = false.
Proof.
  eexists. split; [ vm_compute; reflexivity | split; reflexivity ].
Qed.

(** C4 (amended): [predicted_correctly] is a plain boolean; for every
    backtested market with [market_resolved = false] it is [false], and it
    is [true] only when [market_resolved = true] and the actual outcome is
    the predicted one. *)
Theorem predicted_correctly_resolved fetch_trades fetch_history now m r :
  Backtester.backtest_market fetch_trades fetch_history now m = Ok (Some r) ->
  (Backtester.market_resolved r = false ->
   Backtester.predicted_correctly r = false)
  /\ (Backtester.predicted_correctly r = true ->
      Backtester.market_resolved r = true
      /\ Backtester.actual_outcome r = Some (Backtester.outcome_prediction r)).
Proof.
  intros H.
  apply backtest_market_inv in H
    as (mid & ts & p & pre & post & _ & _ & _ & _ & _ & _ & _ & _ & Hpc).
  rewrite Hpc. clear Hpc.
  split.
  - intros ->. reflexivity.
  - intros Htrue.
    apply andb_true_iff in Htrue as [Hres Hact].
    split; [ exact Hres | ].
    destruct (Backtester.actual_outcome r) as [actual|]; [ | discriminate Hact ].
    apply andb_true_iff in Hact as [_ Heq].
    apply String.eqb_eq in Heq. now rewrite Heq.
Qed.

Lemma predicted_correctly_resolved_witness :
  exists r,
    Backtester.backtest_market (fun _ => sample_trades)
      (fun _ => resolved_history) 0 sample_market = Ok (Some r)
    /\ Backtester.predicted_correctly r = true
    /\ Backtester.market_resolved r = true
    /\ Backtester.actual_outcome r = Some (Backtester.outcome_prediction r).
Proof.
  eexists.
  split; [ vm_compute; reflexivity | ].
  split; [ reflexivity | ].
  apply (predicted_correctly_resolved (fun _ => sample_trades)
           (fun _ => resolved_history) 0 sample_market).
  - vm_compute. reflexivity.
  - reflexivity.
Defined.

(** ** Sorting *)

Section SortedBy.

Context {A : Type} (key : A -> Q).

Lemma insert_by_perm (x : A) (l : list A) :
  Permutation (x :: l) (insert_by key x l).
Proof.
  induction l as [|y l IH]; simpl.
  - reflexivity.
  - destruct (Qle_bool (key x) (key y)).
    + reflexivity.
    + rewrite perm_swap. now apply perm_skip.
Qed.

Lemma sorted_perm (l : list A) : Permutation l (sorted key l).
Proof.
  induction l as [|x l IH]; simpl.
  - constructor.
  - rewrite <- insert_by_perm. now apply perm_skip.
Qed.

Lemma sorted_length (l : list A) : List.length (sorted key l) = List.length l.
Proof. symmetry. apply Permutation_length, sorted_perm. Qed.

Lemma sorted_In (l : list A) (x : A) : In x (sorted key l) <-> In x l.
Proof.
  split; apply Permutation_in; [ symmetry | ]; apply sorted_perm.
Qed.

Lemma insert_by_sorted (x : A) (l : list A) :
  StronglySorted (key_le key) l -> StronglySorted (key_le key) (insert_by key x l).
Proof.
  induction 1 as [|y l Hsorted IH Hy]; simpl.
  - repeat constructor.
  - destruct (Qle_bool (key x) (key y)) eqn:E.
    + apply Qle_bool_iff in E.
      constructor; [ now constructor | ].
      constructor; [ exact E | ].
      eapply Forall_impl; [ | exact Hy ].
      intros z Hz. unfold key_le in *. lra.
    + constructor; [ exact IH | ].
      eapply Permutation_Forall; [ apply insert_by_perm | ].
      constructor; [ | exact Hy ].
      assert (~ key x <= key y) as Hn
          by (rewrite <- Qle_bool_iff, E; discriminate).
      unfold key_le. lra.
Qed.

Lemma sorted_sorted (l : list A) : StronglySorted (key_le key) (sorted key l).
Proof.
  induction l as [|x l IH]; simpl.
  - constructor.
  - now apply insert_by_sorted.
Qed.

Lemma sorted_head_min (l : list A) (first : A) (rest : list A) :
  sorted key l = first :: rest ->
  In first l /\ forall x, In x l -> key first <= key x.
Proof.
  intros E.
  split.
  - apply sorted_In. rewrite E. now left.
  - intros x Hx. apply sorted_In in Hx. rewrite E in Hx.
    pose proof (sorted_sorted l) as Hs. rewrite E in Hs.
    apply StronglySorted_inv in Hs as [_ Hall].
    destruct Hx as [<- | Hx]; [ lra | ].
    rewrite Forall_forall in Hall. exact (Hall x Hx).
Qed.

Lemma strongly_sorted_last (first : A) (rest : list A) :
  StronglySorted (key_le key) (first :: rest) ->
  forall x, In x (first :: rest) -> key x <= key (last rest first).
Proof.
  revert first.
  induction rest as [|y rest IH]; intros first Hs x Hx.
  - destruct Hx as [<- | []]. simpl. lra.
  - apply StronglySorted_inv in Hs as [Hs Hall].
    change (last (y :: rest) first) with
      (match rest with [] => y | _ :: _ => last rest first end).
    assert (Hlast : last rest first = last rest y \/ rest = []).
    { destruct rest; [ now right | left ].
      clear. revert a. induction rest as [|b rest IHr]; intros a.
      - reflexivity.
      - change (last (b :: rest) first = last (b :: rest) y).
        apply IHr. }
    destruct Hx as [<- | Hx].
    + assert (Hy : key_le key first y) by (inversion Hall; assumption).
      pose proof (IH y Hs y (or_introl eq_refl)) as Hyl.
      unfold key_le in Hy.
      destruct rest as [|z rest']; [ simpl in *; lra | ].
      destruct Hlast as [-> | Hnil]; [ lra | discriminate Hnil ].
    + pose proof (IH y Hs x Hx) as Hxl.
      destruct rest as [|z rest']; [ exact Hxl | ].
      destruct Hlast as [-> | Hnil]; [ exact Hxl | discriminate Hnil ].
Qed.

Lemma last_In (first : A) (rest : list A) : In (last rest first) (first :: rest).
Proof.
  induction rest as [|y rest IH].
  - now left.
  - destruct rest as [|z rest'].
    + right. now left.
    + destruct IH as [E | IH]; [ | right; right; exact IH ].
      change (last (y :: z :: rest') first) with (last (z :: rest') first).
      rewrite <- E. now left.
Qed.

Lemma sorted_last_max (l : list A) (first : A) (rest : list A) :
  sorted key l = first :: rest ->
  In (last rest first) l /\ forall x, In x l -> key x <= key (last rest first).
Proof.
  intros E.
  split.
  - apply sorted_In. rewrite E. apply last_In.
  - intros x Hx. apply sorted_In in Hx. rewrite E in Hx.
    pose proof (sorted_sorted l) as Hs. rewrite E in Hs.
    now apply strongly_sorted_last.
Qed.

End SortedBy.

(** ** Price lookup and the price gate of the backtest *)

Lemma sorted_nil {A : Type} (key : A -> Q) (l : list A) :
  sorted key l = [] -> l = [].
Proof.
  intros E. apply List.length_zero_iff_nil.
  rewrite <- (sorted_length key), E. reflexivity.
Qed.

(** No price is resolved exactly when no trade lies within 300 seconds. *)
Lemma price_none_iff (trades : list trade) (ts : Q) :
  Backtester.get_market_price_at_timestamp trades ts = None
  <-> forall t, In t trades -> 300 <= Qabs (trade_timestamp t - ts).
Proof.
  unfold Backtester.get_market_price_at_timestamp.
  set (near := fun t => Qlt_bool (Qabs (trade_timestamp t - ts)) 300).
  split.
  - destruct (sorted _ (filter near trades)) as [|t0 rest] eqn:E;
      [ intros _ | discriminate ].
    apply sorted_nil in E.
    intros t Hin.
    destruct (near t) eqn:En.
    + assert (Hf : In t (filter near trades)) by (apply filter_In; auto).
      rewrite E in Hf. contradiction.
    + apply (Qgt_bool_false 300). exact En.
  - intros Hfar.
    assert (E : filter near trades = []).
    { induction trades as [|t trades IH]; [ reflexivity | ].
      simpl.
      assert (En : near t = false)
        by (apply (Qgt_bool_false 300), Hfar; now left).
      rewrite En. apply IH. intros t' Hin. apply Hfar. now right. }
    rewrite E. reflexivity.
Qed.

(** A resolved price is that of a trade within 300 seconds, and no trade
    is nearer. *)
Lemma price_some_nearest (trades : list trade) (ts p : Q) :
  Backtester.get_market_price_at_timestamp trades ts = Some p ->
  exists t,
    In t trades /\ p = trade_price t
    /\ Qabs (trade_timestamp t - ts) < 300
    /\ forall t', In t' trades -> Qabs (trade_timestamp t' - ts) < 300 ->
                  Qabs (trade_timestamp t - ts) <= Qabs (trade_timestamp t' - ts).
Proof.
  unfold Backtester.get_market_price_at_timestamp.
  set (near := fun t => Qlt_bool (Qabs (trade_timestamp t - ts)) 300).
  set (dist := fun t => Qabs (trade_timestamp t - ts)).
  destruct (sorted dist (filter near trades)) as [|t0 rest] eqn:E;
    [ discriminate | ].
  intros [= <-].
  apply sorted_head_min in E as [Hin Hmin].
  apply filter_In in Hin as [Hin Hnear].
  exists t0.
  repeat split; [ exact Hin | now apply Qlt_bool_true | ].
  intros t' Hin' Hnear'.
  apply (Hmin t'), filter_In.
  split; [ exact Hin' | now apply Qlt_bool_true ].
Qed.

(** The price gate of [backtest_market]: when no trade lies within 300
    seconds of the signal timestamp among the trades before it, or none
    within 300 seconds of the signal timestamp plus 3600, no
    [BacktestResult] is built; and when the concentration and skew
    indicators, which run before the gate, return on the trades before the
    signal, [backtest_market] returns [None]. *)
Theorem backtest_market_needs_both_prices
    (fetch_trades : string -> list trade)
    (fetch_history : string -> Backtester.market_history)
    (now : Q) (m : Backtester.market) (mid : string) (ts p : Q) :
  Backtester.id m = Some mid ->
  Backtester.find_signal_point (fetch_trades mid) = Ok (Some (Some ts, p)) ->
  (forall t,
      In t (Backtester.get_trades_before_timestamp (fetch_trades mid) ts) ->
      300 <= Qabs (trade_timestamp t - ts))
  \/ (forall t,
        In t (fetch_trades mid) ->
        300 <= Qabs (trade_timestamp t - (ts + 3600))) ->
  (forall r,
      Backtester.backtest_market fetch_trades fetch_history now m
      <> Ok (Some r))
  /\ (forall c sk,
        Backtester.analyze_position_concentration
          (Backtester.get_trades_before_timestamp (fetch_trades mid) ts) = Ok c ->
        Backtester.analyze_outcome_skew
          (Backtester.get_trades_before_timestamp (fetch_trades mid) ts) = Ok sk ->
        Backtester.backtest_market fetch_trades fetch_history now m = Ok None).
Proof.
  intros Hid Hsig Hfar.
  assert (Hnone :
    Backtester.get_market_price_at_timestamp
      (Backtester.get_trades_before_timestamp (fetch_trades mid) ts) ts = None
    \/ Backtester.get_market_price_at_timestamp (fetch_trades mid) (ts + 3600)
       = None).
  { destruct Hfar as [H | H]; [ left | right ]; now apply price_none_iff. }
  split.
  - intros r Hr.
    apply backtest_market_inv in Hr
      as (mid' & ts' & p' & pre & post & Hid' & Hsig' & Hpre & Hpost & _).
    rewrite Hid in Hid'. injection Hid' as <-.
    rewrite Hsig in Hsig'. injection Hsig' as <- <-.
    destruct Hnone as [H | H]; congruence.
  - intros c sk Hc Hsk.
    unfold Backtester.backtest_market.
    rewrite Hid.
    destruct (String.eqb mid ""); [ reflexivity | ].
    destruct (is_empty (fetch_trades mid)
              || (List.length (fetch_trades mid) <? 5)%nat); [ reflexivity | ].
    rewrite Hsig. cbn [bind].
    rewrite Hc, Hsk. cbn [bind].
    destruct Hnone as [-> | ->]; [ reflexivity | ].
    destruct (Backtester.get_market_price_at_timestamp _ ts); reflexivity.
Qed.

Lemma backtest_market_needs_both_prices_witness :
  Backtester.backtest_market (fun _ => firstn 11 sample_trades)
    (fun _ => unresolved_history) 0 sample_market = Ok None.
Proof.
  assert (Hsig : Backtester.find_signal_point (firstn 11 sample_trades)
                 = Ok (Some (Some 100, sample_probability)))
    by (vm_compute; reflexivity).
  assert (Hfar : forall t, In t (firstn 11 sample_trades) ->
                           300 <= Qabs (trade_timestamp t - (100 + 3600))).
  { intros t Hin. vm_compute in Hin.
    repeat (destruct Hin as [<- | Hin]; [ vm_compute; discriminate | ]).
    contradiction. }
  eapply (proj2 (backtest_market_needs_both_prices
                   (fun _ => firstn 11 sample_trades)
                   (fun _ => unresolved_history) 0 sample_market
                   "m1"%string 100 sample_probability eq_refl Hsig
                   (or_intror Hfar)));
    vm_compute; reflexivity.
Defined.

(** C8: on [silent_start_trades] the signal point is at time 1000, neither
    the pre-signal price nor the post-signal price can be resolved, and
    [backtest_market] does not return [None]: the concentration indicator
    runs on the nine size-0 trades before the signal, ahead of the price
    gate, and its division by the zero total volume lets
    [ZeroDivisionError] escape. *)
Theorem backtest_market_raises_before_price_gate :
  (exists p, Backtester.find_signal_point silent_start_trades
             = Ok (Some (Some 1000, p)))
  /\ Backtester.get_market_price_at_timestamp
       (Backtester.get_trades_before_timestamp silent_start_trades 1000) 1000
     = None
  /\ Backtester.get_market_price_at_timestamp silent_start_trades (1000 + 3600)
     = None
  /\ Backtester.analyze_position_concentration
       (Backtester.get_trades_before_timestamp silent_start_trades 1000)
     = Raise ZeroDivisionError
  /\ Backtester.backtest_market (fun _ => silent_start_trades)
       (fun _ => unresolved_history) 0 sample_market
     = Raise ZeroDivisionError.
Proof.
  split; [ eexists; vm_compute; reflexivity | ].
  repeat split; vm_compute; reflexivity.
Qed.

(** ** Signal-point finder *)

Lemma window_signal_formula (window : list trade) (p : Q) :
  Backtester.window_signal window = Ok p ->
  exists c sk,
    Backtester.analyze_position_concentration window = Ok c
    /\ Backtester.analyze_outcome_skew window = Ok sk
    /\ p == weighted_probability
              c (fst (Backtester.analyze_volume_velocity window)) (fst sk) 0
              (Backtester.analyze_whale_accumulation window).
Proof.
  unfold Backtester.window_signal.
  intros H.
  apply bind_Ok in H as (c & Hc & H).
  apply bind_Ok in H as (sk & Hsk & [= <-]).
  exists c, sk.
  repeat split; try assumption.
  unfold Backtester.calculate_insider_probability, dict_get_default.
  simpl dict_get.
  apply weighted_probability_movement_zero.
Qed.

Lemma seq_split (pre : list nat) :
  forall (a k i : nat) (post : list nat),
    seq a k = pre ++ i :: post ->
    (a <= i < a + k)%nat
    /\ (forall j, (a <= j < i)%nat -> In j pre)
    /\ (forall j, (i < j < a + k)%nat -> In j post).
Proof.
  induction pre as [|x pre IH]; intros a k i post E.
  - destruct k as [|k]; [ discriminate E | ].
    simpl in E. injection E as <- <-.
    repeat split; try lia.
    intros j Hj. apply in_seq. lia.
  - destruct k as [|k]; [ discriminate E | ].
    simpl in E. injection E as <- E.
    apply IH in E as (Hi & Hpre & Hpost).
    repeat split; try lia.
    + intros j Hj.
      destruct (Nat.eq_dec j a) as [-> | Hne]; [ now left | right ].
      apply Hpre. lia.
    + intros j Hj. apply Hpost. lia.
Qed.

(** The loop keeps the first strict maximum of the window signals. *)
Lemma scan_first_maximum (trades_sorted : list trade) (sig : nat -> Q)
    (indices : list nat) :
  forall (max0 : Q) (ts0 : option Q),
    (forall i, In i indices ->
               Backtester.window_signal (firstn i trades_sorted) = Ok (sig i)) ->
    (forall i, In i indices -> (i < List.length trades_sorted)%nat) ->
    ((forall i, In i indices -> sig i <= max0)
     /\ Backtester.scan trades_sorted indices max0 ts0 = Ok (ts0, max0))
    \/ (exists pre i post t,
          indices = pre ++ i :: post
          /\ nth_error trades_sorted i = Some t
          /\ Backtester.scan trades_sorted indices max0 ts0
             = Ok (Some (trade_timestamp t), sig i)
          /\ max0 < sig i
          /\ (forall j, In j pre -> sig j < sig i)
          /\ (forall j, In j post -> sig j <= sig i)).
Proof.
  induction indices as [|i indices IH]; intros max0 ts0 Hsig Hlen.
  - left. split; [ intros i [] | reflexivity ].
  - assert (Hsig' : forall j, In j indices ->
              Backtester.window_signal (firstn j trades_sorted) = Ok (sig j))
      by (intros j Hj; apply Hsig; now right).
    assert (Hlen' : forall j, In j indices -> (j < List.length trades_sorted)%nat)
      by (intros j Hj; apply Hlen; now right).
    simpl. rewrite (Hsig i (or_introl eq_refl)). cbn [bind].
    destruct (Qgt_bool (sig i) max0) eqn:E.
    + apply Qgt_bool_true in E.
      destruct (nth_error trades_sorted i) as [t|] eqn:Enth.
      2:{ apply nth_error_None in Enth.
          specialize (Hlen i (or_introl eq_refl)). lia. }
      right.
      destruct (IH (sig i) (Some (trade_timestamp t)) Hsig' Hlen')
        as [[Hle Hscan] | (pre & i' & post & t' & -> & Hnth & Hscan & Hlt & Hpre & Hpost)].
      * exists [], i, indices, t.
        repeat split; try assumption.
        intros j [].
      * exists (i :: pre), i', post, t'.
        repeat split; try assumption.
        -- lra.
        -- intros j [<- | Hj]; [ exact Hlt | now apply Hpre ].
    + apply Qgt_bool_false in E.
      destruct (IH max0 ts0 Hsig' Hlen')
        as [[Hle Hscan] | (pre & i' & post & t' & -> & Hnth & Hscan & Hlt & Hpre & Hpost)].
      * left. split; [ | exact Hscan ].
        intros j [<- | Hj]; [ exact E | now apply Hle ].
      * right. exists (i :: pre), i', post, t'.
        repeat split; try assumption.
        intros j [<- | Hj]; [ lra | now apply Hpre ].
Qed.

(** C1, the claim as stated, fails: on ten trades the loop body never runs
    and no timestamp is returned, where the claim scores the prefix of
    length 10; on twelve trades the timestamp returned is that of the trade
    after the maximizing prefix (100), not of its last trade (90). *)
Lemma find_signal_point_counterexample :
  Backtester.find_signal_point (firstn 10 sample_trades) = Ok (Some (None, 0))
  /\ (exists p,
        find_signal_point_spec (firstn 10 sample_trades)
        = Ok (Some (Some 90, p)) /\ 0 < p)
  /\ (exists p,
        Backtester.find_signal_point sample_trades = Ok (Some (Some 100, p)))
  /\ (exists p,
        find_signal_point_spec sample_trades = Ok (Some (Some 90, p))).
Proof.
  split; [ vm_compute; reflexivity | ].
  split; [ eexists; split; [ vm_compute; reflexivity | reflexivity ] | ].
  split; eexists; vm_compute; reflexivity.
Qed.

(** C1 (amended): for every list of at least 10 trades whose windows all
    score, [find_signal_point] sorts the trades ascending by timestamp,
    computes for each prefix length [i] from 10 to [len(trades) - 1] the
    aggregate probability (the five-weight formula with the movement term
    0) over [trades_sorted[0:i]], and returns the maximum probability
    together with the timestamp of [trades_sorted[i]], the trade that
    follows the maximizing prefix; among equal probabilities the earliest
    prefix wins; when no prefix scores above 0 it returns no timestamp and
    probability 0. *)
Theorem find_signal_point_first_maximum (trades : list trade) (sig : nat -> Q) :
  (10 <= List.length trades)%nat ->
  (forall i, (10 <= i < List.length trades)%nat ->
             Backtester.window_signal
               (firstn i (sorted trade_timestamp trades)) = Ok (sig i)) ->
  signal_point_scan trades sig.
Proof.
  intros Hlen Hsig.
  unfold signal_point_scan.
  split; [ apply sorted_perm | ].
  split; [ apply (sorted_sorted trade_timestamp) | ].
  split; [ intros i Hi; apply window_signal_formula, Hsig, Hi | ].
  unfold Backtester.find_signal_point.
  destruct (List.length trades <? 10)%nat eqn:E;
    [ apply Nat.ltb_lt in E; lia | clear E ].
  rewrite sorted_length.
  set (n := List.length trades) in *.
  assert (Hin : forall i, In i (seq 10 (n - 10)) <-> (10 <= i < n)%nat)
    by (intros i; rewrite in_seq; lia).
  destruct (scan_first_maximum (sorted trade_timestamp trades) sig
              (seq 10 (n - 10)) 0 None)
    as [[Hle Hscan] | (pre & i & post & t & Hsplit & Hnth & Hscan & Hlt & Hpre & Hpost)].
  - intros i Hi. apply Hsig, Hin, Hi.
  - intros i Hi. rewrite sorted_length. apply Hin in Hi. fold n. lia.
  - left. rewrite Hscan.
    split; [ intros i Hi; apply Hle, Hin, Hi | reflexivity ].
  - right. rewrite Hscan.
    pose proof (seq_split pre 10 (n - 10) i post Hsplit) as (Hi & Hbefore & Hafter).
    exists i, t.
    repeat split; try assumption; try lia.
    + intros j Hj.
      destruct (Nat.lt_trichotomy j i) as [Hlt' | [-> | Hgt]].
      * apply Qlt_le_weak, Hpre, Hbefore. lia.
      * apply Qle_refl.
      * apply Hpost, Hafter. lia.
    + intros j Hj. apply Hpre, Hbefore. lia.
Qed.

Lemma find_signal_point_first_maximum_witness :
  signal_point_scan sample_trades sample_sig.
Proof.
  apply (find_signal_point_first_maximum sample_trades sample_sig).
  - vm_compute. lia.
  - intros i Hi.
    change (List.length sample_trades) with 12%nat in Hi.
    assert (Hcases : i = 10%nat \/ i = 11%nat) by lia.
    destruct Hcases as [-> | ->]; vm_compute; reflexivity.
Defined.

(** ** Velocity *)

(** C5, the claim as stated, fails: two trades at the same instant have an
    elapsed time of 0, floored to 0.1 hours by the claim (20 trades per
    hour, score 2), but the code reads the span as one hour (score 0.2). *)
Lemma velocity_counterexample :
  let trades := [sample_trade 50 "YES" "0xa" (1 # 2) 10;
                 sample_trade 50 "NO" "0xb" (1 # 2) 10] in
  (2 <= List.length trades)%nat
  /\ ~ fst (Backtester.analyze_volume_velocity trades) == velocity_spec trades
  /\ ~ fst (Detector.analyze_volume_velocity trades) == velocity_spec trades.
Proof.
  split; [ simpl; lia | ].
  split; intros H; vm_compute in H; discriminate H.
Qed.

(** C5 (amended): for every list of at least 2 trades the velocity
    indicator sorts the trades by timestamp and returns
    [min(tradesPerHour / 10, 10)] with
    [tradesPerHour = count / max(timeSpanHours, 0.1)], where
    [timeSpanHours] is the time between the earliest and the latest trade
    in hours, read as 1 when the two timestamps are equal (in the detector:
    provided every size parses as a number); for fewer than 2 trades it
    returns [(0, {})]. *)
Theorem volume_velocity_formula (trades : list trade) :
  ((List.length trades < 2)%nat ->
   Backtester.analyze_volume_velocity trades = (0, [])
   /\ Detector.analyze_volume_velocity trades = (0, []))
  /\ ((2 <= List.length trades)%nat ->
      exists tfirst tlast,
        In tfirst trades /\ In tlast trades
        /\ (forall t, In t trades ->
                      trade_timestamp tfirst <= trade_timestamp t
                      /\ trade_timestamp t <= trade_timestamp tlast)
        /\ fst (Backtester.analyze_volume_velocity trades)
           = velocity_formula (len trades) (trade_timestamp tfirst)
                              (trade_timestamp tlast)
        /\ ((forall t, In t trades -> trade_size t <> None) ->
            fst (Detector.analyze_volume_velocity trades)
            = velocity_formula (len trades) (trade_timestamp tfirst)
                               (trade_timestamp tlast))).
Proof.
  split.
  - intros Hlen.
    destruct trades as [|t [|t' trades]]; [ | | simpl in Hlen; lia ];
      split; reflexivity.
  - intros Hlen.
    unfold Backtester.analyze_volume_velocity, Detector.analyze_volume_velocity.
    destruct (is_empty trades) eqn:Eempty;
      [ destruct trades; [ simpl in Hlen; lia | discriminate Eempty ] | ].
    destruct (sorted trade_timestamp trades) as [|first [|second rest]] eqn:E.
    + apply (f_equal (@List.length trade)) in E.
      rewrite sorted_length in E. simpl in E. lia.
    + apply (f_equal (@List.length trade)) in E.
      rewrite sorted_length in E. simpl in E. lia.
    + assert (Hcount : len (first :: second :: rest) = len trades)
        by (unfold len; rewrite <- E, sorted_length; reflexivity).
      pose proof (sorted_head_min _ _ _ _ E) as [Hfin Hmin].
      pose proof (sorted_last_max _ _ _ _ E) as [Hlin Hmax].
      exists first, (last (second :: rest) first).
      repeat split; try assumption.
      * now apply Hmin.
      * now apply Hmax.
      * rewrite Hcount. unfold velocity_formula.
        destruct (Qeq_bool _ _); reflexivity.
      * intros Hsizes.
        match goal with
        | |- context [forallb ?f ?l] =>
            assert (Hall : forallb f l = true)
        end.
        { apply forallb_forall. intros t Ht.
          apply filter_In in Ht as [Ht _].
          rewrite <- E in Ht. apply sorted_In in Ht.
          specialize (Hsizes t Ht).
          destruct (trade_size t); [ reflexivity | congruence ]. }
        rewrite Hall, Hcount. unfold velocity_formula.
        destruct (Qeq_bool _ _); reflexivity.
Qed.

Lemma volume_velocity_formula_witness :
  (Backtester.analyze_volume_velocity [sample_trade 50 "YES" "0xa" (1 # 2) 10]
   = (0, [])
   /\ Detector.analyze_volume_velocity [sample_trade 50 "YES" "0xa" (1 # 2) 10]
      = (0, []))
  /\ exists tfirst tlast,
      In tfirst sample_trades /\ In tlast sample_trades
      /\ fst (Backtester.analyze_volume_velocity sample_trades)
         = velocity_formula (len sample_trades) (trade_timestamp tfirst)
                            (trade_timestamp tlast)
      /\ fst (Detector.analyze_volume_velocity sample_trades)
         = velocity_formula (len sample_trades) (trade_timestamp tfirst)
                            (trade_timestamp tlast).
Proof.
  split.
  - apply (proj1 (volume_velocity_formula [sample_trade 50 "YES" "0xa" (1 # 2) 10])).
    simpl. lia.
  - assert (Hlen : (2 <= List.length sample_trades)%nat) by (vm_compute; lia).
    destruct (proj2 (volume_velocity_formula sample_trades) Hlen)
      as (tfirst & tlast & Hf & Hl & _ & Hb & Hd).
    exists tfirst, tlast.
    split; [ exact Hf | split; [ exact Hl | split; [ exact Hb | ] ] ].
    apply Hd.
    intros t Hin. vm_compute in Hin.
    repeat (destruct Hin as [<- | Hin]; [ discriminate | ]).
    contradiction.
Defined.

(** ** Outcome skew *)

Lemma Qabs_cases (x : Q) : (0 <= x /\ Qabs x == x) \/ (x <= 0 /\ Qabs x == - x).
Proof.
  destruct (Qlt_le_dec x 0) as [H | H].
  - right. split; [ lra | apply Qabs_neg; lra ].
  - left. split; [ exact H | now apply Qabs_pos ].
Qed.

Lemma Qdiv_mult_cancel (a t : Q) : 0 < t -> a / t * t == a.
Proof. intros Ht. field. lra. Qed.

Lemma Qdiv_le_mono (a b t : Q) : 0 < t -> a <= b -> a / t <= b / t.
Proof.
  intros Ht H. apply Qle_shift_div_l; [ exact Ht | ].
  rewrite Qdiv_mult_cancel by exact Ht. exact H.
Qed.

Lemma Qdiv_le_reflect (a b t : Q) : 0 < t -> a / t <= b / t -> a <= b.
Proof.
  intros Ht H.
  rewrite <- (Qdiv_mult_cancel a t Ht), <- (Qdiv_mult_cancel b t Ht).
  nra.
Qed.

Lemma py_max_spec (xs : list Q) :
  forall x, In (py_max x xs) (x :: xs)
            /\ forall y, In y (x :: xs) -> y <= py_max x xs.
Proof.
  unfold py_max.
  induction xs as [|z xs IH]; intros x.
  - split; [ now left | intros y [<- | []]; apply Qle_refl ].
  - simpl fold_left.
    destruct (Qgt_bool z x) eqn:E.
    + apply Qgt_bool_true in E.
      destruct (IH z) as [Hin Hmax].
      split; [ now right | ].
      intros y [<- | Hy]; [ | now apply Hmax ].
      pose proof (Hmax z (or_introl eq_refl)). lra.
    + apply Qgt_bool_false in E.
      destruct (IH x) as [Hin Hmax].
      split; [ destruct Hin as [Hin | Hin]; [ now left | now right; right ] | ].
      intros y [<- | [<- | Hy]].
      * apply Hmax. now left.
      * pose proof (Hmax x (or_introl eq_refl)). lra.
      * apply Hmax. now right.
Qed.

Lemma distribution_ok (total : Q) (items : list (string * Q)) :
  ~ total == 0 ->
  exists d,
    mapM (fun item : string * Q =>
            share <- py_div (snd item) total ;;
            Ok (fst item, py_round share 3))
         items = Ok d.
Proof.
  intros Hnz.
  induction items as [|item items [d IH]]; simpl.
  - eexists. reflexivity.
  - unfold py_div at 1.
    apply Qeq_bool_false in Hnz. rewrite Hnz. cbn [bind].
    rewrite IH. cbn [bind]. eexists. reflexivity.
Qed.

Lemma skew_of_share (s : Q) :
  (Qmin (Qabs (s - (1 # 2)) * 20) 10 == 0 <-> s == 1 # 2)
  /\ (1 <= s -> Qmin (Qabs (s - (1 # 2)) * 20) 10 == 10).
Proof.
  destruct (Qabs_cases (s - (1 # 2))) as [[H1 H2] | [H1 H2]];
    destruct (Q.min_spec (Qabs (s - (1 # 2)) * 20) 10) as [[H3 H4] | [H3 H4]];
    repeat split; intros; lra.
Qed.

(** The detector's skew score, in terms of the largest outcome volume. *)
Lemma detector_skew_largest (trades : list trade) (M : Q) :
  0 < py_sum (values (outcome_volumes trades)) ->
  max_volume_of (outcome_volumes trades) M ->
  Detector.analyze_outcome_skew trades
  == Qmin (Qabs (M / py_sum (values (outcome_volumes trades)) - (1 # 2)) * 20) 10.
Proof.
  intros Htotal [(o & v & Hin & Hv) Hmax].
  unfold Detector.analyze_outcome_skew.
  destruct trades as [|t trades]; [ destruct Hin | ].
  cbn [is_empty].
  set (volumes := outcome_volumes (t :: trades)) in *.
  destruct volumes as [|item volumes'] eqn:Evol; [ destruct Hin | ].
  cbn [is_empty]. rewrite <- Evol in *. clear Evol item volumes'.
  assert (Hnz : Qeq_bool (py_sum (values volumes)) 0 = false)
    by (apply Qeq_bool_false; lra).
  rewrite Hnz.
  unfold sorted_reverse.
  destruct (sorted (fun x => - snd x) volumes) as [|[o0 v0] rest] eqn:E.
  - apply sorted_nil in E. rewrite E in Hin. destruct Hin.
  - apply sorted_head_min in E as [Hin0 Hmin].
    assert (Hv0 : v0 == M).
    { apply Qle_antisym; [ exact (Hmax o0 v0 Hin0) | ].
      specialize (Hmin (o, v) Hin). simpl in Hmin. lra. }
    rewrite Hv0. reflexivity.
Qed.

(** The backtester's skew score, in terms of the largest outcome volume. *)
Lemma backtester_skew_largest (trades : list trade) (M : Q) :
  0 < py_sum (values (outcome_volumes trades)) ->
  max_volume_of (outcome_volumes trades) M ->
  exists sk,
    Backtester.analyze_outcome_skew trades = Ok sk
    /\ fst sk
       == Qmin (Qabs (M / py_sum (values (outcome_volumes trades)) - (1 # 2)) * 20) 10.
Proof.
  intros Htotal [(o & v & Hin & Hv) Hmax].
  unfold Backtester.analyze_outcome_skew.
  destruct trades as [|t trades]; [ destruct Hin | ].
  cbn [is_empty].
  set (volumes := outcome_volumes (t :: trades)) in *.
  set (total := py_sum (values volumes)) in *.
  destruct (values volumes) as [|vol0 vols] eqn:Evals.
  { destruct volumes; [ destruct Hin | discriminate Evals ]. }
  destruct (distribution_ok total (sorted_reverse snd volumes)) as [d Hd];
    [ lra | ].
  rewrite Hd. cbn [bind].
  eexists. split; [ reflexivity | ].
  cbn [fst].
  assert (Hgt : Qgt_bool total 0 = true) by (now apply Qgt_bool_true).
  rewrite Hgt.
  destruct (py_max_spec (map (fun vol => vol / total) vols) (vol0 / total))
    as [Hmem Hbig].
  change (vol0 / total :: map (fun vol => vol / total) vols)
    with (map (fun vol => vol / total) (vol0 :: vols)) in Hmem, Hbig.
  rewrite <- Evals in Hmem, Hbig.
  apply in_map_iff in Hmem as (vmax & Hshare & Hvmax).
  apply in_map_iff in Hvmax as ([omax vmax'] & Heq & Hinmax).
  simpl in Heq. subst vmax'.
  assert (Hvm : vmax == M).
  { apply Qle_antisym; [ exact (Hmax omax vmax Hinmax) | ].
    rewrite <- Hv.
    apply (Qdiv_le_reflect v vmax total Htotal).
    rewrite Hshare. apply Hbig.
    apply in_map_iff. exists v. split; [ reflexivity | ].
    apply in_map_iff. exists (o, v). now split. }
  rewrite <- Hshare, Hvm. reflexivity.
Qed.

(** C6, the claim as stated, fails in the "exactly when": volumes 2, 1, 1
    on three outcomes give a largest share of one half and a score of 0,
    without a 50/50 split between exactly two outcomes. *)
Lemma outcome_skew_counterexample :
  0 < py_sum (values (outcome_volumes three_way_trades))
  /\ Detector.analyze_outcome_skew three_way_trades == 0
  /\ (exists sk, Backtester.analyze_outcome_skew three_way_trades = Ok sk
                 /\ fst sk == 0)
  /\ ~ split_50_50 (outcome_volumes three_way_trades).
Proof.
  split; [ reflexivity | ].
  split; [ reflexivity | ].
  split; [ eexists; split; [ vm_compute; reflexivity | reflexivity ] | ].
  intros (o1 & o2 & v1 & v2 & E & _).
  vm_compute in E. discriminate E.
Qed.

(** C6 (amended): for every trade list with positive total volume, the
    outcome-skew score (the same in both files) is 0 exactly when the
    largest outcome volume is half of the total; so it is 0 when the volume
    is split 50/50 between exactly two outcomes, and it equals the maximum
    value 10 when the volume is split 100/0. *)
Theorem outcome_skew_extremes (trades : list trade) (M : Q) :
  0 < py_sum (values (outcome_volumes trades)) ->
  max_volume_of (outcome_volumes trades) M ->
  skew_extremes trades M.
Proof.
  intros Htotal HM.
  unfold skew_extremes.
  pose proof (detector_skew_largest trades M Htotal HM) as Hd.
  destruct (backtester_skew_largest trades M Htotal HM) as (sk & Hsk & Hb).
  set (total := py_sum (values (outcome_volumes trades))) in *.
  destruct (skew_of_share (M / total)) as [Hzero Hfull].
  assert (Hhalf : M / total == 1 # 2 <-> M * 2 == total).
  { split; intros H.
    - rewrite <- (Qdiv_mult_cancel M total Htotal), H. lra.
    - rewrite <- H. field.
      intros HM0. rewrite <- H in Htotal. lra. }
  assert (Hiff : Detector.analyze_outcome_skew trades == 0 <-> M * 2 == total).
  { rewrite Hd, Hzero. exact Hhalf. }
  exists sk.
  split; [ exact Hsk | ].
  split; [ rewrite Hb, Hd; reflexivity | ].
  split; [ exact Hiff | ].
  split.
  - intros (o1 & o2 & v1 & v2 & E & Heq).
    apply Hiff.
    destruct HM as [(o & v & Hin & Hv) _].
    subst total. rewrite E in *.
    unfold py_sum, values. simpl.
    destruct Hin as [[= <- <-] | [[= <- <-] | []]]; lra.
  - intros (o & v & Hin & Hv).
    rewrite Hd. apply Hfull.
    apply Qle_shift_div_l; [ exact Htotal | ].
    destruct HM as [_ Hmax].
    specialize (Hmax o v Hin). fold total in Hv. lra.
Qed.

Lemma outcome_skew_extremes_witness : skew_extremes two_sided_trades 10.
Proof.
  apply (outcome_skew_extremes two_sided_trades 10).
  - reflexivity.
  - split.
    + exists "YES"%string, (0 + 10). split; [ now left | reflexivity ].
    + intros o v Hin. vm_compute in Hin.
      destruct Hin as [[= <- <-] | [[= <- <-] | []]]; discriminate.
Defined.

(** ** The skew-only scanner *)

(** C7: let [yes] and [no] be the prices [analyze_market] reads from a
    market (under either spelling of the key, 0.5 when absent).  When they
    sum to 0 the scanner's suspicious score is 0.  Otherwise, with
    [p = yes / (yes + no)] the normalized yes price, [p] in [0, 1], the
    suspicious score is [min(|p - 0.5| * 2 * 10, 10)] and equals the
    outcome-skew score of a trade set with two outcomes whose volume shares
    are [p] and [1 - p]. *)
Theorem kalshi_matches_outcome_skew (m : Kalshi.market) (yes no : Q) :
  get2 (Kalshi.m_yes_price m) (Kalshi.m_yesPrice m) (1 # 2) = yes ->
  get2 (Kalshi.m_no_price m) (Kalshi.m_noPrice m) (1 # 2) = no ->
  (yes + no == 0 -> Kalshi.suspicious_score (Kalshi.analyze_market m) == 0)
  /\ (forall (p : Q) (trades : list trade) (o1 o2 : string) (v1 v2 : Q),
        ~ yes + no == 0 ->
        yes / (yes + no) == p ->
        0 <= p <= 1 ->
        outcome_volumes trades = [(o1, v1); (o2, v2)] ->
        0 < v1 + v2 ->
        v1 / (v1 + v2) == p ->
        Kalshi.suspicious_score (Kalshi.analyze_market m)
        == Qmin (Qabs (p - (1 # 2)) * 2 * 10) 10
        /\ Kalshi.suspicious_score (Kalshi.analyze_market m)
           == Detector.analyze_outcome_skew trades).
Proof.
  intros Hyes Hno.
  split.
  - intros Hzero.
    unfold Kalshi.analyze_market, Kalshi.calculate_skew.
    rewrite Hyes, Hno. cbn [Kalshi.suspicious_score].
    apply Qeq_bool_iff in Hzero. rewrite Hzero. reflexivity.
  - intros p trades o1 o2 v1 v2 Hnz Hnorm Hp Hvol Htotal Hs1.
    assert (Hs2 : v2 / (v1 + v2) == 1 - p)
      by (rewrite <- Hs1; field; lra).
    assert (Hk : Kalshi.suspicious_score (Kalshi.analyze_market m)
                 == Qabs (p - (1 # 2)) * 2 * 10).
    { unfold Kalshi.analyze_market, Kalshi.calculate_skew.
      rewrite Hyes, Hno. cbn [Kalshi.suspicious_score].
      destruct (Qeq_bool (yes + no) 0) eqn:E.
      - apply Qeq_bool_iff in E. contradiction.
      - rewrite Hnorm. reflexivity. }
    assert (Hsum : py_sum (values (outcome_volumes trades)) == v1 + v2)
      by (rewrite Hvol; unfold py_sum, values; simpl; lra).
    assert (Hpos : 0 < py_sum (values (outcome_volumes trades)))
      by (rewrite Hsum; exact Htotal).
    assert (Hd : Detector.analyze_outcome_skew trades
                 == Qabs (p - (1 # 2)) * 2 * 10).
    { destruct (Qlt_le_dec v1 v2) as [Hlt | Hle].
      - rewrite (detector_skew_largest trades v2 Hpos).
        + rewrite Hsum, Hs2.
          destruct (Qabs_cases (1 - p - (1 # 2))) as [[H1 H2] | [H1 H2]];
            destruct (Qabs_cases (p - (1 # 2))) as [[H3 H4] | [H3 H4]];
            destruct (Q.min_spec (Qabs (1 - p - (1 # 2)) * 20) 10)
              as [[H5 H6] | [H5 H6]];
            lra.
        + rewrite Hvol. split.
          * exists o2, v2. split; [ right; now left | reflexivity ].
          * intros o v [[= <- <-] | [[= <- <-] | []]]; lra.
      - rewrite (detector_skew_largest trades v1 Hpos).
        + rewrite Hsum, Hs1.
          destruct (Qabs_cases (p - (1 # 2))) as [[H3 H4] | [H3 H4]];
            destruct (Q.min_spec (Qabs (p - (1 # 2)) * 20) 10)
              as [[H5 H6] | [H5 H6]];
            lra.
        + rewrite Hvol. split.
          * exists o1, v1. split; [ now left | reflexivity ].
          * intros o v [[= <- <-] | [[= <- <-] | []]]; lra. }
    split.
    + rewrite Hk.
      destruct (Qabs_cases (p - (1 # 2))) as [[H3 H4] | [H3 H4]];
        destruct (Q.min_spec (Qabs (p - (1 # 2)) * 2 * 10) 10)
          as [[H5 H6] | [H5 H6]];
        lra.
    + rewrite Hk, Hd. reflexivity.
Qed.

Lemma kalshi_matches_outcome_skew_witness :
  Kalshi.suspicious_score (Kalshi.analyze_market unquoted_market) == 0
  /\ Kalshi.suspicious_score (Kalshi.analyze_market cents_market)
     == Qmin (Qabs ((99 # 100) - (1 # 2)) * 2 * 10) 10
  /\ Kalshi.suspicious_score (Kalshi.analyze_market cents_market)
     == Detector.analyze_outcome_skew lopsided_trades.
Proof.
  split.
  - apply (proj1 (kalshi_matches_outcome_skew unquoted_market 0 0
                    eq_refl eq_refl)).
    reflexivity.
  - apply (proj2 (kalshi_matches_outcome_skew cents_market 99 1
                    eq_refl eq_refl)
             (99 # 100) lopsided_trades "YES"%string "NO"%string
             (0 + 99) (0 + 1)).
    + intros H. discriminate H.
    + reflexivity.
    + split; discriminate.
    + reflexivity.
    + reflexivity.
    + reflexivity.
Defined.

(** ** Malformed trades *)

Lemma address_volumes_skip (l1 l2 : list trade) (t : trade) :
  trade_size t = None ->
  address_volumes (l1 ++ t :: l2) = address_volumes (l1 ++ l2).
Proof.
  intros H. unfold address_volumes.
  rewrite !fold_left_app. simpl. rewrite H. reflexivity.
Qed.

Lemma detector_address_trades_skip (l1 l2 : list trade) (t : trade) :
  trade_size t = None ->
  Detector.address_trades (l1 ++ t :: l2) = Detector.address_trades (l1 ++ l2).
Proof.
  intros H. unfold Detector.address_trades.
  rewrite !fold_left_app. simpl. rewrite H. reflexivity.
Qed.

Lemma backtester_address_trades_skip (l1 l2 : list trade) (t : trade) :
  trade_size t = None ->
  Backtester.address_trades (l1 ++ t :: l2)
  = Backtester.address_trades (l1 ++ l2).
Proof.
  intros H. unfold Backtester.address_trades.
  rewrite !fold_left_app. simpl. rewrite H. reflexivity.
Qed.

Lemma is_empty_middle {A : Type} (l1 l2 : list A) (x : A) :
  is_empty (l1 ++ x :: l2) = false.
Proof. destruct l1; reflexivity. Qed.

(** A trade that the grouping loops skip leaves the four scores as they
    are without it. *)
Lemma address_scores_skip (l1 l2 : list trade) (t : trade) :
  trade_size t = None ->
  address_scores (l1 ++ t :: l2) = address_scores (l1 ++ l2).
Proof.
  intros H.
  unfold address_scores,
    Detector.analyze_position_concentration,
    Detector.analyze_whale_accumulation,
    Backtester.analyze_position_concentration,
    Backtester.analyze_whale_accumulation.
  rewrite (address_volumes_skip l1 l2 t H),
    (detector_address_trades_skip l1 l2 t H),
    (backtester_address_trades_skip l1 l2 t H),
    is_empty_middle.
  destruct (l1 ++ l2) as [|t0 rest]; reflexivity.
Qed.

(** Two trades that the grouping loops read alike score alike. *)
Lemma address_scores_congruence (l1 l2 : list trade) (t t' : trade) :
  trade_address t = trade_address t' ->
  trade_size t = trade_size t' ->
  trade_timestamp t = trade_timestamp t' ->
  trade_price t = trade_price t' ->
  address_scores (l1 ++ t :: l2) = address_scores (l1 ++ t' :: l2).
Proof.
  intros Ha Hs Ht Hp.
  unfold address_scores,
    Detector.analyze_position_concentration,
    Detector.analyze_whale_accumulation,
    Backtester.analyze_position_concentration,
    Backtester.analyze_whale_accumulation,
    address_volumes, Detector.address_trades, Backtester.address_trades.
  rewrite !is_empty_middle, !fold_left_app.
  simpl. rewrite Ha, Hs, Ht, Hp. reflexivity.
Qed.

(** C9, the claim as stated, fails: a trade with neither maker nor taker
    is grouped under the address [unknown] and halves the concentration
    score of the remaining trade; a trade with no size still counts as a
    trade of its address and turns that address into a whale. *)
Lemma malformed_trade_counterexample :
  let honest := sample_trade 0 "YES" "0xa" (1 # 2) 500 in
  maker no_address_trade = None /\ taker no_address_trade = None
  /\ size no_size_trade = None
  /\ (exists c1 c2,
        Detector.analyze_position_concentration [honest] = Ok c1
        /\ Detector.analyze_position_concentration [honest; no_address_trade]
           = Ok c2
        /\ c1 == 10 /\ c2 == 5)
  /\ Detector.analyze_whale_accumulation [honest] == 0
  /\ Detector.analyze_whale_accumulation [honest; no_size_trade] == 5.
Proof.
  repeat (split; [ reflexivity | ]).
  split; [ | split; reflexivity ].
  eexists. eexists.
  split; [ vm_compute; reflexivity | ].
  split; [ vm_compute; reflexivity | ].
  split; reflexivity.
Qed.

(** C9 (amended): in the indicators that group trades by address
    (concentration and whale accumulation, in both files) a trade whose
    size is a string that [float] rejects with [ValueError] is skipped: it
    contributes to no address grouping, no volume total and no score, and
    the scores, returned or raised, are those of the remaining trades.  A
    trade with neither maker nor taker is not skipped: it is scored as a
    trade of the address [unknown]; a trade with no size key is not
    skipped: it is scored as a trade of size 0. *)
Theorem malformed_trade_handling (l1 l2 : list trade) (t : trade) :
  (size t = Some Bad ->
   address_volumes (l1 ++ t :: l2) = address_volumes (l1 ++ l2)
   /\ Detector.address_trades (l1 ++ t :: l2)
      = Detector.address_trades (l1 ++ l2)
   /\ Backtester.address_trades (l1 ++ t :: l2)
      = Backtester.address_trades (l1 ++ l2)
   /\ address_scores (l1 ++ t :: l2) = address_scores (l1 ++ l2))
  /\ (maker t = None -> taker t = None ->
      address_scores (l1 ++ t :: l2)
      = address_scores (l1 ++ with_maker "unknown" t :: l2))
  /\ (size t = None ->
      address_scores (l1 ++ t :: l2)
      = address_scores (l1 ++ with_size (Num 0) t :: l2)).
Proof.
  split; [ | split ].
  - intros Hbad.
    assert (Hskip : trade_size t = None)
      by (unfold trade_size; rewrite Hbad; reflexivity).
    split; [ now apply address_volumes_skip | ].
    split; [ now apply detector_address_trades_skip | ].
    split; [ now apply backtester_address_trades_skip | ].
    now apply address_scores_skip.
  - intros Hm Ht.
    apply address_scores_congruence; try reflexivity.
    unfold trade_address. simpl. rewrite Hm, Ht. reflexivity.
  - intros Hs.
    apply address_scores_congruence; try reflexivity.
    unfold trade_size. simpl. rewrite Hs. reflexivity.
Qed.

Lemma malformed_trade_handling_witness :
  let honest := sample_trade 0 "YES" "0xa" (1 # 2) 500 in
  address_scores ([honest] ++ bad_size_trade :: [honest])
  = address_scores ([honest] ++ [honest])
  /\ address_scores ([honest] ++ no_address_trade :: [])
     = address_scores ([honest] ++ with_maker "unknown" no_address_trade :: [])
  /\ address_scores ([honest] ++ no_size_trade :: [])
     = address_scores ([honest] ++ with_size (Num 0) no_size_trade :: []).
Proof.
  intros honest.
  split; [ | split ].
  - apply (proj1 (malformed_trade_handling [honest] [honest] bad_size_trade)).
    reflexivity.
  - apply (proj1 (proj2 (malformed_trade_handling [honest] [] no_address_trade)));
      reflexivity.
  - apply (proj2 (proj2 (malformed_trade_handling [honest] [] no_size_trade))).
    reflexivity.
Defined.

(** ** Indicator bounds *)

Lemma py_sum_acc (xs : list Q) :
  forall a, fold_left Qplus xs a == a + py_sum xs.
Proof.
  unfold py_sum.
  induction xs as [|x xs IH]; intros a; simpl.
  - lra.
  - rewrite (IH (a + x)), (IH (0 + x)). lra.
Qed.

Lemma py_sum_cons (x : Q) (xs : list Q) : py_sum (x :: xs) == x + py_sum xs.
Proof. unfold py_sum at 1. simpl. rewrite py_sum_acc. lra. Qed.

Lemma py_sum_nonneg (xs : list Q) :
  Forall (fun x => 0 <= x) xs -> 0 <= py_sum xs.
Proof.
  induction 1 as [|x xs Hx _ IH].
  - apply Qle_refl.
  - rewrite py_sum_cons. lra.
Qed.

Lemma sum_squares_le (xs : list Q) :
  Forall (fun x => 0 <= x) xs ->
  py_sum (map (fun s => s * s) xs) <= py_sum xs * py_sum xs.
Proof.
  induction 1 as [|x xs Hx Hxs IH]; simpl map.
  - apply Qle_refl.
  - rewrite !py_sum_cons.
    pose proof (py_sum_nonneg xs Hxs). nra.
Qed.

Lemma py_sum_map_div (xs : list Q) (t : Q) :
  py_sum (map (fun v => v / t) xs) == py_sum xs / t.
Proof.
  induction xs as [|x xs IH]; simpl map.
  - reflexivity.
  - rewrite !py_sum_cons, IH. unfold Qdiv. ring.
Qed.

Lemma shares_ok (t : Q) (vals : list Q) :
  ~ t == 0 ->
  mapM (fun vol => py_div vol t) vals = Ok (map (fun v => v / t) vals).
Proof.
  intros Hnz. apply Qeq_bool_false in Hnz.
  induction vals as [|v vals IH]; simpl.
  - reflexivity.
  - unfold py_div at 1. rewrite Hnz. cbn [bind]. rewrite IH. reflexivity.
Qed.

Lemma Qdiv_self (t : Q) : ~ t == 0 -> t / t == 1.
Proof. intros Ht. field. exact Ht. Qed.

Lemma Qdiv_nonneg (a b : Q) : 0 <= a -> 0 < b -> 0 <= a / b.
Proof. intros Ha Hb. apply Qle_shift_div_l; lra. Qed.

Lemma len_nonneg {A : Type} (l : list A) : 0 <= len l.
Proof. unfold len, Qle. simpl. lia. Qed.

Lemma dict_add_nonneg (k : string) (v : Q) (d : list (string * Q)) :
  0 <= v ->
  Forall (fun x => 0 <= x) (values d) ->
  Forall (fun x => 0 <= x) (values (dict_add k v d)).
Proof.
  intros Hv.
  induction d as [|[k' v'] d IH]; simpl; intros Hd.
  - constructor; [ lra | constructor ].
  - inversion Hd as [|? ? Hv' Hd']; subst.
    destruct (String.eqb k k'); simpl; constructor; auto; lra.
Qed.

Lemma address_volumes_nonneg (trades : list trade) :
  nonneg_sizes trades ->
  Forall (fun x => 0 <= x) (values (address_volumes trades)).
Proof.
  unfold address_volumes.
  assert (G : forall d,
             nonneg_sizes trades ->
             Forall (fun x => 0 <= x) (values d) ->
             Forall (fun x => 0 <= x)
               (values (fold_left
                          (fun d t =>
                             match trade_size t with
                             | Some sz => dict_add (trade_address t) sz d
                             | None => d
                             end) trades d))).
  { induction trades as [|t trades IH]; intros d Hsz Hd; simpl.
    - exact Hd.
    - apply IH.
      + intros t' q Hin. apply Hsz. now right.
      + destruct (trade_size t) as [q|] eqn:E; [ | exact Hd ].
        apply dict_add_nonneg; [ | exact Hd ].
        apply (Hsz t q); [ now left | exact E ]. }
  intros Hsz. apply G; [ exact Hsz | constructor ].
Qed.

(** With non-negative sizes and a positive total volume the concentration
    score is returned and lies in [0, 10]. *)
Lemma detector_concentration_bounds (trades : list trade) :
  nonneg_sizes trades ->
  0 < py_sum (values (address_volumes trades)) ->
  exists c, Detector.analyze_position_concentration trades = Ok c
            /\ 0 <= c <= 10.
Proof.
  intros Hsz Htotal.
  pose proof (address_volumes_nonneg trades Hsz) as Hvals.
  unfold Detector.analyze_position_concentration.
  destruct (is_empty trades); [ exists 0; split; [ reflexivity | lra ] | ].
  destruct (is_empty (address_volumes trades));
    [ exists 0; split; [ reflexivity | lra ] | ].
  set (vals := values (address_volumes trades)) in *.
  set (total := py_sum vals) in *.
  rewrite shares_ok by lra. cbn [bind].
  eexists. split; [ reflexivity | ].
  set (shares := map (fun v => v / total) vals).
  assert (Hshares : Forall (fun x => 0 <= x) shares).
  { apply Forall_map. eapply Forall_impl; [ | exact Hvals ].
    intros v Hv. simpl. now apply Qdiv_nonneg. }
  assert (Hone : py_sum shares == 1).
  { unfold shares. rewrite py_sum_map_div.
    apply (Qdiv_self total). lra. }
  pose proof (sum_squares_le shares Hshares) as Hle.
  rewrite Hone in Hle.
  assert (Hpos : 0 <= py_sum (map (fun share => share * share) shares)).
  { apply py_sum_nonneg, Forall_map.
    eapply Forall_impl; [ | exact Hshares ].
    intros x Hx. simpl. nra. }
  lra.
Qed.

Lemma detector_velocity_bounds (trades : list trade) :
  0 <= fst (Detector.analyze_volume_velocity trades) <= 10.
Proof.
  unfold Detector.analyze_volume_velocity.
  destruct (is_empty trades); [ simpl; lra | ].
  destruct (sorted trade_timestamp trades) as [|first [|second rest]];
    try (simpl; lra).
  match goal with
  | |- context [if ?b then _ else _] => destruct b
  end; [ | simpl; lra ].
  cbn [fst].
  split; [ | apply Qmin_le_r ].
  apply Qmin_ge; [ | lra ].
  rewrite Qdiv_const.
  assert (0 <= len (first :: second :: rest)
               / Qmax (if negb
                            (Qeq_bool
                               (trade_timestamp (last (second :: rest) first))
                               (trade_timestamp first))
                       then (trade_timestamp (last (second :: rest) first)
                             - trade_timestamp first) / 3600
                       else 1) (1 # 10)); [ | lra ].
  apply Qdiv_nonneg; [ apply len_nonneg | ].
  eapply Qlt_le_trans; [ | apply Q.le_max_r ]. reflexivity.
Qed.

Lemma detector_skew_bounds (trades : list trade) :
  0 <= Detector.analyze_outcome_skew trades <= 10.
Proof.
  unfold Detector.analyze_outcome_skew.
  destruct (is_empty trades); [ lra | ].
  destruct (is_empty (outcome_volumes trades)); [ lra | ].
  destruct (Qeq_bool _ 0); [ lra | ].
  split; [ | apply Qmin_le_r ].
  apply Qmin_ge; [ | lra ].
  match goal with
  | |- 0 <= Qabs ?x * 20 => pose proof (Qabs_nonneg x)
  end.
  lra.
Qed.

Lemma price_changes_nonneg (prices : list Q) :
  Forall (fun p => 0 < p) prices ->
  Forall (fun x => 0 <= x) (Detector.price_changes prices).
Proof.
  induction prices as [|prev rest IH]; intros H.
  - constructor.
  - inversion H as [|? ? Hprev Hrest]; subst.
    destruct rest as [|cur rest'].
    + constructor.
    + specialize (IH Hrest).
      change (Detector.price_changes (prev :: cur :: rest'))
        with (if negb (Qeq_bool prev 0)
              then Qabs (cur - prev) / prev
                   :: Detector.price_changes (cur :: rest')
              else Detector.price_changes (cur :: rest')).
      destruct (negb (Qeq_bool prev 0)); [ | exact IH ].
      constructor; [ | exact IH ].
      apply Qdiv_nonneg; [ apply Qabs_nonneg | exact Hprev ].
Qed.

Lemma mean_nonneg (xs : list Q) :
  is_empty xs = false -> Forall (fun x => 0 <= x) xs -> 0 <= mean xs.
Proof.
  intros Hne Hall. unfold mean.
  apply Qdiv_nonneg; [ now apply py_sum_nonneg | ].
  destruct xs; [ discriminate Hne | ].
  unfold Qlt. simpl. lia.
Qed.

Lemma price_movement_bounds (py_sqrt : Q -> Q) (trades : list trade) :
  (forall x, 0 <= py_sqrt x) ->
  0 <= Detector.analyze_price_movement py_sqrt trades <= 10.
Proof.
  intros Hsqrt.
  unfold Detector.analyze_price_movement.
  destruct (is_empty trades); [ lra | ].
  destruct (List.length (sorted trade_timestamp trades) <? 3)%nat; [ lra | ].
  destruct (negb (forallb _ _)); [ lra | ].
  set (prices := filter (fun p => Qgt_bool p 0)
                        (map trade_price (sorted trade_timestamp trades))).
  destruct (List.length prices <? 2)%nat; [ lra | ].
  destruct (is_empty (Detector.price_changes prices)) eqn:Echanges; [ lra | ].
  split; [ | apply Qmin_le_r ].
  apply Qmin_ge; [ | lra ].
  assert (Hprices : Forall (fun p => 0 < p) prices).
  { apply Forall_forall. intros x Hx.
    apply filter_In in Hx as [_ Hx]. now apply Qgt_bool_true. }
  pose proof (mean_nonneg _ Echanges (price_changes_nonneg prices Hprices))
    as Hmean.
  assert (Hvol : 0 <= (if (1 <? List.length (Detector.price_changes prices))%nat
                       then Detector.stdev py_sqrt (Detector.price_changes prices)
                       else 0)).
  { destruct (1 <? _)%nat; [ apply Hsqrt | lra ]. }
  nra.
Qed.

Lemma dict_append_all {A : Type} (P : A -> Prop) (k : string) (x : A)
    (d : list (string * list A)) :
  P x ->
  Forall (fun g => Forall P (snd g)) d ->
  Forall (fun g => Forall P (snd g)) (dict_append k x d).
Proof.
  intros Hx.
  induction d as [|[k' xs] d IH]; simpl; intros Hd.
  - repeat constructor. exact Hx.
  - inversion Hd as [|? ? Hxs Hd']; subst.
    destruct (String.eqb k k'); constructor; auto.
    simpl in *. apply Forall_app. split; [ exact Hxs | now constructor ].
Qed.

Lemma address_trades_nonneg (trades : list trade) :
  nonneg_sizes trades ->
  Forall (fun g => Forall (fun f => 0 <= Detector.fill_size f) (snd g))
         (Detector.address_trades trades).
Proof.
  unfold Detector.address_trades.
  assert (G : forall d,
             nonneg_sizes trades ->
             Forall (fun g => Forall (fun f => 0 <= Detector.fill_size f) (snd g)) d ->
             Forall (fun g => Forall (fun f => 0 <= Detector.fill_size f) (snd g))
               (fold_left
                  (fun d t =>
                     match trade_size t with
                     | Some sz =>
                         dict_append (trade_address t)
                           (Detector.mkFill sz (trade_timestamp t) (trade_price t)) d
                     | None => d
                     end) trades d)).
  { induction trades as [|t trades IH]; intros d Hsz Hd; simpl.
    - exact Hd.
    - apply IH.
      + intros t' q Hin. apply Hsz. now right.
      + destruct (trade_size t) as [q|] eqn:E; [ | exact Hd ].
        apply dict_append_all; [ | exact Hd ].
        simpl. apply (Hsz t q); [ now left | exact E ]. }
  intros Hsz. apply G; [ exact Hsz | constructor ].
Qed.

Lemma whale_data_nonneg (groups : list (string * list Detector.fill)) :
  Forall (fun g => Forall (fun f => 0 <= Detector.fill_size f) (snd g)) groups ->
  Forall (fun w => 0 <= Detector.accumulation_speed w)
         (Detector.whale_data groups).
Proof.
  induction 1 as [|[addr trade_list] groups Hg _ IH];
    cbn [Detector.whale_data].
  - constructor.
  - destruct (2 <=? List.length trade_list)%nat; [ | exact IH ].
    destruct (sorted Detector.fill_timestamp trade_list) as [|first rest];
      [ exact IH | ].
    constructor; [ | exact IH ].
    simpl.
    apply Qdiv_nonneg.
    + apply py_sum_nonneg, Forall_map. exact Hg.
    + eapply Qlt_le_trans; [ | apply Q.le_max_r ]. reflexivity.
Qed.

Lemma detector_whale_bounds (trades : list trade) :
  nonneg_sizes trades ->
  0 <= Detector.analyze_whale_accumulation trades <= 10.
Proof.
  intros Hsz.
  unfold Detector.analyze_whale_accumulation.
  destruct (is_empty trades); [ lra | ].
  destruct (is_empty _); [ lra | ].
  unfold sorted_reverse.
  destruct (sorted _ (Detector.whale_data (Detector.address_trades trades)))
    as [|top rest] eqn:E; [ lra | ].
  apply sorted_head_min in E as [Hin _].
  pose proof (whale_data_nonneg _ (address_trades_nonneg trades Hsz)) as Hall.
  rewrite Forall_forall in Hall. specialize (Hall top Hin).
  split; [ | apply Qmin_le_r ].
  apply Qmin_ge; [ rewrite Qdiv_const | ]; lra.
Qed.

(** X9: with non-negative sizes, a positive total volume and a
    non-negative standard deviation, each of the five indicators of the
    detector returns a score in [0, 10]. *)
Theorem detector_scores_bounded (py_sqrt : Q -> Q) (trades : list trade) :
  (forall x, 0 <= py_sqrt x) ->
  nonneg_sizes trades ->
  0 < py_sum (values (address_volumes trades)) ->
  (exists c, Detector.analyze_position_concentration trades = Ok c
             /\ 0 <= c <= 10)
  /\ 0 <= fst (Detector.analyze_volume_velocity trades) <= 10
  /\ 0 <= Detector.analyze_outcome_skew trades <= 10
  /\ 0 <= Detector.analyze_price_movement py_sqrt trades <= 10
  /\ 0 <= Detector.analyze_whale_accumulation trades <= 10.
Proof.
  intros Hsqrt Hsz Htotal.
  split; [ now apply detector_concentration_bounds | ].
  split; [ apply detector_velocity_bounds | ].
  split; [ apply detector_skew_bounds | ].
  split; [ now apply price_movement_bounds | ].
  now apply detector_whale_bounds.
Qed.

(** C3 fails on the concentration indicator: a trade list whose sizes are
    all 0 has a total volume of 0, and the division by it raises
    [ZeroDivisionError] where the skew indicator of the same file returns
    0; no score is returned. *)
Theorem concentration_zero_volume_raises :
  let idle := sample_trade 0 "YES" "0xa" (1 # 2) 0 in
  Detector.analyze_position_concentration [idle] = Raise ZeroDivisionError
  /\ Backtester.analyze_position_concentration [idle] = Raise ZeroDivisionError
  /\ Detector.analyze_outcome_skew [idle] = 0.
Proof.
  repeat split.
Qed.

(** * Further properties of the code *)

(** ** Sorting, continued *)

Lemma sorted_reverse_desc {A : Type} (key : A -> Q) (l : list A) :
  StronglySorted (fun a b => key b <= key a) (sorted_reverse key l).
Proof.
  unfold sorted_reverse.
  pose proof (sorted_sorted (fun x => - key x) l) as H.
  induction H as [|x xs _ IH Hx]; constructor; [ exact IH | ].
  eapply Forall_impl; [ | exact Hx ].
  intros b Hb. unfold key_le in Hb. lra.
Qed.

Lemma sorted_reverse_In {A : Type} (key : A -> Q) (l : list A) (x : A) :
  In x (sorted_reverse key l) <-> In x l.
Proof. apply sorted_In. Qed.

Lemma sorted_reverse_length {A : Type} (key : A -> Q) (l : list A) :
  List.length (sorted_reverse key l) = List.length l.
Proof. apply sorted_length. Qed.

(** The sort is stable: its head is the first element of least key. *)
Lemma sorted_head_first_min {A : Type} (key : A -> Q) (l : list A) :
  forall first rest,
    sorted key l = first :: rest ->
    exists l1 l2,
      l = l1 ++ first :: l2
      /\ (forall x, In x l1 -> key first < key x)
      /\ (forall x, In x l2 -> key first <= key x).
Proof.
  induction l as [|x l IH]; intros first rest E.
  - discriminate E.
  - simpl in E.
    destruct (sorted key l) as [|h r] eqn:El.
    + apply sorted_nil in El. subst l.
      simpl in E. injection E as <- <-.
      exists [], []. repeat split; intros y [].
    + simpl in E.
      destruct (Qle_bool (key x) (key h)) eqn:C.
      * injection E as <- <-.
        apply Qle_bool_iff in C.
        exists [], l. split; [ reflexivity | ].
        split; [ intros y [] | ].
        intros y Hy.
        destruct (sorted_head_min key l h r El) as [_ Hmin].
        specialize (Hmin y Hy). lra.
      * injection E as <- <-.
        destruct (IH h r eq_refl) as (l1 & l2 & -> & H1 & H2).
        exists (x :: l1), l2. split; [ reflexivity | ].
        split; [ | exact H2 ].
        intros y [<- | Hy]; [ | now apply H1 ].
        assert (~ key x <= key h) as Hn
            by (rewrite <- Qle_bool_iff, C; discriminate).
        lra.
Qed.

Lemma filter_split {A : Type} (p : A -> bool) (l : list A) :
  forall f1 x f2,
    filter p l = f1 ++ x :: f2 ->
    exists l1 l2,
      l = l1 ++ x :: l2 /\ filter p l1 = f1 /\ filter p l2 = f2
      /\ p x = true.
Proof.
  induction l as [|y l IH]; intros f1 x f2 E.
  - destruct f1; discriminate E.
  - simpl in E. destruct (p y) eqn:Py.
    + destruct f1 as [|z f1].
      * simpl in E. injection E as <- <-.
        exists [], l. repeat split; assumption || reflexivity.
      * simpl in E. injection E as <- E.
        destruct (IH _ _ _ E) as (l1 & l2 & -> & <- & <- & Px).
        exists (y :: l1), l2.
        repeat split; try assumption; try reflexivity.
        simpl. rewrite Py. reflexivity.
    + destruct (IH _ _ _ E) as (l1 & l2 & -> & <- & <- & Px).
      exists (y :: l1), l2.
      repeat split; try assumption; try reflexivity.
      simpl. rewrite Py. reflexivity.
Qed.

(** ** Price lookup *)

(** X1: [get_market_price_at_timestamp] returns [None] exactly when no
    trade lies strictly within 300 seconds of the timestamp; otherwise it
    returns the price of the nearest such trade, and among equally near
    trades that of the one listed first. *)
Theorem market_price_nearest_first (trades : list trade) (ts : Q) :
  match Backtester.get_market_price_at_timestamp trades ts with
  | None => forall t, In t trades -> 300 <= Qabs (trade_timestamp t - ts)
  | Some p =>
      exists l1 t l2,
        trades = l1 ++ t :: l2
        /\ p = trade_price t
        /\ Qabs (trade_timestamp t - ts) < 300
        /\ (forall t', In t' l1 -> Qabs (trade_timestamp t' - ts) < 300 ->
                       Qabs (trade_timestamp t - ts)
                       < Qabs (trade_timestamp t' - ts))
        /\ (forall t', In t' l2 -> Qabs (trade_timestamp t' - ts) < 300 ->
                       Qabs (trade_timestamp t - ts)
                       <= Qabs (trade_timestamp t' - ts))
  end.
Proof.
  destruct (Backtester.get_market_price_at_timestamp trades ts) as [p|] eqn:E.
  - unfold Backtester.get_market_price_at_timestamp in E.
    set (near := fun t => Qlt_bool (Qabs (trade_timestamp t - ts)) 300) in *.
    set (dist := fun t => Qabs (trade_timestamp t - ts)) in *.
    destruct (sorted dist (filter near trades)) as [|t0 rest] eqn:Es;
      [ discriminate E | ].
    injection E as <-.
    apply sorted_head_first_min in Es as (f1 & f2 & Ef & H1 & H2).
    apply filter_split in Ef as (l1 & l2 & -> & <- & <- & Hnear).
    exists l1, t0, l2.
    split; [ reflexivity | ].
    split; [ reflexivity | ].
    split; [ now apply Qlt_bool_true | ].
    split; intros t' Hin Hclose.
    + apply (H1 t'), filter_In.
      split; [ exact Hin | now apply Qlt_bool_true ].
    + apply (H2 t'), filter_In.
      split; [ exact Hin | now apply Qlt_bool_true ].
  - now apply price_none_iff.
Qed.

(** ** Exceptions of the backtest engine *)

Lemma bind_Raise {A B : Type} (r : result A) (k : A -> result B) (e : exn) :
  bind r k = Raise e ->
  r = Raise e \/ exists a, r = Ok a /\ k a = Raise e.
Proof.
  destruct r as [a|e']; simpl; intros H.
  - right. eauto.
  - left. injection H as <-. reflexivity.
Qed.

Lemma shares_raise (total : Q) (vals : list Q) (e : exn) :
  mapM (fun vol => py_div vol total) vals = Raise e -> e = ZeroDivisionError.
Proof.
  induction vals as [|v vals IH]; simpl; intros H.
  - discriminate H.
  - unfold py_div at 1 in H.
    destruct (Qeq_bool total 0); [ now injection H as <- | ].
    cbn [bind] in H.
    apply bind_Raise in H as [H | (ys & _ & H)]; [ now apply IH | discriminate H ].
Qed.

Lemma distribution_raise (total : Q) (items : list (string * Q)) (e : exn) :
  mapM (fun item : string * Q =>
          share <- py_div (snd item) total ;;
          Ok (fst item, py_round share 3))
       items = Raise e ->
  e = ZeroDivisionError.
Proof.
  induction items as [|item items IH]; simpl; intros H.
  - discriminate H.
  - unfold py_div at 1 in H.
    destruct (Qeq_bool total 0); [ now injection H as <- | ].
    cbn [bind] in H.
    apply bind_Raise in H as [H | (ys & _ & H)]; [ now apply IH | discriminate H ].
Qed.

Lemma backtester_concentration_raise (trades : list trade) (e : exn) :
  Backtester.analyze_position_concentration trades = Raise e ->
  e = ZeroDivisionError.
Proof.
  unfold Backtester.analyze_position_concentration.
  destruct (is_empty trades); [ discriminate | ].
  destruct (is_empty (address_volumes trades)); [ discriminate | ].
  intros H.
  apply bind_Raise in H as [H | (ys & _ & H)];
    [ now apply shares_raise in H | discriminate H ].
Qed.

Lemma backtester_skew_raise (trades : list trade) (e : exn) :
  Backtester.analyze_outcome_skew trades = Raise e -> e = ZeroDivisionError.
Proof.
  unfold Backtester.analyze_outcome_skew.
  destruct (is_empty trades); [ discriminate | ].
  destruct (values (outcome_volumes trades)); [ discriminate | ].
  intros H.
  apply bind_Raise in H as [H | (ys & _ & H)];
    [ now apply distribution_raise in H | discriminate H ].
Qed.

Lemma window_signal_raise (window : list trade) (e : exn) :
  Backtester.window_signal window = Raise e -> e = ZeroDivisionError.
Proof.
  unfold Backtester.window_signal. intros H.
  apply bind_Raise in H as [H | (c & _ & H)];
    [ now apply backtester_concentration_raise in H | ].
  apply bind_Raise in H as [H | (sk & _ & H)];
    [ now apply backtester_skew_raise in H | discriminate H ].
Qed.

(** What a finished scan returns: its initial state, or the timestamp of a
    trade at a scanned index with a signal above the initial maximum. *)
Lemma scan_found (trades_sorted : list trade) (indices : list nat) :
  forall (max0 : Q) (ts0 : option Q) (r : option Q * Q),
    Backtester.scan trades_sorted indices max0 ts0 = Ok r ->
    r = (ts0, max0)
    \/ exists i t,
         In i indices /\ nth_error trades_sorted i = Some t
         /\ fst r = Some (trade_timestamp t) /\ max0 < snd r.
Proof.
  induction indices as [|i indices IH]; intros max0 ts0 r H.
  - left. simpl in H. now injection H as <-.
  - simpl in H.
    apply bind_Ok in H as (signal & _ & H).
    destruct (Qgt_bool signal max0) eqn:E.
    + apply Qgt_bool_true in E.
      destruct (nth_error trades_sorted i) as [t|] eqn:Enth; [ | discriminate H ].
      right.
      destruct (IH _ _ _ H) as [-> | (j & t' & Hj & Hnth & Hts & Hlt)].
      * exists i, t. simpl. repeat split; try assumption. now left.
      * exists j, t'. repeat split; try assumption; [ now right | lra ].
    + destruct (IH _ _ _ H) as [-> | (j & t' & Hj & Hnth & Hts & Hlt)].
      * now left.
      * right. exists j, t'. repeat split; try assumption. now right.
Qed.

Lemma scan_raise (trades_sorted : list trade) (indices : list nat) :
  forall (max0 : Q) (ts0 : option Q) (e : exn),
    (forall i, In i indices -> (i < List.length trades_sorted)%nat) ->
    Backtester.scan trades_sorted indices max0 ts0 = Raise e ->
    e = ZeroDivisionError.
Proof.
  induction indices as [|i indices IH]; intros max0 ts0 e Hlen H.
  - discriminate H.
  - simpl in H.
    assert (Hlen' : forall j, In j indices -> (j < List.length trades_sorted)%nat)
      by (intros j Hj; apply Hlen; now right).
    apply bind_Raise in H as [H | (signal & _ & H)];
      [ now apply window_signal_raise in H | ].
    destruct (Qgt_bool signal max0).
    + destruct (nth_error trades_sorted i) eqn:Enth.
      * eapply IH; eassumption.
      * apply nth_error_None in Enth.
        specialize (Hlen i (or_introl eq_refl)). lia.
    + eapply IH; eassumption.
Qed.

Lemma find_signal_point_raise (trades : list trade) (e : exn) :
  Backtester.find_signal_point trades = Raise e -> e = ZeroDivisionError.
Proof.
  unfold Backtester.find_signal_point.
  destruct (List.length trades <? 10)%nat; [ discriminate | ].
  intros H.
  apply bind_Raise in H as [H | (r & _ & H)]; [ | discriminate H ].
  eapply scan_raise; [ | exact H ].
  intros i Hi. apply in_seq in Hi. lia.
Qed.

(** A signal that is found sits on a trade at sorted position 10 or later
    and has a positive probability. *)
Lemma find_signal_point_found (trades : list trade) (ts p : Q) :
  Backtester.find_signal_point trades = Ok (Some (Some ts, p)) ->
  exists i t,
    (10 <= i < List.length trades)%nat
    /\ nth_error (sorted trade_timestamp trades) i = Some t
    /\ ts = trade_timestamp t
    /\ 0 < p.
Proof.
  unfold Backtester.find_signal_point.
  destruct (List.length trades <? 10)%nat; [ discriminate | ].
  intros H.
  apply bind_Ok in H as (r & Hr & [= ->]).
  apply scan_found in Hr as [[= ] | (i & t & Hi & Hnth & [= ->] & Hlt)].
  apply in_seq in Hi. rewrite sorted_length in Hi.
  exists i, t. repeat split; try assumption; lia.
Qed.

(** X2: [find_signal_point] and [backtest_market] never raise
    [IndexError] or [KeyError]: the index [trades_sorted[i]] of the scan is
    always in range, and every key lookup has a default or reads a key the
    code wrote itself. *)
Theorem backtest_never_index_or_key_error
    (fetch_trades : string -> list trade)
    (fetch_history : string -> Backtester.market_history)
    (now : Q) (m : Backtester.market) (trades : list trade) (e : exn) :
  (Backtester.find_signal_point trades = Raise e ->
   e <> IndexError /\ forall k, e <> KeyError k)
  /\ (Backtester.backtest_market fetch_trades fetch_history now m = Raise e ->
      e <> IndexError /\ forall k, e <> KeyError k).
Proof.
  assert (Hzero : e = ZeroDivisionError ->
                  e <> IndexError /\ forall k, e <> KeyError k)
    by (intros ->; split; [ | intros k ]; discriminate).
  split; [ intros H; now apply Hzero, (find_signal_point_raise trades) | ].
  unfold Backtester.backtest_market.
  destruct (String.eqb _ ""); [ discriminate | ].
  destruct (is_empty _ || _); [ discriminate | ].
  intros H. apply Hzero.
  apply bind_Raise in H as [H | (signal & _ & H)];
    [ now apply find_signal_point_raise in H | ].
  destruct signal as [[[ts|] p]|]; try discriminate H.
  apply bind_Raise in H as [H | (c & _ & H)];
    [ now apply backtester_concentration_raise in H | ].
  apply bind_Raise in H as [H | (sk & _ & H)];
    [ now apply backtester_skew_raise in H | ].
  destruct (Backtester.get_market_price_at_timestamp _ ts);
    [ | discriminate H ].
  destruct (Backtester.get_market_price_at_timestamp _ (ts + 3600));
    discriminate H.
Qed.

Lemma backtest_never_index_or_key_error_witness :
  exists e,
    Backtester.find_signal_point idle_trades = Raise e
    /\ Backtester.backtest_market (fun _ => idle_trades)
         (fun _ => unresolved_history) 0 sample_market = Raise e
    /\ e <> IndexError /\ forall k, e <> KeyError k.
Proof.
  exists ZeroDivisionError.
  split; [ vm_compute; reflexivity | ].
  split; [ vm_compute; reflexivity | ].
  apply (proj1 (backtest_never_index_or_key_error
                  (fun _ => idle_trades) (fun _ => unresolved_history) 0
                  sample_market idle_trades ZeroDivisionError)).
  vm_compute. reflexivity.
Defined.

(** X3: a market with ten trades or fewer is never backtested:
    [backtest_market] returns [None] without raising, because the scan of
    [find_signal_point] needs an eleventh trade to carry the signal. *)
Theorem backtest_needs_eleven_trades
    (fetch_trades : string -> list trade)
    (fetch_history : string -> Backtester.market_history)
    (now : Q) (m : Backtester.market) :
  (forall mid, Backtester.id m = Some mid ->
               (List.length (fetch_trades mid) <= 10)%nat) ->
  Backtester.backtest_market fetch_trades fetch_history now m = Ok None.
Proof.
  intros Hfew.
  unfold Backtester.backtest_market.
  destruct (Backtester.id m) as [mid|]; [ | reflexivity ].
  specialize (Hfew mid eq_refl).
  destruct (String.eqb mid ""); [ reflexivity | ].
  destruct (is_empty (fetch_trades mid) || _); [ reflexivity | ].
  unfold Backtester.find_signal_point.
  destruct (List.length (fetch_trades mid) <? 10)%nat; [ reflexivity | ].
  rewrite sorted_length.
  replace (List.length (fetch_trades mid) - 10)%nat with 0%nat by lia.
  reflexivity.
Qed.

Lemma backtest_needs_eleven_trades_witness :
  Backtester.backtest_market (fun _ => firstn 10 sample_trades)
    (fun _ => resolved_history) 0 sample_market = Ok None.
Proof.
  apply (backtest_needs_eleven_trades (fun _ => firstn 10 sample_trades)
           (fun _ => resolved_history) 0 sample_market).
  intros mid _. vm_compute. lia.
Defined.

(** X4: when [find_signal_point] reports a signal, its probability is
    positive and its timestamp is that of the trade at some position 10 or
    later of the time-sorted list: never one of the ten earliest trades. *)
Theorem signal_never_among_first_ten (trades : list trade) (ts p : Q) :
  Backtester.find_signal_point trades = Ok (Some (Some ts, p)) ->
  0 < p
  /\ exists i t,
      (10 <= i < List.length trades)%nat
      /\ nth_error (sorted trade_timestamp trades) i = Some t
      /\ In t trades
      /\ ts = trade_timestamp t.
Proof.
  intros H.
  apply find_signal_point_found in H as (i & t & Hi & Hnth & Hts & Hp).
  split; [ exact Hp | ].
  exists i, t. repeat split; try assumption; try lia.
  apply (sorted_In trade_timestamp). eapply nth_error_In. exact Hnth.
Qed.

Lemma signal_never_among_first_ten_witness :
  0 < sample_probability
  /\ exists i t,
      (10 <= i < List.length sample_trades)%nat
      /\ nth_error (sorted trade_timestamp sample_trades) i = Some t
      /\ In t sample_trades
      /\ 100 = trade_timestamp t.
Proof.
  apply (signal_never_among_first_ten sample_trades 100 sample_probability).
  vm_compute. reflexivity.
Defined.

(** ** Concentration *)

Lemma shares_zero_total (total : Q) (v : Q) (vals : list Q) :
  total == 0 ->
  mapM (fun vol => py_div vol total) (v :: vals) = Raise ZeroDivisionError.
Proof.
  intros Hz. simpl. unfold py_div at 1.
  apply Qeq_bool_iff in Hz. rewrite Hz. reflexivity.
Qed.

(** X5: the concentration indicator of either file raises
    [ZeroDivisionError] exactly when at least one trade was grouped and the
    grouped volumes sum to 0; and the backtester's indicator follows the
    detector's: it returns the detector's score clipped to 10, and raises
    what the detector raises. *)
Theorem concentration_raises_iff_zero_volume (trades : list trade) :
  let volumes := address_volumes trades in
  let total := py_sum (values volumes) in
  (Detector.analyze_position_concentration trades = Raise ZeroDivisionError
   <-> volumes <> [] /\ total == 0)
  /\ (Backtester.analyze_position_concentration trades
      = Raise ZeroDivisionError
      <-> volumes <> [] /\ total == 0)
  /\ (forall c,
        Detector.analyze_position_concentration trades = Ok c ->
        Backtester.analyze_position_concentration trades = Ok (Qmin c 10))
  /\ (forall e,
        Detector.analyze_position_concentration trades = Raise e ->
        Backtester.analyze_position_concentration trades = Raise e).
Proof.
  intros volumes total.
  assert (Hzero :
    volumes <> [] /\ total == 0 ->
    Detector.analyze_position_concentration trades = Raise ZeroDivisionError
    /\ Backtester.analyze_position_concentration trades
       = Raise ZeroDivisionError).
  { unfold Detector.analyze_position_concentration,
      Backtester.analyze_position_concentration.
    fold volumes. fold total.
    intros [Hne Hz].
    destruct trades as [|t trades]; [ now contradiction Hne | ].
    cbn [is_empty].
    destruct volumes as [|[k v] volumes'] eqn:Ev; [ now contradiction Hne | ].
    cbn [is_empty values map snd].
    rewrite (shares_zero_total total v _ Hz). split; reflexivity. }
  assert (Hother :
    ~ (volumes <> [] /\ total == 0) ->
    exists c,
      Detector.analyze_position_concentration trades = Ok c
      /\ Backtester.analyze_position_concentration trades = Ok (Qmin c 10)).
  { unfold Detector.analyze_position_concentration,
      Backtester.analyze_position_concentration.
    fold volumes. fold total.
    intros Hn.
    destruct (is_empty trades); [ exists 0; split; reflexivity | ].
    destruct volumes as [|[k v] volumes'] eqn:Ev;
      [ exists 0; split; reflexivity | ].
    cbn [is_empty].
    assert (Hnz : ~ total == 0)
      by (intros Hz; apply Hn; split; [ discriminate | exact Hz ]).
    rewrite (shares_ok total _ Hnz). cbn [bind].
    eexists. split; reflexivity. }
  assert (Hdec : (volumes <> [] /\ total == 0)
                 \/ ~ (volumes <> [] /\ total == 0)).
  { destruct volumes as [|kv volumes'].
    - right. intros [H _]. now apply H.
    - destruct (Qeq_dec total 0) as [Hz | Hnz].
      + left. split; [ discriminate | exact Hz ].
      + right. intros [_ Hz]. now apply Hnz. }
  split; [ | split; [ | split ] ].
  - split; [ | intros H; now apply Hzero ].
    intros HD. destruct Hdec as [H | H]; [ exact H | ].
    destruct (Hother H) as (c & Hc & _). congruence.
  - split; [ | intros H; now apply Hzero ].
    intros HB. destruct Hdec as [H | H]; [ exact H | ].
    destruct (Hother H) as (c & _ & Hc). congruence.
  - intros c HD. destruct Hdec as [H | H].
    + destruct (Hzero H) as [H1 _]. congruence.
    + destruct (Hother H) as (c' & Hc & Hb).
      rewrite HD in Hc. injection Hc as <-. exact Hb.
  - intros e HD. destruct Hdec as [H | H].
    + destruct (Hzero H) as [H1 H2].
      rewrite H1 in HD. injection HD as <-. exact H2.
    + destruct (Hother H) as (c & Hc & _). congruence.
Qed.

Lemma concentration_raises_iff_zero_volume_witness :
  Detector.analyze_position_concentration idle_trades = Raise ZeroDivisionError
  /\ Backtester.analyze_position_concentration idle_trades
     = Raise ZeroDivisionError
  /\ exists c, c == 5
       /\ Backtester.analyze_position_concentration two_sided_trades
          = Ok (Qmin c 10).
Proof.
  split; [ | split ].
  - apply (proj2 (proj1 (concentration_raises_iff_zero_volume idle_trades))).
    split; [ vm_compute; discriminate | reflexivity ].
  - apply (proj2 (proj1 (proj2
             (concentration_raises_iff_zero_volume idle_trades)))).
    split; [ vm_compute; discriminate | reflexivity ].
  - exists (800000 # 160000).
    split; [ reflexivity | ].
    apply (proj1 (proj2 (proj2
             (concentration_raises_iff_zero_volume two_sided_trades)))).
    vm_compute. reflexivity.
Defined.

(** The grouping of trades that all come from one address. *)
Lemma address_volumes_single (a : string) (trades : list trade) :
  (forall t, In t trades -> trade_size t <> None -> trade_address t = a) ->
  address_volumes trades = [] \/ exists v, address_volumes trades = [(a, v)].
Proof.
  unfold address_volumes.
  assert (G : forall d,
             (forall t, In t trades -> trade_size t <> None -> trade_address t = a) ->
             d = [] \/ (exists v, d = [(a, v)]) ->
             let d' := fold_left
                         (fun d t =>
                            match trade_size t with
                            | Some sz => dict_add (trade_address t) sz d
                            | None => d
                            end) trades d in
             d' = [] \/ exists v, d' = [(a, v)]).
  { induction trades as [|t trades IH]; intros d Hall Hd; simpl.
    - exact Hd.
    - apply IH; [ intros t' Hin; apply Hall; now right | ].
      destruct (trade_size t) as [sz|] eqn:Es; [ | exact Hd ].
      right.
      rewrite (Hall t (or_introl eq_refl)) by (rewrite Es; discriminate).
      destruct Hd as [-> | [v ->]]; simpl.
      + eexists. reflexivity.
      + rewrite String.eqb_refl. eexists. reflexivity. }
  intros Hall. apply (G [] Hall). now left.
Qed.

(** X6: when every grouped trade comes from one address and the volume is
    not zero, the Herfindahl index is 1 and the concentration score is 10
    in both files. *)
Theorem concentration_single_address (a : string) (trades : list trade) :
  (forall t, In t trades -> trade_size t <> None -> trade_address t = a) ->
  ~ py_sum (values (address_volumes trades)) == 0 ->
  exists c c',
    Detector.analyze_position_concentration trades = Ok c /\ c == 10
    /\ Backtester.analyze_position_concentration trades = Ok c' /\ c' == 10.
Proof.
  intros Hall Hnz.
  unfold Detector.analyze_position_concentration,
    Backtester.analyze_position_concentration.
  destruct (address_volumes_single a trades Hall) as [E | [v E]];
    rewrite E in *.
  - exfalso. apply Hnz. reflexivity.
  - destruct trades as [|t trades]; [ discriminate E | ].
    cbn [is_empty].
    rewrite (shares_ok _ _ Hnz). cbn [bind].
    assert (Hv : ~ v == 0)
      by (intros Hz; apply Hnz; unfold py_sum, values; simpl; lra).
    assert (Hc : py_sum (map (fun share => share * share)
                             (map (fun x => x / py_sum (values [(a, v)]))
                                  (values [(a, v)]))) * 10 == 10).
    { unfold py_sum, values. simpl. field. lra. }
    eexists. eexists.
    split; [ reflexivity | ].
    split; [ exact Hc | ].
    split; [ reflexivity | ].
    rewrite Hc. reflexivity.
Qed.

Lemma concentration_single_address_witness :
  exists c c',
    Detector.analyze_position_concentration sample_trades = Ok c /\ c == 10
    /\ Backtester.analyze_position_concentration sample_trades = Ok c'
    /\ c' == 10.
Proof.
  apply (concentration_single_address "0xa" sample_trades).
  - intros t Hin _. vm_compute in Hin.
    repeat (destruct Hin as [<- | Hin]; [ reflexivity | ]).
    contradiction.
  - intros H. vm_compute in H. discriminate H.
Defined.

(** ** Whale accumulation *)

Lemma dict_append_fresh {A : Type} (k : string) (x : A)
    (d : list (string * list A)) :
  ~ In k (map fst d) ->
  (forall g, In g d -> List.length (snd g) = 1%nat) ->
  (forall g, In g (dict_append k x d) -> List.length (snd g) = 1%nat)
  /\ map fst (dict_append k x d) = map fst d ++ [k].
Proof.
  induction d as [|[k' xs] d IH]; intros Hfresh Hone; simpl.
  - split; [ intros g [<- | []]; reflexivity | reflexivity ].
  - destruct (String.eqb k k') eqn:E.
    + apply String.eqb_eq in E. subst k'.
      exfalso. apply Hfresh. now left.
    + destruct IH as [IH1 IH2].
      * intros Hin. apply Hfresh. now right.
      * intros g Hg. apply Hone. now right.
      * split; [ | simpl; now rewrite IH2 ].
        intros g [<- | Hg]; [ apply (Hone (k', xs)); now left | now apply IH1 ].
Qed.

(** With at most one grouped trade per address every group of
    [address_trades] holds one trade. *)
Lemma groups_of_distinct_addresses {A : Type} (pay : trade -> Q -> A)
    (trades : list trade) :
  forall d,
    (forall g, In g d -> List.length (snd g) = 1%nat) ->
    NoDup (map fst d ++ map trade_address (grouped_trades trades)) ->
    forall g,
      In g (fold_left
              (fun d t =>
                 match trade_size t with
                 | Some sz => dict_append (trade_address t) (pay t sz) d
                 | None => d
                 end) trades d) ->
      List.length (snd g) = 1%nat.
Proof.
  induction trades as [|t trades IH]; intros d Hone Hnd; simpl.
  - exact Hone.
  - unfold grouped_trades in Hnd. simpl in Hnd.
    destruct (trade_size t) as [sz|] eqn:Es.
    + simpl in Hnd.
      assert (Hfresh : ~ In (trade_address t) (map fst d)).
      { intros Hin. apply NoDup_remove_2 in Hnd.
        apply Hnd, in_or_app. now left. }
      destruct (dict_append_fresh (trade_address t) (pay t sz) d Hfresh Hone)
        as [Hone' Hkeys].
      apply IH; [ exact Hone' | ].
      rewrite Hkeys, <- app_assoc. exact Hnd.
    + apply IH; assumption.
Qed.

Lemma detector_no_whales (groups : list (string * list Detector.fill)) :
  (forall g, In g groups -> List.length (snd g) = 1%nat) ->
  Detector.whale_data groups = [].
Proof.
  induction groups as [|[addr trade_list] groups IH]; intros Hone.
  - reflexivity.
  - cbn [Detector.whale_data].
    rewrite (Hone (addr, trade_list) (or_introl eq_refl) : List.length trade_list = 1%nat).
    cbn [Nat.leb]. apply IH. intros g Hg. apply Hone. now right.
Qed.

Lemma backtester_no_whales (groups : list (string * list Q)) :
  (forall g, In g groups -> List.length (snd g) = 1%nat) ->
  Backtester.whale_data groups = [].
Proof.
  induction groups as [|[addr trade_list] groups IH]; intros Hone.
  - reflexivity.
  - cbn [Backtester.whale_data].
    rewrite (Hone (addr, trade_list) (or_introl eq_refl) : List.length trade_list = 1%nat).
    cbn [Nat.leb]. apply IH. intros g Hg. apply Hone. now right.
Qed.

(** X7: an address needs two grouped trades to count as a whale: when no
    address has two trades whose size parses, the whale score is 0 in both
    files and the detector lists no whale. *)
Theorem no_repeat_address_no_whale (trades : list trade) :
  NoDup (map trade_address (grouped_trades trades)) ->
  Detector.analyze_whale_accumulation trades = 0
  /\ Backtester.analyze_whale_accumulation trades = 0
  /\ Detector.top_whales trades = [].
Proof.
  intros Hnd.
  assert (Hd : Detector.whale_data (Detector.address_trades trades) = []).
  { apply detector_no_whales.
    apply (groups_of_distinct_addresses
             (fun t sz => Detector.mkFill sz (trade_timestamp t) (trade_price t))
             trades []); [ intros g [] | exact Hnd ]. }
  assert (Hb : Backtester.whale_data (Backtester.address_trades trades) = []).
  { apply backtester_no_whales.
    apply (groups_of_distinct_addresses (fun _ sz => sz) trades []);
      [ intros g [] | exact Hnd ]. }
  unfold Detector.analyze_whale_accumulation,
    Backtester.analyze_whale_accumulation, Detector.top_whales.
  rewrite Hd, Hb.
  destruct (is_empty trades); repeat split; reflexivity.
Qed.

Lemma no_repeat_address_no_whale_witness :
  Detector.analyze_whale_accumulation two_sided_trades = 0
  /\ Backtester.analyze_whale_accumulation two_sided_trades = 0
  /\ Detector.top_whales two_sided_trades = [].
Proof.
  apply (no_repeat_address_no_whale two_sided_trades).
  vm_compute. repeat constructor; simpl; intuition discriminate.
Defined.

(** X8: the detector's whale score is taken from the whale with the
    largest total position, whatever the accumulation speeds of the others:
    with no whale it is 0, otherwise it is
    [min(accumulation_speed / 100, 10)] of a whale of two trades or more
    whose position no other whale exceeds. *)
Theorem detector_whale_largest_position (trades : list trade) :
  match Detector.whale_data (Detector.address_trades trades) with
  | [] => Detector.analyze_whale_accumulation trades = 0
  | _ :: _ =>
      exists top,
        In top (Detector.whale_data (Detector.address_trades trades))
        /\ (forall w,
              In w (Detector.whale_data (Detector.address_trades trades)) ->
              Detector.total_position w <= Detector.total_position top)
        /\ Detector.analyze_whale_accumulation trades
           = Qmin (Detector.accumulation_speed top / 100) 10
  end.
Proof.
  unfold Detector.analyze_whale_accumulation.
  destruct trades as [|t trades]; [ reflexivity | ].
  cbn [is_empty].
  destruct (Detector.whale_data (Detector.address_trades (t :: trades)))
    as [|w ws] eqn:E; [ reflexivity | ].
  cbn [is_empty]. unfold sorted_reverse.
  destruct (sorted (fun x => - Detector.total_position x) (w :: ws))
    as [|top rest] eqn:Es.
  - apply sorted_nil in Es. discriminate Es.
  - apply sorted_head_min in Es as [Hin Hmin].
    exists top. split; [ exact Hin | ].
    split; [ | reflexivity ].
    intros w' Hw'. specialize (Hmin w' Hw'). simpl in Hmin. lra.
Qed.

(** ** Bounds and unparseable sizes in the detector *)

Lemma sqrt_floor_nonneg (x : Q) : 0 <= sqrt_floor x.
Proof.
  unfold sqrt_floor, Qle. simpl.
  pose proof (Z.sqrt_nonneg (Qfloor x)). lia.
Qed.

Lemma detector_scores_bounded_witness :
  (exists c, Detector.analyze_position_concentration two_sided_trades = Ok c
             /\ 0 <= c <= 10)
  /\ 0 <= fst (Detector.analyze_volume_velocity two_sided_trades) <= 10
  /\ 0 <= Detector.analyze_outcome_skew two_sided_trades <= 10
  /\ 0 <= Detector.analyze_price_movement sqrt_floor two_sided_trades <= 10
  /\ 0 <= Detector.analyze_whale_accumulation two_sided_trades <= 10.
Proof.
  apply (detector_scores_bounded sqrt_floor two_sided_trades).
  - exact sqrt_floor_nonneg.
  - intros t q Hin Hq. vm_compute in Hin.
    destruct Hin as [<- | [<- | []]]; injection Hq as <-; discriminate.
  - reflexivity.
Defined.

(** X10: one trade whose size does not parse silences the two detector
    indicators that read sizes inside a catch-all [try]: the price-movement
    score is 0, and the velocity indicator returns [(0, {})] when that
    trade is within 24 hours of the latest trade. *)
Theorem unparseable_size_zeroes_scores
    (py_sqrt : Q -> Q) (trades : list trade) (t : trade) :
  In t trades ->
  trade_size t = None ->
  Detector.analyze_price_movement py_sqrt trades = 0
  /\ ((forall t', In t' trades ->
                  trade_timestamp t' - trade_timestamp t < 86400) ->
      Detector.analyze_volume_velocity trades = (0, [])).
Proof.
  intros Hin Hbad.
  assert (Hsorted : In t (sorted trade_timestamp trades))
    by (now apply sorted_In).
  split.
  - unfold Detector.analyze_price_movement.
    destruct (is_empty trades); [ reflexivity | ].
    destruct (List.length _ <? 3)%nat; [ reflexivity | ].
    match goal with
    | |- context [forallb ?f ?l] => destruct (forallb f l) eqn:E
    end; [ | reflexivity ].
    rewrite forallb_forall in E. specialize (E t Hsorted).
    rewrite Hbad in E. discriminate E.
  - intros Hrecent.
    unfold Detector.analyze_volume_velocity.
    destruct (is_empty trades); [ reflexivity | ].
    destruct (sorted trade_timestamp trades) as [|first [|second rest]] eqn:Es;
      try reflexivity.
    match goal with
    | |- context [forallb ?f ?l] => destruct (forallb f l) eqn:E
    end; [ | reflexivity ].
    rewrite forallb_forall in E.
    assert (Ht : trade_size t <> None); [ | contradiction ].
    specialize (E t).
    destruct (trade_size t); [ discriminate | ].
    exfalso.
    assert (Hfalse : false = true); [ apply E | discriminate Hfalse ].
    apply filter_In. split; [ exact Hsorted | ].
    apply Qlt_bool_true.
    destruct (sorted_last_max trade_timestamp trades _ _ Es) as [Hlast _].
    exact (Hrecent _ Hlast).
Qed.

Lemma unparseable_size_zeroes_scores_witness :
  let trades := sample_trades ++ [bad_size_trade] in
  Detector.analyze_price_movement sqrt_floor trades = 0
  /\ Detector.analyze_volume_velocity trades = (0, []).
Proof.
  intros trades.
  assert (Hin : In bad_size_trade trades)
    by (apply in_or_app; right; now left).
  destruct (unparseable_size_zeroes_scores sqrt_floor trades bad_size_trade
              Hin eq_refl) as [Hm Hv].
  split; [ exact Hm | ].
  apply Hv.
  intros t' Ht'. vm_compute in Ht'.
  repeat (destruct Ht' as [<- | Ht']; [ reflexivity | ]).
  contradiction.
Defined.

(** ** Outcome shares *)

Lemma outcome_volumes_nonneg (trades : list trade) :
  nonneg_sizes trades ->
  Forall (fun x => 0 <= x) (values (outcome_volumes trades)).
Proof.
  unfold outcome_volumes.
  assert (G : forall d,
             nonneg_sizes trades ->
             Forall (fun x => 0 <= x) (values d) ->
             Forall (fun x => 0 <= x)
               (values (fold_left
                          (fun d t =>
                             match trade_size t with
                             | Some sz => dict_add (trade_outcome t) sz d
                             | None => d
                             end) trades d))).
  { induction trades as [|t trades IH]; intros d Hsz Hd; simpl.
    - exact Hd.
    - apply IH.
      + intros t' q Hin. apply Hsz. now right.
      + destruct (trade_size t) as [q|] eqn:E; [ | exact Hd ].
        apply dict_add_nonneg; [ | exact Hd ].
        apply (Hsz t q); [ now left | exact E ]. }
  intros Hsz. apply G; [ exact Hsz | constructor ].
Qed.

Lemma py_sum_ge_member (xs : list Q) (x : Q) :
  Forall (fun y => 0 <= y) xs -> In x xs -> x <= py_sum xs.
Proof.
  induction 1 as [|y ys Hy Hys IH]; intros Hin.
  - destruct Hin.
  - rewrite py_sum_cons.
    pose proof (py_sum_nonneg ys Hys).
    destruct Hin as [<- | Hin]; [ lra | specialize (IH Hin); lra ].
Qed.

Lemma dict_get_In_values {A : Type} (k : string) (d : list (string * A)) (v : A) :
  dict_get k d = Some v -> In v (values d).
Proof.
  induction d as [|[k' v'] d IH]; simpl; [ discriminate | ].
  destruct (String.eqb k k'); [ intros [= <-]; now left | right; now apply IH ].
Qed.

(** X11: [get_outcome_skew_for_outcome] returns one half when the volume
    sums to 0, 0 for an outcome that no grouped trade names, and, with
    non-negative sizes, always a share between 0 and 1. *)
Theorem outcome_share_bounds (trades : list trade) (target : string) :
  let volumes := outcome_volumes trades in
  let total := py_sum (values volumes) in
  (total == 0 ->
   Backtester.get_outcome_skew_for_outcome trades target = 1 # 2)
  /\ (~ total == 0 -> dict_get target volumes = None ->
      Backtester.get_outcome_skew_for_outcome trades target == 0)
  /\ (nonneg_sizes trades ->
      0 <= Backtester.get_outcome_skew_for_outcome trades target <= 1).
Proof.
  intros volumes total.
  unfold Backtester.get_outcome_skew_for_outcome.
  fold volumes. fold total.
  split; [ | split ].
  - intros Hz. apply Qeq_bool_iff in Hz. rewrite Hz. reflexivity.
  - intros Hnz Hget. apply Qeq_bool_false in Hnz. rewrite Hnz.
    unfold dict_get_default. rewrite Hget.
    unfold Qdiv. ring.
  - intros Hsz.
    destruct (Qeq_bool total 0) eqn:E; [ lra | ].
    apply Qeq_bool_false in E.
    pose proof (outcome_volumes_nonneg trades Hsz) as Hvals.
    fold volumes in Hvals.
    pose proof (py_sum_nonneg _ Hvals) as Htot. fold total in Htot.
    assert (Hpos : 0 < total) by lra.
    unfold dict_get_default.
    destruct (dict_get target volumes) as [v|] eqn:Hget.
    + apply dict_get_In_values in Hget.
      pose proof (py_sum_ge_member _ _ Hvals Hget) as Hle. fold total in Hle.
      rewrite Forall_forall in Hvals. specialize (Hvals v Hget).
      split; [ now apply Qdiv_nonneg | ].
      apply Qle_shift_div_r; lra.
    + split; [ apply Qdiv_nonneg; lra | ].
      apply Qle_shift_div_r; lra.
Qed.

Lemma outcome_share_bounds_witness :
  Backtester.get_outcome_skew_for_outcome idle_trades "YES" = 1 # 2
  /\ Backtester.get_outcome_skew_for_outcome two_sided_trades "MAYBE" == 0
  /\ 0 <= Backtester.get_outcome_skew_for_outcome two_sided_trades "YES" <= 1.
Proof.
  split; [ | split ].
  - apply (proj1 (outcome_share_bounds idle_trades "YES")). reflexivity.
  - apply (proj1 (proj2 (outcome_share_bounds two_sided_trades "MAYBE")));
      [ intros H; vm_compute in H; discriminate H | reflexivity ].
  - apply (proj2 (proj2 (outcome_share_bounds two_sided_trades "YES"))).
    intros t q Hin Hq. vm_compute in Hin.
    destruct Hin as [<- | [<- | []]]; injection Hq as <-; discriminate.
Defined.

(** ** The fields of a backtest result *)

(** The run behind a returned [BacktestResult], field by field. *)
Lemma backtest_market_fields
    (fetch_trades : string -> list trade)
    (fetch_history : string -> Backtester.market_history)
    (now : Q) (m : Backtester.market) (r : Backtester.BacktestResult) :
  Backtester.backtest_market fetch_trades fetch_history now m = Ok (Some r) ->
  exists (mid : string) (ts p pre post c : Q)
         (sk : Q * option Backtester.skew_details),
    let before := Backtester.get_trades_before_timestamp (fetch_trades mid) ts in
    Backtester.id m = Some mid
    /\ mid <> ""%string
    /\ Backtester.find_signal_point (fetch_trades mid) = Ok (Some (Some ts, p))
    /\ Backtester.analyze_position_concentration before = Ok c
    /\ Backtester.analyze_outcome_skew before = Ok sk
    /\ Backtester.get_market_price_at_timestamp before ts = Some pre
    /\ Backtester.get_market_price_at_timestamp (fetch_trades mid) (ts + 3600)
       = Some post
    /\ Backtester.market_id r = mid
    /\ Backtester.signal_timestamp r = ts
    /\ Backtester.trades_analyzed r = List.length before
    /\ map fst (Backtester.indicator_scores r)
       = ["Concentration"; "Velocity"; "Skew"; "Whale"]%string
    /\ Backtester.outcome_prediction r
       = match snd sk with
         | Some d =>
             match Backtester.outcome_distribution d with
             | item :: items => fst (py_max_by snd item items)
             | [] => "unknown"%string
             end
         | None => "unknown"%string
         end
    /\ Backtester.market_resolved r
       = Backtester.is_some (Backtester.resolutionSource (fetch_history mid))
    /\ Backtester.time_to_resolution_hours r
       = if Backtester.is_some (Backtester.resolutionSource (fetch_history mid))
            && Backtester.truthy (Backtester.resolvedBy (fetch_history mid))
         then Some ((match Backtester.resolvedTime (fetch_history mid) with
                     | Some rt => rt
                     | None => ts + 86400
                     end - ts) / 3600)
         else None.
Proof.
  unfold Backtester.backtest_market.
  destruct (Backtester.id m) as [mid|]; [ | simpl; discriminate ].
  destruct (String.eqb mid "") eqn:Emid; [ discriminate | ].
  destruct (is_empty (fetch_trades mid) || (List.length (fetch_trades mid) <? 5)%nat);
    [ discriminate | ].
  intros H.
  apply bind_Ok in H as (signal & Hsig & H).
  destruct signal as [[[ts|] p]|]; try discriminate H.
  apply bind_Ok in H as (c & Hc & H).
  apply bind_Ok in H as (sk & Hsk & H).
  destruct (Backtester.get_market_price_at_timestamp
              (Backtester.get_trades_before_timestamp (fetch_trades mid) ts) ts)
    as [pre|] eqn:Epre; [ | discriminate H ].
  destruct (Backtester.get_market_price_at_timestamp (fetch_trades mid) (ts + 3600))
    as [post|] eqn:Epost; [ | discriminate H ].
  injection H as <-.
  exists mid, ts, p, pre, post, c, sk.
  cbn zeta.
  cbn [Backtester.market_id Backtester.signal_timestamp
       Backtester.trades_analyzed Backtester.indicator_scores
       Backtester.outcome_prediction Backtester.market_resolved
       Backtester.time_to_resolution_hours map fst].
  split; [ reflexivity | ].
  split; [ intros ->; discriminate Emid | ].
  repeat (split; [ assumption || reflexivity | ]).
  reflexivity.
Qed.

Lemma filter_length_lt {A : Type} (p : A -> bool) (l : list A) (x : A) :
  In x l -> p x = false -> (List.length (filter p l) < List.length l)%nat.
Proof.
  induction l as [|y l IH]; intros Hin Hp; [ destruct Hin | ].
  simpl.
  pose proof (filter_length_le p l) as Hle.
  destruct Hin as [-> | Hin].
  - rewrite Hp. lia.
  - specialize (IH Hin Hp). destruct (p y); simpl; lia.
Qed.

(** X12: every [BacktestResult] names a market with a non-empty id,
    carries the four indicator scores, and analyses at least one trade and
    never all of them (the trade that carries the signal is left out);
    [time_to_resolution_hours] is absent for an unresolved market, and is
    exactly 24 hours when the resolution metadata has no [resolvedTime]. *)
Theorem backtest_result_invariants
    (fetch_trades : string -> list trade)
    (fetch_history : string -> Backtester.market_history)
    (now : Q) (m : Backtester.market) (r : Backtester.BacktestResult) :
  Backtester.backtest_market fetch_trades fetch_history now m = Ok (Some r) ->
  Backtester.id m = Some (Backtester.market_id r)
  /\ Backtester.market_id r <> ""%string
  /\ (1 <= Backtester.trades_analyzed r
       < List.length (fetch_trades (Backtester.market_id r)))%nat
  /\ standard_scores r
  /\ (Backtester.market_resolved r = false ->
      Backtester.time_to_resolution_hours r = None)
  /\ (Backtester.resolvedTime (fetch_history (Backtester.market_id r)) = None ->
      forall h, Backtester.time_to_resolution_hours r = Some h -> h == 24).
Proof.
  intros H.
  apply backtest_market_fields in H
    as (mid & ts & p & pre & post & c & sk & Hid & Hne & Hsig & _ & _ & Hpre
        & _ & Hmid & _ & Hn & Hkeys & _ & Hres & Htime).
  cbn zeta in Hpre, Hn.
  rewrite Hmid, Hn, Hres, Htime.
  split; [ exact Hid | ].
  split; [ exact Hne | ].
  split; [ | split; [ exact Hkeys | split ] ].
  - split.
    + destruct (Backtester.get_trades_before_timestamp (fetch_trades mid) ts);
        [ discriminate Hpre | simpl; lia ].
    + apply find_signal_point_found in Hsig as (i & t & _ & Hnth & -> & _).
      apply (filter_length_lt _ _ t).
      * apply (sorted_In trade_timestamp). eapply nth_error_In. exact Hnth.
      * unfold Qlt_bool. rewrite negb_false_iff. apply Qle_bool_iff, Qle_refl.
  - intros ->. reflexivity.
  - intros Hrt h.
    rewrite Hrt.
    destruct (_ && _); [ | discriminate ].
    intros [= <-]. rewrite Qdiv_const. ring.
Qed.

Lemma backtest_result_invariants_witness :
  exists r,
    Backtester.backtest_market (fun _ => sample_trades)
      (fun _ => Backtester.mkHistory (Some "oracle"%string)
                                     (Some "YES"%string) None)
      0 sample_market = Ok (Some r)
    /\ (1 <= Backtester.trades_analyzed r < 12)%nat
    /\ standard_scores r
    /\ exists h, Backtester.time_to_resolution_hours r = Some h /\ h == 24.
Proof.
  eexists.
  split; [ vm_compute; reflexivity | ].
  match goal with
  | |- (_ <= Backtester.trades_analyzed ?r < _)%nat /\ _ =>
      destruct (backtest_result_invariants (fun _ => sample_trades)
                  (fun _ => Backtester.mkHistory (Some "oracle"%string)
                                                 (Some "YES"%string) None)
                  0 sample_market r)
        as (_ & _ & Hn & Hkeys & _ & Hday)
  end.
  - vm_compute. reflexivity.
  - split; [ exact Hn | ].
    split; [ exact Hkeys | ].
    eexists. split; [ reflexivity | ].
    apply Hday; reflexivity.
Defined.

(** ** The predicted outcome *)

Lemma round_half_even_mono (a b : Q) :
  a <= b -> (round_half_even a <= round_half_even b)%Z.
Proof.
  intros Hab.
  pose proof (Qfloor_resp_le a b Hab) as Hf.
  pose proof (Qfloor_le a) as Ha1. pose proof (Qlt_floor a) as Ha2.
  pose proof (Qfloor_le b) as Hb1. pose proof (Qlt_floor b) as Hb2.
  unfold round_half_even.
  destruct (Z.eq_dec (Qfloor a) (Qfloor b)) as [E | Hne].
  - rewrite <- E in *.
    set (f := Qfloor a) in *.
    destruct (Qcompare_spec (a - inject_Z f) (1 # 2));
      destruct (Qcompare_spec (b - inject_Z f) (1 # 2));
      try destruct (Z.even f); try lia; exfalso; lra.
  - assert (Hlt : (Qfloor a + 1 <= Qfloor b)%Z) by lia.
    destruct (Qcompare (a - inject_Z (Qfloor a)) (1 # 2));
      destruct (Qcompare (b - inject_Z (Qfloor b)) (1 # 2));
      try destruct (Z.even (Qfloor a)); try destruct (Z.even (Qfloor b)); lia.
Qed.

Lemma py_round_mono (a b : Q) (ndigits : nat) :
  a <= b -> py_round a ndigits <= py_round b ndigits.
Proof.
  intros Hab. unfold py_round.
  set (scale := inject_Z (10 ^ Z.of_nat ndigits)).
  assert (Hscale : 0 < scale).
  { unfold scale. rewrite <- (Zlt_Qlt 0). apply Z.pow_pos_nonneg; lia. }
  apply Qdiv_le_mono; [ exact Hscale | ].
  rewrite <- Zle_Qle. apply round_half_even_mono. nra.
Qed.

Lemma py_max_by_head {A : Type} (key : A -> Q) (x : A) (xs : list A) :
  (forall y, In y xs -> key y <= key x) -> py_max_by key x xs = x.
Proof.
  unfold py_max_by.
  induction xs as [|y xs IH]; intros Hle; simpl.
  - reflexivity.
  - assert (E : Qgt_bool (key y) (key x) = false)
      by (apply Qgt_bool_false, Hle; now left).
    rewrite E. apply IH. intros z Hz. apply Hle. now right.
Qed.

Lemma distribution_eq (total : Q) (items : list (string * Q)) :
  ~ total == 0 ->
  mapM (fun item : string * Q =>
          share <- py_div (snd item) total ;;
          Ok (fst item, py_round share 3))
       items
  = Ok (map (fun item => (fst item, py_round (snd item / total) 3)) items).
Proof.
  intros Hnz. apply Qeq_bool_false in Hnz.
  induction items as [|item items IH]; simpl.
  - reflexivity.
  - unfold py_div at 1. rewrite Hnz. cbn [bind]. rewrite IH. reflexivity.
Qed.

(** With a positive volume, the prediction read off the details of
    [analyze_outcome_skew] is the label of the largest volume. *)
Lemma skew_details_prediction (trades : list trade)
    (sk : Q * option Backtester.skew_details) (M : Q) :
  0 < py_sum (values (outcome_volumes trades)) ->
  max_volume_of (outcome_volumes trades) M ->
  Backtester.analyze_outcome_skew trades = Ok sk ->
  exists d item items v,
    snd sk = Some d
    /\ Backtester.outcome_distribution d = item :: items
    /\ In (fst (py_max_by snd item items), v) (outcome_volumes trades)
    /\ v == M.
Proof.
  intros Htotal [(o & v & Hin & Hv) Hmax].
  unfold Backtester.analyze_outcome_skew.
  destruct trades as [|t trades]; [ destruct Hin | ].
  cbn [is_empty].
  set (volumes := outcome_volumes (t :: trades)) in *.
  set (total := py_sum (values volumes)) in *.
  destruct (values volumes) as [|vol0 vols] eqn:Evals.
  { destruct volumes; [ destruct Hin | discriminate Evals ]. }
  rewrite distribution_eq by lra. cbn [bind].
  intros [= <-]. cbn [snd].
  pose proof (sorted_reverse_desc snd volumes) as Hdesc.
  destruct (sorted_reverse snd volumes) as [|[o0 v0] rest] eqn:Es.
  { apply sorted_nil in Es. rewrite Es in Hin. destruct Hin. }
  assert (Hin0 : In (o0, v0) volumes).
  { apply (sorted_reverse_In snd). rewrite Es. now left. }
  apply StronglySorted_inv in Hdesc as [_ Hrest].
  rewrite Forall_forall in Hrest.
  eexists. eexists. eexists. exists v0.
  split; [ reflexivity | ].
  cbn [Backtester.outcome_distribution map].
  split; [ reflexivity | ].
  rewrite py_max_by_head.
  - split; [ exact Hin0 | ].
    apply Qle_antisym; [ exact (Hmax o0 v0 Hin0) | ].
    rewrite <- Hv.
    assert (Hs : In (o, v) ((o0, v0) :: rest))
      by (rewrite <- Es; apply sorted_reverse_In; exact Hin).
    destruct Hs as [E | Hr].
    + injection E as _ <-. apply Qle_refl.
    + exact (Hrest (o, v) Hr).
  - intros y Hy. apply in_map_iff in Hy as (item & <- & Hitem).
    cbn [snd fst].
    apply py_round_mono, Qdiv_le_mono; [ exact Htotal | ].
    exact (Hrest item Hitem).
Qed.

(** X13: the outcome a [BacktestResult] predicts is an outcome with the
    largest volume among the trades before the signal, whenever that
    volume is positive. *)
Theorem predicted_outcome_has_largest_volume
    (fetch_trades : string -> list trade)
    (fetch_history : string -> Backtester.market_history)
    (now : Q) (m : Backtester.market) (r : Backtester.BacktestResult)
    (M : Q) :
  Backtester.backtest_market fetch_trades fetch_history now m = Ok (Some r) ->
  let before :=
    Backtester.get_trades_before_timestamp
      (fetch_trades (Backtester.market_id r))
      (Backtester.signal_timestamp r) in
  0 < py_sum (values (outcome_volumes before)) ->
  max_volume_of (outcome_volumes before) M ->
  exists v,
    In (Backtester.outcome_prediction r, v) (outcome_volumes before)
    /\ v == M.
Proof.
  intros H.
  apply backtest_market_fields in H
    as (mid & ts & p & pre & post & c & sk & _ & _ & _ & _ & Hsk & _ & _
        & Hmid & Hts & _ & _ & Hpred & _).
  cbn zeta in Hsk.
  rewrite Hmid, Hts, Hpred.
  intros before Htotal HM.
  destruct (skew_details_prediction _ sk M Htotal HM Hsk)
    as (d & item & items & v & -> & -> & Hin & Hv).
  exists v. split; assumption.
Qed.

Lemma predicted_outcome_has_largest_volume_witness :
  exists r v,
    Backtester.backtest_market (fun _ => sample_trades)
      (fun _ => resolved_history) 0 sample_market = Ok (Some r)
    /\ In (Backtester.outcome_prediction r, v)
          (outcome_volumes (firstn 10 sample_trades))
    /\ v == 10000.
Proof.
  eexists.
  match goal with
  | |- exists v, ?f = Ok (Some ?r) /\ _ =>
      assert (Hr : f = Ok (Some r)) by (vm_compute; reflexivity)
  end.
  destruct (predicted_outcome_has_largest_volume (fun _ => sample_trades)
              (fun _ => resolved_history) 0 sample_market _ 10000 Hr)
    as (v & Hin & Hv).
  - reflexivity.
  - split.
    + exists "YES"%string. eexists. split; [ now left | reflexivity ].
    + intros o v Hin. vm_compute in Hin.
      destruct Hin as [[= <- <-] | []]. discriminate.
  - exists v. split; [ exact Hr | ]. split; [ exact Hin | exact Hv ].
Defined.

(** ** Batch runs and their statistics *)

Lemma collect_results_spec
    (fetch_trades : string -> list trade)
    (fetch_history : string -> Backtester.market_history)
    (now : Q) (markets : list Backtester.market) :
  forall acc results,
    Backtester.collect_results fetch_trades fetch_history now markets acc
    = Ok results ->
    exists new,
      results = acc ++ new
      /\ (List.length new <= List.length markets)%nat
      /\ Forall (fun r =>
                   exists m,
                     In m markets
                     /\ Backtester.backtest_market fetch_trades fetch_history
                          now m = Ok (Some r))
                new.
Proof.
  induction markets as [|m markets IH]; intros acc results H.
  - simpl in H. injection H as <-.
    exists []. rewrite app_nil_r. repeat split; [ simpl; lia | constructor ].
  - simpl in H.
    apply bind_Ok in H as (r & Hr & H).
    destruct r as [x|].
    + apply IH in H as (new & -> & Hlen & Hall).
      exists (x :: new). rewrite <- app_assoc.
      split; [ reflexivity | ].
      split; [ simpl; lia | ].
      constructor; [ exists m; split; [ now left | exact Hr ] | ].
      eapply Forall_impl; [ | exact Hall ].
      intros r (m' & Hin & Hm'). exists m'. split; [ now right | exact Hm' ].
    + apply IH in H as (new & -> & Hlen & Hall).
      exists new.
      split; [ reflexivity | ].
      split; [ simpl; lia | ].
      eapply Forall_impl; [ | exact Hall ].
      intros r (m' & Hin & Hm'). exists m'. split; [ now right | exact Hm' ].
Qed.

Lemma filter_length_impl {A : Type} (p q : A -> bool) (l : list A) :
  (forall x, In x l -> p x = true -> q x = true) ->
  (List.length (filter p l) <= List.length (filter q l))%nat.
Proof.
  induction l as [|x l IH]; intros H; simpl; [ lia | ].
  assert (IH' : (List.length (filter p l) <= List.length (filter q l))%nat)
    by (apply IH; intros y Hy; apply H; now right).
  destruct (p x) eqn:Px.
  - rewrite (H x (or_introl eq_refl) Px). simpl. lia.
  - destruct (q x); simpl; lia.
Qed.

(** X14: [run_backtest] returns at most one result per market, each the
    result of [backtest_market] on a market of the batch; in the figures
    printed for it the correct predictions never outnumber the resolved
    markets (an unresolved market always counts as a miss), and the
    accuracy lies between 0 and 100. *)
Theorem run_backtest_results
    (fetch_markets : nat -> list Backtester.market)
    (fetch_trades : string -> list trade)
    (fetch_history : string -> Backtester.market_history)
    (now : Q) (num_markets : nat) (results : list Backtester.BacktestResult) :
  Backtester.run_backtest fetch_markets fetch_trades fetch_history now
    num_markets = Ok results ->
  (List.length results <= List.length (fetch_markets num_markets))%nat
  /\ Forall (fun r =>
               exists m,
                 In m (fetch_markets num_markets)
                 /\ Backtester.backtest_market fetch_trades fetch_history
                      now m = Ok (Some r))
            results
  /\ forall ms,
      Backtester.print_backtest_results results = Some ms ->
      (Backtester.correct_count ms <= Backtester.resolved_count ms
       <= List.length results)%nat
      /\ 0 <= Backtester.accuracy ms <= 100.
Proof.
  intros H.
  assert (Hspec :
    (List.length results <= List.length (fetch_markets num_markets))%nat
    /\ Forall (fun r =>
                 exists m,
                   In m (fetch_markets num_markets)
                   /\ Backtester.backtest_market fetch_trades fetch_history
                        now m = Ok (Some r))
              results).
  { unfold Backtester.run_backtest in H.
    destruct (is_empty (fetch_markets num_markets)).
    - injection H as <-. split; [ simpl; lia | constructor ].
    - apply collect_results_spec in H as (new & -> & Hlen & Hall).
      split; assumption. }
  destruct Hspec as [Hlen Hall].
  split; [ exact Hlen | split; [ exact Hall | ] ].
  intros ms Hms.
  unfold Backtester.print_backtest_results in Hms.
  destruct (is_empty results) eqn:Eempty; [ discriminate Hms | ].
  injection Hms as <-.
  cbn [Backtester.correct_count Backtester.resolved_count Backtester.accuracy].
  assert (Hcr : (List.length (filter Backtester.predicted_correctly results)
                 <= List.length (filter Backtester.market_resolved results))%nat).
  { apply filter_length_impl.
    intros r Hr Hpc.
    rewrite Forall_forall in Hall.
    destruct (Hall r Hr) as (m & _ & Hm).
    apply backtest_market_inv in Hm
      as (mid & ts & p & pre & post & _ & _ & _ & _ & _ & _ & _ & _ & Hflag).
    rewrite Hflag in Hpc. now apply andb_true_iff in Hpc as [Hres _]. }
  pose proof (filter_length_le Backtester.market_resolved results) as Hrl.
  pose proof (filter_length_le Backtester.predicted_correctly results) as Hcl.
  split; [ lia | ].
  assert (Hlenpos : 0 < len results)
    by (destruct results; [ discriminate Eempty | unfold len, Qlt; simpl; lia ]).
  assert (Hcorrect :
    0 <= inject_Z (Z.of_nat (List.length
                               (filter Backtester.predicted_correctly results)))
    <= len results).
  { unfold len. rewrite <- !Zle_Qle, <- (Zle_Qle 0). lia. }
  set (correct := inject_Z _) in *.
  split.
  - assert (0 <= correct / len results) by (apply Qdiv_nonneg; lra). lra.
  - assert (correct / len results <= 1)
      by (apply Qle_shift_div_r; lra).
    lra.
Qed.

Lemma run_backtest_results_witness :
  exists results ms,
    Backtester.run_backtest
      (fun _ => [sample_market; Backtester.mkMarket None None None])
      (fun _ => sample_trades) (fun _ => unresolved_history) 0 2 = Ok results
    /\ (List.length results <= 2)%nat
    /\ Backtester.print_backtest_results results = Some ms
    /\ (Backtester.correct_count ms <= Backtester.resolved_count ms)%nat
    /\ 0 <= Backtester.accuracy ms <= 100.
Proof.
  eexists. eexists.
  match goal with
  | |- ?f = Ok ?results /\ _ =>
      assert (Hr : f = Ok results) by (vm_compute; reflexivity)
  end.
  destruct (run_backtest_results _ _ _ _ _ _ Hr) as (Hlen & _ & Hms).
  split; [ exact Hr | ].
  split; [ exact Hlen | ].
  split; [ vm_compute; reflexivity | ].
  match goal with
  | |- (Backtester.correct_count ?ms <= _)%nat /\ _ =>
      destruct (Hms ms) as [[Hc _] Hacc]; [ vm_compute; reflexivity | ]
  end.
  split; [ exact Hc | exact Hacc ].
Defined.

(** ** Indicator effectiveness *)

Lemma mapM_ok_length {A B : Type} (f : A -> result B) (l : list A) :
  (forall x, In x l -> exists y, f x = Ok y) ->
  exists ys, mapM f l = Ok ys /\ List.length ys = List.length l.
Proof.
  induction l as [|x l IH]; intros H; simpl.
  - exists []. split; reflexivity.
  - destruct (H x (or_introl eq_refl)) as [y Hy].
    destruct IH as (ys & Hys & Hlen); [ intros z Hz; apply H; now right | ].
    rewrite Hy, Hys. cbn [bind].
    exists (y :: ys). split; [ reflexivity | simpl; now rewrite Hlen ].
Qed.

Lemma standard_scores_index (r : Backtester.BacktestResult) (k : string) :
  standard_scores r ->
  In k ["Concentration"; "Velocity"; "Skew"; "Whale"]%string ->
  exists v, dict_index (Backtester.indicator_scores r) k = Ok v.
Proof.
  unfold standard_scores. intros Hkeys Hk.
  destruct (Backtester.indicator_scores r)
    as [|[k1 v1] [|[k2 v2] [|[k3 v3] [|[k4 v4] [|]]]]];
    try discriminate Hkeys.
  simpl in Hkeys. injection Hkeys as -> -> -> ->.
  simpl in Hk.
  destruct Hk as [<- | [<- | [<- | [<- | []]]]]; eexists; reflexivity.
Qed.

Lemma filter_partition_length {A : Type} (p : A -> bool) (l : list A) :
  (List.length (filter p l) + List.length (filter (fun x => negb (p x)) l)
   = List.length l)%nat.
Proof.
  induction l as [|x l IH]; simpl; [ reflexivity | ].
  destruct (p x); simpl; lia.
Qed.

(** One indicator over results that all carry the four standard scores. *)
Lemma indicator_effectiveness_ok
    (results : list Backtester.BacktestResult) (k : string) :
  Forall standard_scores results ->
  In k ["Concentration"; "Velocity"; "Skew"; "Whale"]%string ->
  exists e,
    Backtester.indicator_effectiveness results k = Ok e
    /\ Backtester.frequency_in_correct e
       = List.length (filter Backtester.predicted_correctly results)
    /\ Backtester.frequency_in_incorrect e
       = List.length
           (filter (fun r => negb (Backtester.predicted_correctly r)) results)
    /\ (Backtester.frequency_in_correct e = 0%nat
        \/ Backtester.frequency_in_incorrect e = 0%nat ->
        Backtester.effectiveness_delta e == 0).
Proof.
  intros Hall Hk.
  rewrite Forall_forall in Hall.
  set (f := fun r => dict_index (Backtester.indicator_scores r) k).
  assert (Hf : forall l, (forall r, In r l -> In r results) ->
                         exists ys, mapM f l = Ok ys
                                    /\ List.length ys = List.length l).
  { intros l Hincl. apply mapM_ok_length.
    intros r Hr. apply standard_scores_index; [ apply Hall, Hincl, Hr | exact Hk ]. }
  destruct (Hf results (fun r H => H)) as (all & Hall_ok & _).
  destruct (Hf (filter Backtester.predicted_correctly results))
    as (cs & Hcs & Hclen);
    [ intros r Hr; now apply filter_In in Hr as [Hr _] | ].
  destruct (Hf (filter (fun r => negb (Backtester.predicted_correctly r)) results))
    as (ics & Hics & Hilen);
    [ intros r Hr; now apply filter_In in Hr as [Hr _] | ].
  unfold Backtester.indicator_effectiveness. fold f.
  rewrite Hall_ok, Hcs, Hics. cbn [bind].
  eexists. split; [ reflexivity | ].
  cbn [Backtester.frequency_in_correct Backtester.frequency_in_incorrect
       Backtester.effectiveness_delta].
  split; [ exact Hclen | split; [ exact Hilen | ] ].
  intros [Hz | Hz]; apply List.length_zero_iff_nil in Hz; subst.
  - reflexivity.
  - cbn [is_empty negb]. rewrite andb_false_r. reflexivity.
Qed.

(** X15: on results that carry the four scores of [backtest_market],
    [analyze_indicator_effectiveness] raises no [KeyError] and returns one
    entry per indicator, in the order Concentration, Velocity, Skew, Whale;
    in each entry the two frequencies split the results (they add up to
    their number), and the delta is 0 as soon as no result, or every
    result, is a correct prediction. *)
Theorem effectiveness_of_backtest_results
    (results : list Backtester.BacktestResult) :
  results <> [] ->
  Forall standard_scores results ->
  exists d,
    Backtester.analyze_indicator_effectiveness results = Ok d
    /\ map fst d = ["Concentration"; "Velocity"; "Skew"; "Whale"]%string
    /\ forall k e,
        In (k, e) d ->
        (Backtester.frequency_in_correct e
         + Backtester.frequency_in_incorrect e = List.length results)%nat
        /\ Backtester.frequency_in_correct e
           = List.length (filter Backtester.predicted_correctly results)
        /\ (Backtester.frequency_in_correct e = 0%nat
            \/ Backtester.frequency_in_incorrect e = 0%nat ->
            Backtester.effectiveness_delta e == 0).
Proof.
  intros Hne Hall.
  unfold Backtester.analyze_indicator_effectiveness.
  destruct results as [|r0 results']; [ contradiction | ].
  set (results := r0 :: results') in *.
  assert (Hnames : map fst (Backtester.indicator_scores r0)
                   = ["Concentration"; "Velocity"; "Skew"; "Whale"]%string)
    by (inversion Hall; assumption).
  rewrite Hnames.
  destruct (indicator_effectiveness_ok results "Concentration" Hall)
    as (e1 & H1 & P1); [ simpl; tauto | ].
  destruct (indicator_effectiveness_ok results "Velocity" Hall)
    as (e2 & H2 & P2); [ simpl; tauto | ].
  destruct (indicator_effectiveness_ok results "Skew" Hall)
    as (e3 & H3 & P3); [ simpl; tauto | ].
  destruct (indicator_effectiveness_ok results "Whale" Hall)
    as (e4 & H4 & P4); [ simpl; tauto | ].
  cbn [Backtester.effectiveness_loop].
  rewrite H1. cbn [bind]. rewrite H2. cbn [bind].
  rewrite H3. cbn [bind]. rewrite H4. cbn [bind].
  eexists. split; [ reflexivity | ].
  split; [ reflexivity | ].
  pose proof (filter_partition_length Backtester.predicted_correctly results)
    as Hsplit.
  intros k e Hin. simpl in Hin.
  destruct Hin as [[= <- <-] | [[= <- <-] | [[= <- <-] | [[= <- <-] | []]]]].
  - destruct P1 as (Pc & Pi & Pd).
    split; [ rewrite Pc, Pi; exact Hsplit | split; [ exact Pc | exact Pd ] ].
  - destruct P2 as (Pc & Pi & Pd).
    split; [ rewrite Pc, Pi; exact Hsplit | split; [ exact Pc | exact Pd ] ].
  - destruct P3 as (Pc & Pi & Pd).
    split; [ rewrite Pc, Pi; exact Hsplit | split; [ exact Pc | exact Pd ] ].
  - destruct P4 as (Pc & Pi & Pd).
    split; [ rewrite Pc, Pi; exact Hsplit | split; [ exact Pc | exact Pd ] ].
Qed.

Lemma effectiveness_of_backtest_results_witness :
  exists r d,
    Backtester.backtest_market (fun _ => sample_trades)
      (fun _ => resolved_history) 0 sample_market = Ok (Some r)
    /\ Backtester.analyze_indicator_effectiveness [r] = Ok d
    /\ map fst d = ["Concentration"; "Velocity"; "Skew"; "Whale"]%string.
Proof.
  eexists.
  match goal with
  | |- exists d, ?f = Ok (Some ?r) /\ _ =>
      assert (Hr : f = Ok (Some r)) by (vm_compute; reflexivity);
      destruct (effectiveness_of_backtest_results [r]) as (d & Hd & Hkeys & _)
  end.
  - discriminate.
  - constructor; [ reflexivity | constructor ].
  - exists d. split; [ exact Hr | split; [ exact Hd | exact Hkeys ] ].
Defined.

(** ** The market analyzer of the detector *)

Lemma detector_concentration_raise (trades : list trade) (e : exn) :
  Detector.analyze_position_concentration trades = Raise e ->
  e = ZeroDivisionError.
Proof.
  unfold Detector.analyze_position_concentration.
  destruct (is_empty trades); [ discriminate | ].
  destruct (is_empty (address_volumes trades)); [ discriminate | ].
  intros H.
  apply bind_Raise in H as [H | (ys & _ & H)];
    [ now apply shares_raise in H | discriminate H ].
Qed.

(** With non-negative sizes a concentration score that is returned lies in
    [0, 10]. *)
Lemma detector_concentration_ok_bounds (trades : list trade) (c : Q) :
  nonneg_sizes trades ->
  Detector.analyze_position_concentration trades = Ok c ->
  0 <= c <= 10.
Proof.
  intros Hsz Hc.
  pose proof (py_sum_nonneg _ (address_volumes_nonneg trades Hsz)) as Htot.
  destruct (Qlt_le_dec 0 (py_sum (values (address_volumes trades))))
    as [Hpos | Hle].
  - destruct (detector_concentration_bounds trades Hsz Hpos) as (c' & Hc' & Hb).
    rewrite Hc in Hc'. injection Hc' as <-. exact Hb.
  - assert (Hz : py_sum (values (address_volumes trades)) == 0) by lra.
    unfold Detector.analyze_position_concentration in Hc.
    destruct (is_empty trades); [ injection Hc as <-; lra | ].
    destruct (address_volumes trades) as [|[k v] volumes];
      [ injection Hc as <-; lra | ].
    cbn [is_empty values map snd] in Hc.
    rewrite (shares_zero_total _ v _ Hz) in Hc. discriminate Hc.
Qed.

Lemma strongly_sorted_firstn {A : Type} (R : A -> A -> Prop) (n : nat)
    (l : list A) :
  StronglySorted R l -> StronglySorted R (firstn n l).
Proof.
  intros H. revert n.
  induction H as [|x l _ IH Hx]; intros [|n]; simpl; try constructor.
  - apply IH.
  - rewrite Forall_forall in *. intros y Hy. apply Hx.
    rewrite <- (firstn_skipn n l). apply in_or_app. now left.
Qed.

(** X16: [analyze_market] never raises [KeyError]: the score dict it hands
    to the aggregator always holds the five keys.  An analysis it returns
    has a non-empty
    market id and a non-empty trade list, a probability of at most 1, the
    skew score as its sentiment score, a risk score that is the mean of
    concentration, velocity and skew, at most ten recent trades, newest
    first, and at most five whales; with non-negative sizes the
    probability is at least 0 and the risk score lies in [0, 10]. *)
Theorem analyze_market_result
    (py_sqrt : Q -> Q) (fetch_trades : string -> list trade)
    (market : Detector.market_json) :
  (forall e k,
      Detector.analyze_market py_sqrt fetch_trades market = Raise e ->
      e <> KeyError k)
  /\ (forall a,
        Detector.analyze_market py_sqrt fetch_trades market = Ok (Some a) ->
        let trades := fetch_trades (Detector.market_id a) in
        Detector.market_id a <> ""%string
        /\ trades <> []
        /\ Detector.insider_probability a <= 1
        /\ Detector.sentiment_score a = Detector.analyze_outcome_skew trades
        /\ (exists c,
              Detector.analyze_position_concentration trades = Ok c
              /\ Detector.risk_score a * 3
                 == c + fst (Detector.analyze_volume_velocity trades)
                    + Detector.analyze_outcome_skew trades)
        /\ (List.length (Detector.recent_trades a) <= 10)%nat
        /\ StronglySorted
             (fun x y => trade_timestamp y <= trade_timestamp x)
             (Detector.recent_trades a)
        /\ (forall t, In t (Detector.recent_trades a) -> In t trades)
        /\ (List.length (Detector.whale_addresses a) <= 5)%nat
        /\ ((forall x, 0 <= py_sqrt x) -> nonneg_sizes trades ->
            0 <= Detector.insider_probability a
            /\ 0 <= Detector.risk_score a <= 10)).
Proof.
  unfold Detector.analyze_market.
  destruct market as [s | m]; [ split; intros; discriminate | ].
  set (mid := Detector.get3 _ _ _ ""%string).
  destruct (String.eqb mid "") eqn:Emid; [ split; intros; discriminate | ].
  destruct (is_empty (fetch_trades mid)) eqn:Eempty;
    [ split; intros; discriminate | ].
  unfold Detector.calculate_insider_probability, dict_index.
  simpl dict_get.
  split.
  - intros e k H.
    apply bind_Raise in H as [H | (c & _ & H)]; [ | discriminate H ].
    apply detector_concentration_raise in H. subst e. discriminate.
  - intros a H.
    apply bind_Ok in H as (c & Hc & H).
    cbn [bind] in H. injection H as <-.
    cbn [Detector.market_id Detector.insider_probability
         Detector.sentiment_score Detector.risk_score Detector.recent_trades
         Detector.whale_addresses].
    cbn zeta.
    set (trades := fetch_trades mid) in *.
    split; [ intros Heq; rewrite Heq in Emid; discriminate Emid | ].
    split; [ intros Heq; rewrite Heq in Eempty; discriminate Eempty | ].
    split; [ apply Qmin_le_r | ].
    split; [ reflexivity | ].
    split; [ exists c; split; [ exact Hc | field ] | ].
    split;
      [ exact (firstn_le_length 10 (sorted_reverse trade_timestamp trades)) | ].
    split;
      [ exact (strongly_sorted_firstn _ 10 _
                 (sorted_reverse_desc trade_timestamp trades)) | ].
    split.
    { intros t Ht.
      change (In t (firstn 10 (sorted_reverse trade_timestamp trades))) in Ht.
      apply (sorted_reverse_In trade_timestamp).
      rewrite <- (firstn_skipn 10 (sorted_reverse trade_timestamp trades)).
      apply in_or_app. now left. }
    split.
    { unfold Detector.top_whales.
      destruct (is_empty trades); [ simpl; lia | ].
      destruct (is_empty _); [ simpl; lia | ].
      exact (firstn_le_length 5 _). }
    intros Hsqrt Hsz.
    pose proof (detector_concentration_ok_bounds trades c Hsz Hc) as Hcb.
    pose proof (detector_velocity_bounds trades) as Hv.
    pose proof (detector_skew_bounds trades) as Hs.
    pose proof (price_movement_bounds py_sqrt trades Hsqrt) as Hm.
    pose proof (detector_whale_bounds trades Hsz) as Hw.
    split.
    + apply Qmin_ge; [ rewrite Qdiv_const | ]; lra.
    + rewrite Qdiv_const. lra.
Qed.

Lemma analyze_market_result_witness :
  exists a,
    Detector.analyze_market sqrt_floor (fun _ => sample_trades)
      (Detector.MarketDict
         (Detector.mkMarket None None (Some "c1"%string) None None None))
    = Ok (Some a)
    /\ Detector.insider_probability a <= 1
    /\ 0 <= Detector.insider_probability a
    /\ 0 <= Detector.risk_score a <= 10.
Proof.
  eexists.
  match goal with
  | |- ?f = Ok (Some ?a) /\ _ =>
      assert (Ha : f = Ok (Some a)) by (vm_compute; reflexivity);
      destruct (proj2 (analyze_market_result sqrt_floor (fun _ => sample_trades)
                         (Detector.MarketDict
                            (Detector.mkMarket None None (Some "c1"%string)
                                               None None None)))
                  a Ha)
        as (_ & _ & Hle & _ & _ & _ & _ & _ & _ & Hnonneg)
  end.
  split; [ exact Ha | ].
  split; [ exact Hle | ].
  apply Hnonneg.
  - exact sqrt_floor_nonneg.
  - intros t q Hin Hq. vm_compute in Hin.
    repeat (destruct Hin as [<- | Hin]; [ injection Hq as <-; discriminate | ]).
    contradiction.
Defined.

Lemma collect_analyses_spec
    (py_sqrt : Q -> Q) (fetch_trades : string -> list trade)
    (markets : list Detector.market_json) :
  forall acc results,
    Detector.collect_analyses py_sqrt fetch_trades markets acc = Ok results ->
    exists new,
      results = acc ++ new
      /\ (List.length new <= List.length markets)%nat
      /\ Forall (fun a =>
                   exists m,
                     In m markets
                     /\ Detector.analyze_market py_sqrt fetch_trades m
                        = Ok (Some a))
                new.
Proof.
  induction markets as [|m markets IH]; intros acc results H.
  - simpl in H. injection H as <-.
    exists []. rewrite app_nil_r. repeat split; [ simpl; lia | constructor ].
  - simpl in H.
    apply bind_Ok in H as (r & Hr & H).
    destruct r as [x|].
    + apply IH in H as (new & -> & Hlen & Hall).
      exists (x :: new). rewrite <- app_assoc.
      split; [ reflexivity | ].
      split; [ simpl; lia | ].
      constructor; [ exists m; split; [ now left | exact Hr ] | ].
      eapply Forall_impl; [ | exact Hall ].
      intros r (m' & Hin & Hm'). exists m'. split; [ now right | exact Hm' ].
    + apply IH in H as (new & -> & Hlen & Hall).
      exists new.
      split; [ reflexivity | ].
      split; [ simpl; lia | ].
      eapply Forall_impl; [ | exact Hall ].
      intros r (m' & Hin & Hm'). exists m'. split; [ now right | exact Hm' ].
Qed.

(** X17: the list [run_detection] returns is ordered by insider
    probability, highest first, holds at most one analysis per market, and
    every analysis in it is the one [analyze_market] returned for a market
    of the batch. *)
Theorem run_detection_ranked
    (py_sqrt : Q -> Q) (fetch_trades : string -> list trade)
    (fetch_markets : nat -> list Detector.market_json)
    (num_markets : nat) (results : list Detector.TradeAnalysis) :
  Detector.run_detection py_sqrt fetch_trades fetch_markets num_markets
  = Ok results ->
  StronglySorted
    (fun a b => Detector.insider_probability b <= Detector.insider_probability a)
    results
  /\ (List.length results <= List.length (fetch_markets num_markets))%nat
  /\ Forall (fun a =>
               exists m,
                 In m (fetch_markets num_markets)
                 /\ Detector.analyze_market py_sqrt fetch_trades m
                    = Ok (Some a))
            results.
Proof.
  unfold Detector.run_detection.
  destruct (is_empty (fetch_markets num_markets)).
  - intros [= <-]. repeat split; [ constructor | simpl; lia | constructor ].
  - intros H. apply bind_Ok in H as (collected & Hc & [= <-]).
    apply collect_analyses_spec in Hc as (new & -> & Hlen & Hall).
    simpl app.
    split; [ apply sorted_reverse_desc | ].
    split; [ now rewrite sorted_reverse_length | ].
    rewrite Forall_forall in *. intros a Ha.
    apply Hall, (sorted_reverse_In Detector.insider_probability), Ha.
Qed.

Lemma run_detection_ranked_witness :
  exists results,
    Detector.run_detection sqrt_floor
      (fun mid => if String.eqb mid "c1" then sample_trades else two_sided_trades)
      (fun _ => [Detector.MarketString "oops";
                 Detector.MarketDict
                   (Detector.mkMarket (Some "c2"%string) None None None None None);
                 Detector.MarketDict
                   (Detector.mkMarket None None (Some "c1"%string) None None None)])
      3 = Ok results
    /\ List.length results = 2%nat
    /\ StronglySorted
         (fun a b => Detector.insider_probability b
                     <= Detector.insider_probability a)
         results.
Proof.
  eexists.
  match goal with
  | |- ?f = Ok ?results /\ _ =>
      assert (Hr : f = Ok results) by (vm_compute; reflexivity)
  end.
  split; [ exact Hr | ].
  split; [ reflexivity | ].
  exact (proj1 (run_detection_ranked _ _ _ _ _ Hr)).
Defined.

(** ** The Kalshi scanner *)

(** X18: [run_scan] reports exactly the analyses of the open markets of
    the response whose suspicious score reaches [min_score], ordered by
    score, highest first; a closed market is never reported. *)
Theorem run_scan_results (response : list Kalshi.market) (min_score : Q) :
  let results := Kalshi.run_scan response min_score in
  StronglySorted
    (fun a b => Kalshi.suspicious_score b <= Kalshi.suspicious_score a)
    results
  /\ (forall a,
        In a results <->
        exists m,
          In m response
          /\ (Kalshi.m_closed m = None \/ Kalshi.m_closed m = Some false)
          /\ a = Kalshi.analyze_market m
          /\ min_score <= Kalshi.suspicious_score a)
  /\ Forall (fun a => Kalshi.closed a = false) results.
Proof.
  intros results.
  assert (Hchar : forall a,
    In a results <->
    exists m,
      In m response
      /\ (Kalshi.m_closed m = None \/ Kalshi.m_closed m = Some false)
      /\ a = Kalshi.analyze_market m
      /\ min_score <= Kalshi.suspicious_score a).
  { intros a. unfold results, Kalshi.run_scan, Kalshi.fetch_active_markets.
    set (open := filter _ response).
    assert (Hopen : forall m,
      In m open <->
      In m response
      /\ (Kalshi.m_closed m = None \/ Kalshi.m_closed m = Some false)).
    { intros m. unfold open. rewrite filter_In.
      destruct (Kalshi.m_closed m) as [[|]|]; simpl;
        intuition (discriminate || auto). }
    split.
    - intros Ha.
      destruct (is_empty open); [ destruct Ha | ].
      apply (proj1 (sorted_reverse_In Kalshi.suspicious_score _ _)) in Ha.
      apply filter_In in Ha as [Ha Hscore].
      apply in_map_iff in Ha as (m & <- & Hm).
      apply Hopen in Hm as [Hm Hc].
      exists m. repeat split; try assumption.
      now apply Qle_bool_iff.
    - intros (m & Hm & Hc & -> & Hscore).
      assert (Hin : In m open) by (apply Hopen; split; assumption).
      destruct open as [|m0 open']; [ destruct Hin | ].
      cbn [is_empty].
      apply (proj2 (sorted_reverse_In Kalshi.suspicious_score _ _)), filter_In.
      split; [ now apply in_map | now apply Qle_bool_iff ]. }
  split; [ | split; [ exact Hchar | ] ].
  - unfold results, Kalshi.run_scan.
    destruct (is_empty _); [ constructor | apply sorted_reverse_desc ].
  - apply Forall_forall. intros a Ha.
    apply Hchar in Ha as (m & _ & Hc & -> & _).
    unfold Kalshi.analyze_market. cbn [Kalshi.closed].
    destruct Hc as [-> | ->]; reflexivity.
Qed.

(** X19: the Kalshi skew is 0 when the two prices sum to 0, does not
    change when the two prices are swapped, and lies in [0, 1] for
    non-negative prices; for a market with a positive price sum the two
    displayed percentages add up to 100, the suspicious score is the
    distance of the yes percentage from 50 divided by 5, and it reaches the
    default threshold 7 exactly when one side is at 85 percent or more. *)
Theorem kalshi_skew_properties (yes no : Q) :
  (yes + no == 0 -> Kalshi.calculate_skew yes no = 0)
  /\ Kalshi.calculate_skew yes no == Kalshi.calculate_skew no yes
  /\ (0 <= yes -> 0 <= no -> 0 <= Kalshi.calculate_skew yes no <= 1)
  /\ (0 < yes + no ->
      forall m,
        Kalshi.m_yes_price m = Some yes ->
        Kalshi.m_no_price m = Some no ->
        let a := Kalshi.analyze_market m in
        Kalshi.yes_price a + Kalshi.no_price a == 100
        /\ Kalshi.suspicious_score a == Qabs (Kalshi.yes_price a - 50) / 5
        /\ (7 <= Kalshi.suspicious_score a <->
            85 <= Kalshi.yes_price a \/ 85 <= Kalshi.no_price a)).
Proof.
  assert (Hswap : forall t, ~ t == 0 -> yes + no == t ->
                            no / t == 1 - yes / t).
  { intros t Ht Hsum. rewrite <- Hsum. field. now rewrite Hsum. }
  split; [ | split; [ | split ] ].
  - intros Hz. unfold Kalshi.calculate_skew.
    apply Qeq_bool_iff in Hz. rewrite Hz. reflexivity.
  - unfold Kalshi.calculate_skew.
    destruct (Qeq_bool (yes + no) 0) eqn:E1;
      destruct (Qeq_bool (no + yes) 0) eqn:E2.
    + reflexivity.
    + apply Qeq_bool_iff in E1. apply Qeq_bool_false in E2.
      exfalso. apply E2. lra.
    + apply Qeq_bool_iff in E2. apply Qeq_bool_false in E1.
      exfalso. apply E1. lra.
    + apply Qeq_bool_false in E1.
      assert (Hno : no / (no + yes) == 1 - yes / (yes + no)).
      { rewrite <- (Hswap (yes + no) E1 (Qeq_refl _)). 
        assert (Ht : no + yes == yes + no) by ring.
        rewrite Ht. reflexivity. }
      rewrite Hno.
      destruct (Qabs_cases (yes / (yes + no) - (1 # 2))) as [[H1 H2] | [H1 H2]];
        destruct (Qabs_cases (1 - yes / (yes + no) - (1 # 2)))
          as [[H3 H4] | [H3 H4]];
        lra.
  - intros Hy Hn. unfold Kalshi.calculate_skew.
    destruct (Qeq_bool (yes + no) 0) eqn:E; [ lra | ].
    apply Qeq_bool_false in E.
    assert (Hpos : 0 < yes + no) by lra.
    assert (H0 : 0 <= yes / (yes + no)) by (now apply Qdiv_nonneg).
    assert (H1 : yes / (yes + no) <= 1) by (apply Qle_shift_div_r; lra).
    destruct (Qabs_cases (yes / (yes + no) - (1 # 2))) as [[H2 H3] | [H2 H3]];
      lra.
  - intros Hpos m Hyes Hno.
    unfold Kalshi.analyze_market, Kalshi.calculate_skew.
    rewrite Hyes, Hno.
    cbn [get2 Kalshi.yes_price Kalshi.no_price Kalshi.suspicious_score].
    cbn zeta.
    assert (Hgt : Qgt_bool (yes + no) 0 = true) by (now apply Qgt_bool_true).
    assert (Hnz : Qeq_bool (yes + no) 0 = false) by (apply Qeq_bool_false; lra).
    rewrite Hgt, Hnz.
    assert (Hn : no / (yes + no) == 1 - yes / (yes + no))
      by (apply Hswap; [ lra | reflexivity ]).
    rewrite Hn.
    set (share := yes / (yes + no)).
    rewrite !Qdiv_const.
    assert (Habs : Qabs (share * 100 - 50) == Qabs (share - (1 # 2)) * 100).
    { destruct (Qabs_cases (share * 100 - 50)) as [[H1 H2] | [H1 H2]];
        destruct (Qabs_cases (share - (1 # 2))) as [[H3 H4] | [H3 H4]];
        lra. }
    rewrite Habs.
    destruct (Qabs_cases (share - (1 # 2))) as [[H3 H4] | [H3 H4]];
      repeat split; intros; try lra;
      match goal with
      | H : _ \/ _ |- _ => destruct H; lra
      end.
Qed.

Lemma kalshi_skew_properties_witness :
  Kalshi.calculate_skew 0 0 = 0
  /\ 0 <= Kalshi.calculate_skew (99 # 100) (1 # 100) <= 1
  /\ Kalshi.yes_price (Kalshi.analyze_market lopsided_market)
     + Kalshi.no_price (Kalshi.analyze_market lopsided_market) == 100
  /\ 7 <= Kalshi.suspicious_score (Kalshi.analyze_market lopsided_market).
Proof.
  split; [ | split; [ | split ] ].
  - apply (proj1 (kalshi_skew_properties 0 0)). reflexivity.
  - apply (proj1 (proj2 (proj2 (kalshi_skew_properties (99 # 100) (1 # 100)))));
      discriminate.
  - apply (proj2 (proj2 (proj2 (kalshi_skew_properties (99 # 100)
                                   (1 - (99 # 100)))))
             eq_refl lopsided_market eq_refl eq_refl).
  - apply (proj2 (proj2 (proj2 (kalshi_skew_properties (99 # 100)
                                   (1 - (99 # 100)))))
             eq_refl lopsided_market eq_refl eq_refl).
    left. discriminate.
Defined.

(** ** Zero volume in the skew indicators *)

(** X20: on trades whose grouped outcome volumes sum to 0 the two copies
    of the skew indicator part ways: the detector returns 0, the
    backtester raises [ZeroDivisionError] while it builds the outcome
    distribution; whenever the sum is not 0 the backtester returns. *)
Theorem skew_zero_volume_diverges (trades : list trade) :
  let volumes := outcome_volumes trades in
  let total := py_sum (values volumes) in
  (volumes <> [] -> total == 0 ->
   Detector.analyze_outcome_skew trades = 0
   /\ Backtester.analyze_outcome_skew trades = Raise ZeroDivisionError)
  /\ (~ total == 0 ->
      exists sk, Backtester.analyze_outcome_skew trades = Ok sk).
Proof.
  intros volumes total.
  unfold Detector.analyze_outcome_skew, Backtester.analyze_outcome_skew.
  fold volumes. fold total.
  split.
  - intros Hne Hz.
    destruct trades as [|t trades]; [ now contradiction Hne | ].
    cbn [is_empty].
    apply Qeq_bool_iff in Hz.
    split.
    + destruct (is_empty volumes); [ reflexivity | ].
      rewrite Hz. reflexivity.
    + destruct (values volumes) as [|vol0 vols] eqn:Evals.
      { destruct volumes; [ now contradiction Hne | discriminate Evals ]. }
      destruct (sorted_reverse snd volumes) as [|item rest] eqn:Es.
      { apply sorted_nil in Es. contradiction. }
      simpl mapM. unfold py_div at 1. rewrite Hz. reflexivity.
  - intros Hnz.
    destruct (is_empty trades); [ eexists; reflexivity | ].
    destruct (values volumes); [ eexists; reflexivity | ].
    rewrite (distribution_eq total _ Hnz). cbn [bind].
    eexists. reflexivity.
Qed.

Lemma skew_zero_volume_diverges_witness :
  (Detector.analyze_outcome_skew idle_trades = 0
   /\ Backtester.analyze_outcome_skew idle_trades = Raise ZeroDivisionError)
  /\ exists sk, Backtester.analyze_outcome_skew two_sided_trades = Ok sk.
Proof.
  split.
  - apply (proj1 (skew_zero_volume_diverges idle_trades)).
    + vm_compute. discriminate.
    + reflexivity.
  - apply (proj2 (skew_zero_volume_diverges two_sided_trades)).
    intros H. vm_compute in H. discriminate H.
Defined.

(** ** The partitions around the signal *)

(** X21: around a timestamp every trade falls in exactly one of three
    classes: before it ([get_trades_before_timestamp]), in the 24 hours
    from it ([get_trades_after_timestamp]), or 24 hours or more after
    it. *)
Theorem trades_before_after_partition (trades : list trade) (ts : Q)
    (t : trade) :
  In t trades ->
  let before := Backtester.get_trades_before_timestamp trades ts in
  let after := Backtester.get_trades_after_timestamp trades ts 24 in
  (In t before /\ ~ In t after /\ trade_timestamp t < ts)
  \/ (~ In t before /\ In t after
      /\ ts <= trade_timestamp t < ts + 86400)
  \/ (~ In t before /\ ~ In t after /\ ts + 86400 <= trade_timestamp t).
Proof.
  intros Hin before after.
  unfold before, after, Backtester.get_trades_before_timestamp,
    Backtester.get_trades_after_timestamp.
  rewrite !filter_In, andb_true_iff, Qle_bool_iff, !Qlt_bool_true.
  destruct (Qlt_le_dec (trade_timestamp t) ts) as [H1 | H1];
    [ left | right;
      destruct (Qlt_le_dec (trade_timestamp t) (ts + 86400)) as [H2 | H2];
      [ left | right ] ];
    repeat split; try assumption; try lra; intros [_ H]; lra.
Qed.

Lemma trades_before_after_partition_witness :
  let t := sample_trade 3700 "YES" "0xa" (3 # 5) 1000 in
  ~ In t (Backtester.get_trades_before_timestamp sample_trades 100)
  /\ In t (Backtester.get_trades_after_timestamp sample_trades 100 24).
Proof.
  intros t.
  assert (Hin : In t sample_trades)
    by (apply in_or_app; right; now left).
  destruct (trades_before_after_partition sample_trades 100 t Hin)
    as [(_ & _ & H) | [(Hb & Ha & _) | (_ & _ & H)]].
  - vm_compute in H. discriminate H.
  - split; assumption.
  - exfalso. apply H. reflexivity.
Defined.
